(** * weldx.core: MathematicalExpression, TimeSeries and GenericSeries

    A shallow embedding of [src/weldx/core.py].  The three classes of the
    module are embedded function by function; the numeric back ends they
    delegate to (numpy, pint, xarray, sympy) and the two helper modules of
    the package that the file imports ([weldx.util], [weldx.time]) enter as
    interfaces (type classes), so that every statement below is about the
    control flow and the data handling of [core.py] itself. *)

From stdpp Require Import base option list gmap strings sets pretty.
From Stdlib Require Import ZArith Lia.

Set Default Proof Using "Type".
Local Open Scope string_scope.
Local Open Scope list_scope.

(** ** Python exceptions and results *)

Module Py.

(** The exception classes that [core.py] raises or catches.  Every one of
    them derives from Python's [Exception]. *)
Inductive exc : Type :=
| ValueError (msg : string)
| TypeError (msg : string)
| KeyError (key : string)
| IndexError (msg : string)
| AttributeError (msg : string)
| UnboundLocalError (msg : string)
| DimensionalityError (msg : string)   (* pint.errors.DimensionalityError *)
| UndefinedUnitError (msg : string)    (* pint.errors.UndefinedUnitError *)
| Exception (msg : string).

#[export] Instance exc_eq_dec : EqDecision exc.
Proof. solve_decision. Defined.

(** [repr] of a Python [str] (no escaping of embedded quotes). *)
Definition repr_str (s : string) : string := "'" +:+ s +:+ "'".

(** [str(e)]: the message; for a [KeyError] the [repr] of its key. *)
Definition str (e : exc) : string :=
  match e with
  | KeyError k => repr_str k
  | ValueError m | TypeError m | IndexError m | AttributeError m
  | UnboundLocalError m | DimensionalityError m | UndefinedUnitError m
  | Exception m => m
  end.

Definition is_ValueError (e : exc) : bool :=
  match e with ValueError _ => true | _ => false end.
Definition is_DimensionalityError (e : exc) : bool :=
  match e with DimensionalityError _ => true | _ => false end.

(** A computation either returns or raises. *)
Inductive result (A : Type) : Type :=
| Ok (a : A)
| Raise (e : exc).
Arguments Ok {A} a.
Arguments Raise {A} e.

#[export] Instance result_ret : MRet result := λ A a, Ok a.
#[export] Instance result_bind : MBind result := λ A B f r,
  match r with Ok a => f a | Raise e => Raise e end.
#[export] Instance result_fmap : FMap result := λ A B f r,
  match r with Ok a => Ok (f a) | Raise e => Raise e end.

Definition is_Ok {A} (r : result A) : bool :=
  match r with Ok _ => true | Raise _ => false end.

(** [for x in xs: body(x)] over a result-valued body, threading an
    accumulator; the first exception ends the loop. *)
Fixpoint for_each {A S} (body : S → A → result S) (xs : list A) (s : S)
  : result S :=
  match xs with
  | [] => Ok s
  | x :: xs' => s' ← body s x; for_each body xs' s'
  end.

(** *** Dictionaries

    A Python [dict] keeps its keys unique and in insertion order; it is an
    association list here.  [dict_set] overwrites in place or appends,
    [dict_pop] removes the entry of a key. *)
Definition dict (V : Type) : Type := list (string * V).

Definition keys {V} (d : dict V) : list string := d.*1.
Definition values {V} (d : dict V) : list V := d.*2.
#[global] Arguments keys {V} d : simpl never.
#[global] Arguments values {V} d : simpl never.

Fixpoint dict_get {V} (d : dict V) (k : string) : option V :=
  match d with
  | [] => None
  | (k', v) :: d' => if decide (k = k') then Some v else dict_get d' k
  end.

Definition contains {V} (d : dict V) (k : string) : bool :=
  bool_decide (k ∈ keys d).

Fixpoint dict_set {V} (d : dict V) (k : string) (v : V) : dict V :=
  match d with
  | [] => [(k, v)]
  | (k', v') :: d' =>
      if decide (k = k') then (k, v) :: d' else (k', v') :: dict_set d' k v
  end.

Fixpoint dict_pop {V} (d : dict V) (k : string) : dict V :=
  match d with
  | [] => []
  | (k', v') :: d' =>
      if decide (k = k') then d' else (k', v') :: dict_pop d' k
  end.

(** [d[k]] and [d.pop(k)] raise [KeyError] on a missing key. *)
Definition getitem {V} (d : dict V) (k : string) : result V :=
  match dict_get d k with Some v => Ok v | None => Raise (KeyError k) end.

Definition pop {V} (d : dict V) (k : string) : result (dict V) :=
  if contains d k then Ok (dict_pop d k) else Raise (KeyError k).

(** [repr] of a set of strings, as it is interpolated into messages. *)
Definition repr_set (s : gset string) : string :=
  "{" +:+ String.concat ", " (repr_str <$> elements s) +:+ "}".

End Py.
Export Py.

(** ** The numeric back end: numpy arrays and pint units

    [scalar] is the element type of a numpy array (a float, or a
    [timedelta64] for time coordinates); no statement below computes with
    it.  [Unit] stands for [pint.Unit].  The operations are the ones
    [core.py] calls on quantities and units. *)

Class Numeric : Type := {
  scalar : Type;
  scalar_eq_dec :: EqDecision scalar;
  of_int : Z → scalar;
  Unit : Type;
  Unit_eq_dec :: EqDecision Unit;
  (** [weldx.constants.U_]: parse a unit. *)
  U_ : string → Unit;
  (** Whether the unit registry defines the unit that the string names; of
      another string [U_] raises pint's [UndefinedUnitError]. *)
  defined_unit : string → bool;
  (** [str(unit)], as [pint-xarray] stores it in [attrs["units"]]. *)
  unit_str : Unit → string;
  (** The unit of [quantity.to_reduced_units()]. *)
  to_reduced_units : Unit → Unit;
  (** [quantity.to(unit)]: the element-wise conversion factor, or a
      [DimensionalityError]. *)
  convert : Unit → string → result (scalar → scalar);
  (** [unit.dimensionality == required], and [str(unit.dimensionality)]. *)
  has_dimensionality : Unit → Unit → bool;
  dimensionality_str : Unit → string;
}.

Module np.
Section np.
Context `{Numeric}.

(** A numpy array: its shape and its elements in row-major order. *)
Record ndarray : Type := mk { shape : list nat; flat : list scalar }.

#[global] Instance ndarray_eq_dec : EqDecision ndarray.
Proof. solve_decision. Defined.

Definition ndim (a : ndarray) : nat := length (shape a).

(** [a.size]: the product of the shape. *)
Definition size (a : ndarray) : nat := foldr Nat.mul 1 (shape a).

(** [np.iterable(a)]: false exactly for a zero-dimensional value. *)
Definition iterable (a : ndarray) : bool :=
  match shape a with [] => false | _ => true end.

(** [np.expand_dims(a, 0)]. *)
Definition expand_dims0 (a : ndarray) : ndarray :=
  {| shape := 1 :: shape a; flat := flat a |}.

(** A zero-dimensional array holding one number, and [range(n)]. *)
Definition scalar_of (z : Z) : ndarray := {| shape := []; flat := [of_int z] |}.
Definition arange (n : nat) : ndarray :=
  {| shape := [n]; flat := (λ i, of_int (Z.of_nat i)) <$> seq 0 n |}.
Definition array (l : list Z) : ndarray :=
  {| shape := [length l]; flat := of_int <$> l |}.

(** Row-major strides and the enumeration of all index tuples of a shape,
    used by [transpose]. *)
Fixpoint strides (sh : list nat) : list nat :=
  match sh with
  | [] => []
  | _ :: t => foldr Nat.mul 1 t :: strides t
  end.

Fixpoint indices (sh : list nat) : list (list nat) :=
  match sh with
  | [] => [[]]
  | n :: t => i ← seq 0 n; (λ idx, i :: idx) <$> indices t
  end.

Definition offset (idx st : list nat) : nat :=
  foldr Nat.add 0 (zip_with Nat.mul idx st).

(** [a.transpose(axes)]: axis [j] of the result is axis [axes[j]] of [a]. *)
Definition transpose (axes : list nat) (a : ndarray) : ndarray :=
  let new_shape := (λ ax, default 0 (shape a !! ax)) <$> axes in
  let new_strides := (λ ax, default 0 (strides (shape a) !! ax)) <$> axes in
  {| shape := new_shape;
     flat := omap (λ idx, flat a !! offset idx new_strides) (indices new_shape) |}.

End np.
End np.

Module pint.
Section pint.
Context `{Numeric}.

Record Quantity : Type := mk { magnitude : np.ndarray; units : Unit }.

#[global] Instance Quantity_eq_dec : EqDecision Quantity.
Proof. solve_decision. Defined.

(** What the code passes where an array-like value is expected: a plain
    number or array, or a quantity.  (A string is parsed by pint into a
    quantity before [core.py] looks at it and is represented by that
    quantity.) *)
Inductive array_like : Type :=
| Plain (a : np.ndarray)
| Quant (q : Quantity).

(** [Q_(v)]: a plain value becomes dimensionless, a quantity is kept. *)
Definition Q_ (v : array_like) : Quantity :=
  match v with
  | Plain a => {| magnitude := a; units := U_ EmptyString |}
  | Quant q => q
  end.

(** [Q_(value, unit)]. *)
Definition Q_of (a : np.ndarray) (u : Unit) : Quantity :=
  {| magnitude := a; units := u |}.

Definition expand_dims0 (q : Quantity) : Quantity :=
  {| magnitude := np.expand_dims0 (magnitude q); units := units q |}.

(** [q.to(unit)]. *)
Definition to (q : Quantity) (unit : string) : result Quantity :=
  f ← convert (units q) unit;
  Ok {| magnitude := {| np.shape := np.shape (magnitude q);
                        np.flat := f <$> np.flat (magnitude q) |};
        units := U_ unit |}.

End pint.
End pint.

(** ** xarray: labeled arrays

    The part of [xarray.DataArray] that [core.py] uses: named dimensions,
    a payload that is a plain array or a pint quantity, coordinates and
    attributes, and the constructor with the checks that make it raise. *)

Module xr.
Section xr.
Context `{Numeric}.

(** A coordinate variable: its own dimensions, values and attributes. *)
Record Coordinate : Type := coordinate {
  c_dims : list string;
  c_data : np.ndarray;
  c_attrs : gmap string string;
}.

#[global] Instance Coordinate_eq_dec : EqDecision Coordinate.
Proof. solve_decision. Defined.

Record DataArray : Type := mk {
  dims : list string;
  data : np.ndarray;
  (** [Some u] when the payload is a [pint.Quantity] of unit [u]. *)
  units : option Unit;
  coords : gmap string Coordinate;
  attrs : gmap string string;
}.

#[global] Instance DataArray_eq_dec : EqDecision DataArray.
Proof. solve_decision. Defined.

(** [da.data]. *)
Definition payload (da : DataArray) : pint.array_like :=
  match units da with
  | Some u => pint.Quant (pint.Q_of (data da) u)
  | None => pint.Plain (data da)
  end.

Definition shape (da : DataArray) : list nat := np.shape (data da).
Definition size (da : DataArray) : nat := np.size (data da).

(** The [dims] argument of the constructor: one name or a sequence. *)
Inductive dimspec : Type :=
| DStr (s : string)
| DList (l : list string).

#[global] Instance dimspec_eq_dec : EqDecision dimspec.
Proof. solve_decision. Defined.

(** xarray reads a string as a single dimension name. *)
Definition dim_names (d : dimspec) : list string :=
  match d with DStr s => [s] | DList l => l end.

Definition default_dims (n : nat) : list string :=
  (λ i : nat, "dim_" +:+ pretty i) <$> seq 0 n.

(** Sizes by dimension name. *)
Definition sizes (da : DataArray) : dict nat := zip (dims da) (shape da).

(** A plain one-dimensional array given as the value of [coords[name]]
    is a coordinate along the dimension [name]. *)
Definition index_coordinate (name : string) (a : np.ndarray) : Coordinate :=
  {| c_dims := [name]; c_data := a; c_attrs := ∅ |}.

(** A labeled array given as the value of a coordinate. *)
Definition as_coordinate (da : DataArray) : Coordinate :=
  {| c_dims := dims da; c_data := data da; c_attrs := attrs da |}.

(** A value of the [coords] dictionary of the constructor: a plain array
    or a labeled array. *)
Inductive coord_arg : Type :=
| CoordPlain (a : np.ndarray)
| CoordArray (da : DataArray).

(** The conversion of such a value to a coordinate variable: a plain
    array is a scalar coordinate or an index along [name]; with more
    dimensions it needs explicit names. *)
Definition as_variable (name : string) (v : coord_arg) : result Coordinate :=
  match v with
  | CoordArray da => Ok (as_coordinate da)
  | CoordPlain a =>
      match np.shape a with
      | [] => Ok {| c_dims := []; c_data := a; c_attrs := ∅ |}
      | [_] => Ok (index_coordinate name a)
      | _ => Raise (ValueError ("cannot set variable " +:+ repr_str name
                      +:+ " with " +:+ pretty (np.ndim a)
                      +:+ "-dimensional data without explicit dimension names. Pass a tuple of (dims, data) instead."))
      end
  end.

(** The checks of the constructor on one coordinate: it lives on
    dimensions of the array, with their sizes, and a coordinate named
    like a dimension is an index along it. *)
Definition check_coordinate (sz : dict nat) (_ : unit)
    (kc : string * Coordinate) : result unit :=
  let '(k, c) := kc in
  if bool_decide (Exists (λ d : string, d ∉ keys sz) (c_dims c))
  then Raise (ValueError ("coordinate " +:+ k +:+ " has dimensions that are not a subset of the DataArray dimensions"))
  else
    _ ← for_each (λ _ (dn : string * nat),
          if bool_decide (dict_get sz dn.1 ≠ Some dn.2)
          then Raise (ValueError ("conflicting sizes for dimension " +:+ repr_str dn.1))
          else Ok ()) (zip (c_dims c) (np.shape (c_data c))) ();
    match dict_get sz k with
    | Some n =>
        if bool_decide (np.shape (c_data c) ≠ [n])
        then Raise (ValueError ("coordinate " +:+ repr_str k +:+ " is a DataArray dimension, but it does not have the shape matching the dimension size"))
        else Ok ()
    | None => Ok ()
    end.

(** [xr.DataArray(data, dims=dims, coords=coords)]. *)
Definition DataArray_init (p : pint.array_like) (dims_arg : option dimspec)
    (coords_arg : dict coord_arg) : result DataArray :=
  let '(a, u) := match p with
                 | pint.Plain a => (a, None)
                 | pint.Quant q => (pint.magnitude q, Some (pint.units q))
                 end in
  ds ← match dims_arg with
       | Some d => Ok (dim_names d)
       | None =>
           if bool_decide (coords_arg ≠ [] ∧ length coords_arg = np.ndim a)
           then Raise (ValueError "inferring DataArray dimensions from dictionary like ``coords`` is no longer supported. Use an explicit list of ``dimensions`` instead.")
           else Ok (default_dims (np.ndim a))
       end;
  if bool_decide (length ds ≠ np.ndim a)
  then Raise (ValueError ("different number of dimensions on data and dims: "
                +:+ pretty (np.ndim a) +:+ " vs " +:+ pretty (length ds)))
  else
    new_coords ← for_each (λ acc (kv : string * coord_arg),
                    c ← as_variable kv.1 kv.2;
                    Ok (dict_set acc kv.1 c)) coords_arg [];
    _ ← for_each (check_coordinate (zip ds (np.shape a))) new_coords ();
    Ok {| dims := ds; data := a; units := u;
          coords := list_to_map new_coords; attrs := ∅ |}.

(** [xr.DataArray(data)] with nothing else given; it cannot raise. *)
Definition wrap (p : pint.array_like) : DataArray :=
  match p with
  | pint.Plain a =>
      {| dims := default_dims (np.ndim a); data := a; units := None;
         coords := ∅; attrs := ∅ |}
  | pint.Quant q =>
      {| dims := default_dims (np.ndim (pint.magnitude q));
         data := pint.magnitude q; units := Some (pint.units q);
         coords := ∅; attrs := ∅ |}
  end.

(** [da.rename({old: new})] for a dimension name. *)
Definition rename_in (old new : string) (l : list string) : list string :=
  (λ d, if decide (d = old) then new else d) <$> l.

Definition rename (da : DataArray) (old new : string) : result DataArray :=
  if bool_decide ((old ∉ dims da) ∧ (coords da !! old = None))
  then Raise (ValueError ("cannot rename " +:+ repr_str old +:+ " because it is not a variable or dimension in this dataset"))
  else if bool_decide ((new ∈ dims da) ∨ is_Some (coords da !! new))
  then Raise (ValueError ("the new name " +:+ repr_str new +:+ " conflicts"))
  else
    let rename_coord c :=
      {| c_dims := rename_in old new (c_dims c);
         c_data := c_data c; c_attrs := c_attrs c |} in
    Ok {| dims := rename_in old new (dims da);
          data := data da; units := units da;
          coords := list_to_map
                      ((λ kc : string * Coordinate,
                          (if decide (kc.1 = old) then new else kc.1,
                           rename_coord kc.2))
                         <$> map_to_list (coords da));
          attrs := attrs da |}.

(** [da.assign_coords({name: c})]: the coordinate may not bring a new
    dimension nor another size for an existing one. *)
Definition assign_coords (da : DataArray) (name : string) (c : Coordinate)
    : result DataArray :=
  if bool_decide (Exists (λ d : string, d ∉ dims da) (c_dims c))
  then Raise (ValueError "cannot add coordinates with new dimensions to a DataArray")
  else
    _ ← for_each (λ _ (dn : string * nat),
          if bool_decide (dict_get (sizes da) dn.1 ≠ Some dn.2)
          then Raise (ValueError ("conflicting sizes for dimension " +:+ repr_str dn.1))
          else Ok ()) (zip (c_dims c) (np.shape (c_data c))) ();
    Ok {| dims := dims da; data := data da; units := units da;
          coords := <[name := c]> (coords da); attrs := attrs da |}.

(** Position of a name in a list of dimensions. *)
Fixpoint index_of (d : string) (l : list string) : option nat :=
  match l with
  | [] => None
  | d' :: l' => if decide (d = d') then Some 0 else S <$> index_of d l'
  end.

(** [da.transpose(d, ...)]: [d] becomes the outermost dimension, the
    others keep their order. *)
Definition transpose_first (da : DataArray) (d : string) : result DataArray :=
  match index_of d (dims da) with
  | None =>
      Raise (ValueError (d +:+ " must be a permuted list of the DataArray dimensions"))
  | Some i =>
      let axes := i :: filter (λ j, j ≠ i) (seq 0 (length (dims da))) in
      Ok {| dims := d :: filter (λ d', d' ≠ d) (dims da);
            data := np.transpose axes (data da);
            units := units da; coords := coords da; attrs := attrs da |}
  end.

(** [a.identical(b)], decided on the fields of the two arrays: same
    dimensions, values, unit, coordinates and attributes.  Arrays with the
    same fields are identical for xarray, and this is the direction that the
    statements below rely on; xarray also takes for identical two arrays
    whose values agree after a conversion of the unit. *)
Definition identical (a b : DataArray) : bool :=
  bool_decide (dims a = dims b)
  && bool_decide (data a = data b)
  && bool_decide (units a = units b)
  && bool_decide (coords a = coords b)
  && bool_decide (attrs a = attrs b).

(** [da.pint.dequantify()]: the unit moves into [attrs["units"]]. *)
Definition dequantify (da : DataArray) : DataArray :=
  match units da with
  | Some u =>
      {| dims := dims da; data := data da; units := None;
         coords := coords da; attrs := <["units" := unit_str u]> (attrs da) |}
  | None => da
  end.

(** [da.coords[k]]: a stored coordinate, else the default integer index of
    a dimension without coordinate, else [KeyError(k)]. *)
Definition coords_getitem (da : DataArray) (k : string) : result Coordinate :=
  match coords da !! k with
  | Some c => Ok c
  | None =>
      match dict_get (sizes da) k with
      | Some n => Ok {| c_dims := [k]; c_data := np.arange n; c_attrs := ∅ |}
      | None => Raise (KeyError k)
      end
  end.

(** [attrs[k]]. *)
Definition attrs_getitem (a : gmap string string) (k : string) : result string :=
  match a !! k with Some v => Ok v | None => Raise (KeyError k) end.

(** [da.attrs[k] = v]. *)
Definition attrs_setitem (da : DataArray) (k v : string) : DataArray :=
  {| dims := dims da; data := data da; units := units da;
     coords := coords da; attrs := <[k := v]> (attrs da) |}.

(** [len(da.time)]: attribute access finds the coordinate (or the default
    index of the dimension) of that name; its length is its first extent. *)
Definition len_time (da : DataArray) : result nat :=
  match coords_getitem da "time" with
  | Ok c =>
      match np.shape (c_data c) with
      | n :: _ => Ok n
      | [] => Raise (TypeError "len() of unsized object")
      end
  | Raise _ =>
      Raise (AttributeError "'DataArray' object has no attribute 'time'")
  end.

End xr.
End xr.

(** A bound parameter of an expression is a quantity or a labeled array. *)
Inductive quantity_or_array `{Numeric} : Type :=
| PQuantity (q : pint.Quantity)
| PDataArray (da : xr.DataArray).

(** ** sympy

    A parsed formula is opaque: what [core.py] asks of it is its set of free
    symbols (as the names [str(symbol)], in the order in which
    [tuple(free_symbols)] lists them), the numeric function that
    [sympy.lambdify] compiles for it, its [repr], and two comparisons. *)

Class Sympy `{Numeric} : Type := {
  Expr : Type;
  sympify : string → result Expr;
  free_symbols : Expr → list string;
  (** The body of the compiled function; its positional parameters are the
      free symbols, in the order of [free_symbols]. *)
  lambdify : Expr → list xr.DataArray → result xr.DataArray;
  expr_repr : Expr → string;
  (** [a == b]: structural equality. *)
  expr_eqb : Expr → Expr → bool;
  (** [simplify(a - b) == 0]. *)
  simplify_difference_is_zero : Expr → Expr → bool;
}.

(** ** weldx.util and weldx.time

    The two modules of the package that [core.py] imports and that are not
    part of the embedded file.  [Time] is the time class of [weldx.time]
    with the conversions that [TimeSeries] calls. *)

Record interp_options : Type := {
  method : option string;
  assume_sorted : option bool;
  broadcast_missing : option bool;
}.

Class WeldxUtil `{Numeric} : Type := {
  xr_interp_like :
    xr.DataArray → dict xr.DataArray → interp_options → result xr.DataArray;
  xr_check_coords : xr.DataArray → dict (dict (list string)) → result bool;
  compare_nested : dict quantity_or_array → dict quantity_or_array → bool;
}.

Class WeldxTime `{Numeric} : Type := {
  Timestamp : Type;
  types_time_like : Type;
  Time : Type;
  (** [Time(time, time_ref)]. *)
  Time_init : types_time_like → option Timestamp → result Time;
  (** The values that are passed where a time is expected. *)
  of_Time : Time → types_time_like;
  of_quantity : pint.Quantity → types_time_like;
  of_timedelta_array : np.ndarray → types_time_like;
  (** [pd.Timedelta(0)]. *)
  Timedelta_0 : types_time_like;
  as_timedelta_index : Time → np.ndarray;
  as_quantity : Time → string → pint.Quantity;
  as_data_array : Time → xr.DataArray;
  Time_reference_time : Time → option Timestamp;
}.

(** [str(value)] of a bound parameter, as messages interpolate it. *)
Class Formatting `{Numeric} : Type := {
  format_value : quantity_or_array → string;
}.

(** The double quote, the line feed and the tabulator, for messages that
    contain them. *)
Definition dq : string := String (Ascii.ascii_of_nat 34) EmptyString.
Definition nl : string := String (Ascii.ascii_of_nat 10) EmptyString.
Definition tab : string := String (Ascii.ascii_of_nat 9) EmptyString.

(** ** MathematicalExpression *)

Module MathematicalExpression.
Section MathematicalExpression.
Context `{Numeric} `{!Sympy} `{!WeldxUtil} `{!Formatting}.

(** [self.function] is [lambdify] of the stored formula and is not kept
    as a field of its own. *)
Record t : Type := mk {
  _expression : Expr;
  _parameters : dict quantity_or_array;
}.

(** The [expression] argument of the constructor. *)
Inductive expression_arg : Type :=
| FromStr (s : string)
| FromExpr (e : Expr).

(** A value of the [parameters] dictionary: a value, a pair
    [(value, dims)], or a labeled array. *)
Inductive parameter_arg : Type :=
| Value (v : pint.array_like)
| Tuple (v : pint.array_like) (d : xr.dimspec)
| Array (da : xr.DataArray).

(** What is passed as [params]: a dictionary, or something else (of the
    named type). *)
Inductive parameters_arg : Type :=
| Dict (d : dict parameter_arg)
| NotDict (type_name : string).

(** A keyword argument of [evaluate]. *)
Inductive variable_arg : Type :=
| VValue (v : pint.array_like)
| VArray (da : xr.DataArray).

Definition expression (self : t) : Expr := _expression self.
Definition parameters (self : t) : dict quantity_or_array := _parameters self.

(** One pass of the loop of [set_parameters]. *)
Definition set_parameters_step (variable_names : list string) (self : t)
    (kv : string * parameter_arg) : result t :=
  let '(k, v) := kv in
  if bool_decide (k ∉ variable_names)
  then Raise (ValueError ("The expression does not have a parameter "
                            +:+ dq +:+ k +:+ dq))
  else
    v' ← match v with
         | Tuple a d => PDataArray <$> xr.DataArray_init a (Some d) []
         | Array da => Ok (PDataArray da)
         | Value a => Ok (PQuantity (pint.Q_ a))
         end;
    Ok {| _expression := _expression self;
          _parameters := dict_set (_parameters self) k v' |}.

Definition set_parameters (self : t) (params : parameters_arg) : result t :=
  match params with
  | NotDict ty =>
      Raise (ValueError (dq +:+ "parameters" +:+ dq
                           +:+ " must be dictionary, got " +:+ ty))
  | Dict d =>
      let variable_names := free_symbols (_expression self) in
      for_each (set_parameters_step variable_names) d self
  end.

Definition set_parameter (self : t) (name : string) (value : parameter_arg)
    : result t :=
  set_parameters self (Dict [(name, value)]).

Definition __init__ (expression : expression_arg)
    (parameters : option parameters_arg) : result t :=
  e ← match expression with
      | FromExpr e => Ok e
      | FromStr s => sympify s
      end;
  let self := {| _expression := e; _parameters := [] |} in
  match parameters with
  | Some p => set_parameters self p
  | None => Ok self
  end.

Definition __repr__ (self : t) : string :=
  "<MathematicalExpression>" +:+ nl +:+ "Expression:" +:+ nl +:+ tab +:+ " "
  +:+ expr_repr (_expression self) +:+ nl +:+ "Parameters:" +:+ nl
  +:+ (if bool_decide (0 < length (_parameters self))
       then String.concat EmptyString
              ((λ kv : string * quantity_or_array,
                  tab +:+ kv.1 +:+ " = " +:+ format_value kv.2 +:+ nl)
                 <$> _parameters self)
       else tab +:+ "None").

Definition num_parameters (self : t) : Z :=
  Z.of_nat (length (_parameters self)).

Definition num_variables (self : t) : Z :=
  Z.of_nat (length (free_symbols (expression self)))
  - Z.of_nat (length (_parameters self)).

Definition get_variable_names (self : t) : list string :=
  filter (λ var : string, var ∉ keys (_parameters self))
         (free_symbols (_expression self)).

(** [equals]; [other] is [None] when the other object is not a
    [MathematicalExpression]. *)
Definition equals (self : t) (other : option t)
    (check_parameters check_structural_equality : bool) : bool :=
  match other with
  | Some other =>
      let equality :=
        if check_structural_equality
        then expr_eqb (expression self) (expression other)
        else simplify_difference_is_zero (expression self) (expression other) in
      if check_parameters
      then equality && compare_nested (_parameters self) (parameters other)
      else equality
  | None => false
  end.

Definition __eq__ (self : t) (other : option t) : bool :=
  equals self other true true.

(** Calling a Python function [def f(p1, ..., pn)] with keyword arguments
    only: an unknown keyword and a parameter left without value raise
    [TypeError]; otherwise the body runs on the values in parameter
    order. *)
Definition call_with_keywords (params : list string)
    (body : list xr.DataArray → result xr.DataArray)
    (kwargs : dict xr.DataArray) : result xr.DataArray :=
  match filter (λ k : string, k ∉ params) (keys kwargs) with
  | k :: _ =>
      Raise (TypeError ("_lambdifygenerated() got an unexpected keyword argument "
                          +:+ repr_str k))
  | [] =>
      match filter (λ p : string, p ∉ keys kwargs) params with
      | p :: rest =>
          Raise (TypeError ("_lambdifygenerated() missing "
                              +:+ pretty (length (p :: rest))
                              +:+ " required positional arguments: "
                              +:+ String.concat ", " (repr_str <$> p :: rest)))
      | [] => body (omap (dict_get kwargs) params)
      end
  end.

(** The call of [self.function] with the variables and the parameters
    unpacked as keyword arguments: a name given twice is a [TypeError]
    before the call. *)
Definition function (self : t) (variables parameters : dict xr.DataArray)
    : result xr.DataArray :=
  match filter (λ k : string, k ∈ keys variables) (keys parameters) with
  | k :: _ =>
      Raise (TypeError ("_lambdifygenerated() got multiple values for keyword argument "
                          +:+ repr_str k))
  | [] =>
      call_with_keywords (free_symbols (_expression self))
        (lambdify (_expression self)) (variables ++ parameters)
  end.

(** The message of the guard of [evaluate]. *)
Definition already_defined (names : gset string) : string :=
  "The variables " +:+ repr_set names +:+ " are already defined as parameters.".

(** The two dictionary comprehensions of [evaluate]: every value becomes
    a labeled array. *)
Definition variables_of (kwargs : dict variable_arg) : dict xr.DataArray :=
  prod_map id (λ v, match v with
                    | VArray da => da
                    | VValue v => xr.wrap (pint.Quant (pint.Q_ v))
                    end) <$> kwargs.

Definition parameters_of (self : t) : dict xr.DataArray :=
  prod_map id (λ v, match v with
                    | PDataArray da => da
                    | PQuantity q => xr.wrap (pint.Quant q)
                    end) <$> _parameters self.

Definition evaluate (self : t) (kwargs : dict variable_arg)
    : result xr.DataArray :=
  let intersection : gset string :=
    list_to_set (keys kwargs) ∩ list_to_set (keys (_parameters self)) in
  if bool_decide (0 < size intersection)
  then Raise (ValueError (already_defined intersection))
  else
    let variables := variables_of kwargs in
    let parameters := parameters_of self in
    function self variables parameters.

End MathematicalExpression.
End MathematicalExpression.

(** ** Objects

    [TimeSeries] objects have identity: [interp_time] creates a new object
    and then assigns to one of its attributes.  They live in a store,
    together with the log of the warnings issued so far; a computation
    returns or raises and leaves a store behind in either case. *)

Module Obj.
Section Obj.
Context {T : Type}.

Definition ref : Type := positive.

Record store : Type := mk {
  objects : gmap ref T;
  warnings : list string;
}.

Definition M (A : Type) : Type := store → result A * store.

Definition ret {A} (a : A) : M A := λ h, (Ok a, h).

Definition bind {A B} (m : M A) (k : A → M B) : M B := λ h,
  match m h with
  | (Ok a, h') => k a h'
  | (Raise e, h') => (Raise e, h')
  end.

Definition raise {A} (e : exc) : M A := λ h, (Raise e, h).

Definition lift {A} (r : result A) : M A := λ h, (r, h).

(** [try: m except Exception as e: handler(e)]; a handler that does not
    match re-raises. *)
Definition try_except {A} (m : M A) (handler : exc → M A) : M A := λ h,
  match m h with
  | (Ok a, h') => (Ok a, h')
  | (Raise e, h') => handler e h'
  end.

(** [warnings.warn(msg)]. *)
Definition warn (msg : string) : M unit := λ h,
  (Ok (), {| objects := objects h; warnings := warnings h ++ [msg] |}).

(** Creation of an object: a reference that is not in use. *)
Definition alloc (o : T) : M ref := λ h,
  let l := fresh (dom (objects h)) in
  (Ok l, {| objects := <[l := o]> (objects h); warnings := warnings h |}).

(** Reading the attributes of an object; [blank] stands for an object
    that has no attribute yet. *)
Definition load (blank : T) (l : ref) : M T := λ h,
  (Ok (default blank (objects h !! l)), h).

Definition write (l : ref) (o : T) : M unit := λ h,
  (Ok (), {| objects := <[l := o]> (objects h); warnings := warnings h |}).

End Obj.
Arguments store : clear implicits.
Arguments M : clear implicits.
End Obj.

#[global] Instance Obj_ret {T} : MRet (Obj.M T) := λ A, Obj.ret.
#[global] Instance Obj_bind {T} : MBind (Obj.M T) := λ A B k m, Obj.bind m k.

(** ** TimeSeries *)

Module TimeSeries.
Section TimeSeries.
Context `{Numeric} `{!Sympy} `{!WeldxUtil} `{!WeldxTime} `{!Formatting}.

(** [self._data]: a labeled array or an expression. *)
Inductive data_t : Type :=
| Discrete (da : xr.DataArray)
| Expression (me : MathematicalExpression.t).

Record t : Type := mk {
  _data : option data_t;
  _time_var_name : option string;
  _shape : option (list nat);
  _units : option Unit;
  _interp_counter : Z;
  _reference_time : option Timestamp;
}.

Definition set_data (d : data_t) (o : t) : t :=
  {| _data := Some d; _time_var_name := _time_var_name o;
     _shape := _shape o; _units := _units o;
     _interp_counter := _interp_counter o;
     _reference_time := _reference_time o |}.
Definition set_time_var_name (n : string) (o : t) : t :=
  {| _data := _data o; _time_var_name := Some n;
     _shape := _shape o; _units := _units o;
     _interp_counter := _interp_counter o;
     _reference_time := _reference_time o |}.
Definition set_units_shape (u : Unit) (sh : list nat) (o : t) : t :=
  {| _data := _data o; _time_var_name := _time_var_name o;
     _shape := Some sh; _units := Some u;
     _interp_counter := _interp_counter o;
     _reference_time := _reference_time o |}.
Definition set_interp_counter (n : Z) (o : t) : t :=
  {| _data := _data o; _time_var_name := _time_var_name o;
     _shape := _shape o; _units := _units o;
     _interp_counter := n;
     _reference_time := _reference_time o |}.
Definition set_reference_time (r : option Timestamp) (o : t) : t :=
  {| _data := _data o; _time_var_name := _time_var_name o;
     _shape := _shape o; _units := _units o;
     _interp_counter := _interp_counter o;
     _reference_time := r |}.

(** The attributes as the first lines of [__init__] set them. *)
Definition initial (reference_time : option Timestamp) : t :=
  {| _data := None; _time_var_name := None; _shape := None; _units := None;
     _interp_counter := 0; _reference_time := reference_time |}.

Local Abbreviation M := (Obj.M t).
Definition load (self : Obj.ref) : M t := Obj.load (initial None) self.
Definition modify (self : Obj.ref) (f : t → t) : M unit :=
  o ← load self; Obj.write self (f o).

Definition _valid_interpolations : list string :=
  ["step"; "linear"; "nearest"; "zero"; "slinear"; "quadratic"; "cubic"].

(** The data argument of the constructor: a quantity, a labeled array, an
    expression, or a value of another type (named). *)
Inductive array_arg : Type :=
| ArgQuantity (q : pint.Quantity)
| ArgDataArray (da : xr.DataArray)
| ArgOther (type_name : string).

Inductive data_arg : Type :=
| ArgArray (a : array_arg)
| ArgExpression (me : MathematicalExpression.t).

(** *** Read-only properties *)

Definition reference_time (o : t) : option Timestamp := _reference_time o.

Definition data_array (o : t) : option xr.DataArray :=
  match _data o with
  | Some (Discrete da) => Some da
  | _ => None
  end.

Definition interpolation (o : t) : result (option string) :=
  match _data o with
  | Some (Discrete da) =>
      Some <$> xr.attrs_getitem (xr.attrs da) "interpolation"
  | _ => Ok None
  end.

Definition time (o : t) : result (option Time) :=
  match _data o with
  | Some (Discrete da) =>
      n ← xr.len_time da;
      if bool_decide (1 < n)
      then
        c ← xr.coords_getitem da "time";
        Some <$> Time_init (of_timedelta_array (xr.c_data c)) (reference_time o)
      else Ok None
  | _ => Ok None
  end.

Definition is_expression (o : t) : bool :=
  match _data o with Some (Expression _) => true | _ => false end.
Definition is_discrete (o : t) : bool := negb (is_expression o).

Definition shape (o : t) : option (list nat) :=
  match _data o with
  | Some (Discrete da) => Some (xr.shape da)
  | _ => _shape o
  end.

Definition units (o : t) : result (option Unit) :=
  match _data o with
  | Some (Discrete da) =>
      match xr.units da with
      | Some u => Ok (Some u)
      | None => Raise (AttributeError "'numpy.ndarray' object has no attribute 'units'")
      end
  | _ => Ok (_units o)
  end.

(** *** Equality *)

(** [self == other]; [other] is [None] when the other object is not a
    [TimeSeries]. *)
Definition __eq__ (self : t) (other : option t) : bool :=
  match other with
  | None => false
  | Some other =>
      match _data self with
      | Some (Expression me) =>
          MathematicalExpression.__eq__ me
            (match _data other with
             | Some (Expression me') => Some me'
             | _ => None
             end)
      | Some (Discrete da) =>
          match _data other with
          | Some (Discrete da') =>
              match xr.units da' with
              | Some _ => xr.identical da da'
              | None => false
              end
          | _ => false
          end
      | None => false
      end
  end.

(** *** Construction from discrete values *)

Definition pattern_message (e : exc) : string :=
  "The provided 'DataArray' does not match the required pattern. It "
  +:+ "needs to have a dimension called 'time' with coordinates of type "
  +:+ "'timedelta64[ns]'. The error reported by the comparison function was:"
  +:+ nl +:+ str e.

Definition _check_data_array (data_array : xr.DataArray) : result unit :=
  match xr_check_coords data_array [("time", [("dtype", ["timedelta64[ns]"])])] with
  | Raise (KeyError k) => Raise (KeyError (pattern_message (KeyError k)))
  | Raise (TypeError m) => Raise (TypeError (pattern_message (TypeError m)))
  | Raise (ValueError m) => Raise (ValueError (pattern_message (ValueError m)))
  | Raise (DimensionalityError m) =>
      (* a [TypeError] by inheritance; its class cannot be rebuilt from a
         single message *)
      Raise (TypeError "__init__() missing 1 required positional argument: 'units2'")
  | Raise e => Raise e
  | Ok _ =>
      match xr.units data_array with
      | Some _ => Ok ()
      | None => Raise (TypeError "The data of the 'DataArray' must be a 'pint.Quantity'.")
      end
  end.

Definition _create_data_array (data : quantity_or_array) (time : Time)
    : result xr.DataArray :=
  match data with
  | PDataArray da => Ok da
  | PQuantity q =>
      da ← xr.rename (xr.wrap (pint.Quant q)) "dim_0" "time";
      xr.assign_coords da "time"
        (xr.index_coordinate "time" (as_timedelta_index time))
  end.

Definition unsupported_interpolation (interpolation : string) : string :=
  "A valid interpolation method must be specified if discrete "
  +:+ "values are used. " +:+ dq +:+ interpolation +:+ dq +:+ " is not supported".

(** The setter of the [interpolation] property. *)
Definition set_interpolation (self : Obj.ref) (interpolation : string) : M unit :=
  o ← load self;
  match _data o with
  | Some (Discrete da) =>
      if bool_decide (interpolation ∉ _valid_interpolations)
      then Obj.raise (ValueError (unsupported_interpolation interpolation))
      else
        tm ← Obj.lift (time o);
        let interpolation :=
          match tm with
          | None => if bool_decide (interpolation ≠ "step") then "step" else interpolation
          | Some _ => interpolation
          end in
        Obj.write self (set_data (Discrete (xr.attrs_setitem da "interpolation" interpolation)) o)
  | _ => mret ()
  end.

Definition _initialize_discrete (self : Obj.ref) (data : quantity_or_array)
    (time : option types_time_like) (interpolation : option string) : M unit :=
  let interpolation := default "step" interpolation in
  match data with
  | PDataArray da =>
      Obj.lift (_check_data_array da);;
      data ← Obj.lift (xr.transpose_first da "time");
      modify self (set_data (Discrete data))
  | PQuantity q =>
      let data := pint.Q_ (pint.Quant q) in
      let data := if np.iterable (pint.magnitude data) then data
                  else pint.expand_dims0 data in
      let time := default Timedelta_0 time in
      time ← Obj.lift (Time_init time None);
      modify self (set_reference_time (Time_reference_time time));;
      da ← Obj.lift (_create_data_array (PQuantity data) time);
      modify self (set_data (Discrete da))
  end;;
  set_interpolation self interpolation.

Definition unsupported_type (type_name : string) : string :=
  "The data type " +:+ dq +:+ type_name +:+ dq +:+ " is not supported.".

(** [__init__] on data that is not an expression, and the creation of an
    object from such data.  [interp_time] constructs its result from an
    array, so it is defined on these. *)
Definition init_from_array (self : Obj.ref) (data : array_arg)
    (time : option types_time_like) (interpolation : option string)
    (reference_time : option Timestamp) : M unit :=
  Obj.write self (initial reference_time);;
  match data with
  | ArgQuantity q => _initialize_discrete self (PQuantity q) time interpolation
  | ArgDataArray da => _initialize_discrete self (PDataArray da) time interpolation
  | ArgOther ty => Obj.raise (TypeError (unsupported_type ty))
  end.

Definition new_from_array (data : array_arg)
    (time : option types_time_like) (interpolation : option string)
    (reference_time : option Timestamp) : M Obj.ref :=
  self ← Obj.alloc (initial None);
  init_from_array self data time interpolation reference_time;;
  mret self.

(** *** Interpolation in time *)

Definition _interp_time_discrete (o : t) (time : Time) : result xr.DataArray :=
  match _data o with
  | Some (Discrete da) =>
      method ← interpolation o;
      xr_interp_like da [("time", as_data_array time)]
        {| method := method; assume_sorted := Some false;
           broadcast_missing := Some false |}
  | _ => Raise (AttributeError "'MathematicalExpression' object has no attribute 'interp'")
  end.

Definition _interp_time_expression (o : t) (time : Time) (time_unit : string)
    : result xr.DataArray :=
  let time_q := as_quantity time time_unit in
  let time_q := if bool_decide (length (np.shape (pint.magnitude time_q)) = 0)
                then pint.expand_dims0 time_q else time_q in
  time_xr ← xr.DataArray_init (pint.Quant time_q) (Some (xr.DList ["time"])) [];
  match _data o, _time_var_name o with
  | Some (Expression me), Some name =>
      data ← MathematicalExpression.evaluate me
               [(name, MathematicalExpression.VArray time_xr)];
      xr.assign_coords data "time" (xr.as_coordinate (as_data_array time))
  | Some (Expression _), None => Raise (TypeError "keywords must be strings")
  | _, _ => Raise (AttributeError "object has no attribute 'evaluate'")
  end.

Definition already_interpolated (n : Z) : string :=
  "The data of the time series has already been interpolated "
  +:+ pretty n +:+ " time(s).".

(** The body of [interp_time] between the notice and the assignment of
    the counter: the series that holds the interpolated values. *)
Definition interpolated (o : t) (time : types_time_like)
    (time_unit : string) : M Obj.ref :=
  time ← Obj.lift (Time_init time None);
  time_interp ← Obj.lift (Time_init (of_Time time) (reference_time o));
  match _data o with
  | Some (Discrete _) =>
      dax ← Obj.lift (_interp_time_discrete o time_interp);
      interp ← Obj.lift (interpolation o);
      new_from_array
        (match xr.payload dax with
         | pint.Quant q => ArgQuantity q
         | pint.Plain _ => ArgOther "<class 'numpy.ndarray'>"
         end)
        (Some (of_Time time)) interp None
  | _ =>
      dax ← Obj.lift (_interp_time_expression o time_interp time_unit);
      interp ← Obj.lift (interpolation o);
      new_from_array (ArgDataArray dax) None interp None
  end.

(** [self.interp_time(time, time_unit)]; the default of [time_unit] is
    ["s"]. *)
Definition interp_time (self : Obj.ref) (time : types_time_like)
    (time_unit : string) : M Obj.ref :=
  o ← load self;
  (if bool_decide (0 < _interp_counter o)%Z
   then Obj.warn (already_interpolated (_interp_counter o))
   else mret ());;
  ts ← interpolated o time time_unit;
  o' ← load self;
  modify ts (set_interp_counter (_interp_counter o' + 1));;
  mret ts.

(** *** Construction from an expression *)

Definition not_one_variable : string :=
  "The mathematical expression must have exactly 1 free "
  +:+ "variable that represents time.".

Definition wrong_units : string :=
  "Expression can not be evaluated with "
  +:+ dq +:+ "weldx.Quantity(1, " +:+ dq +:+ "seconds" +:+ dq +:+ ")" +:+ dq
  +:+ ". Ensure that every parameter posses the correct unit.".

Definition no_time_arrays (e : exc) : string :=
  "The expression can not be evaluated with arrays of time deltas. "
  +:+ "Ensure that all parameters that are multiplied with the time "
  +:+ "variable have an outer dimension of size 1. This dimension is "
  +:+ "broadcasted during multiplication. The original error message was:"
  +:+ " " +:+ dq +:+ str e +:+ dq.

(** The two time arguments of the check at the end of
    [_init_expression]. *)
Definition probe_2 : types_time_like :=
  of_quantity (pint.Q_of (np.array [1; 2]%Z) (U_ "second")).
Definition probe_3 : types_time_like :=
  of_quantity (pint.Q_of (np.array [1; 2; 3]%Z) (U_ "second")).

(** The first check of [_init_expression]: the expression is evaluated
    at one second, which gives the unit and the shape of the series. *)
Definition probe_unit (self : Obj.ref) (data : MathematicalExpression.t)
    (time_var_name : string) : M unit :=
  Obj.try_except
    (eval_data ← Obj.lift (xr.payload <$> MathematicalExpression.evaluate data
         [(time_var_name, MathematicalExpression.VValue
             (pint.Quant (pint.Q_of (np.scalar_of 1) (U_ "second"))))]);
     match eval_data with
     | pint.Plain _ =>
         Obj.raise (AttributeError "'numpy.ndarray' object has no attribute 'units'")
     | pint.Quant q =>
         modify self (set_units_shape (pint.units q)
           (if np.iterable (pint.magnitude q)
            then np.shape (pint.magnitude q) else [1]))
     end)
    (λ e, if is_DimensionalityError e
          then Obj.raise (Exception wrong_units)
          else Obj.raise e).

(** The second check: the series is interpolated at two and then at
    three points in time. *)
Definition probe_time_arrays (self : Obj.ref) : M unit :=
  Obj.try_except
    (interp_time self probe_2 "s";;
     interp_time self probe_3 "s";;
     mret ())
    (λ e, Obj.raise (Exception (no_time_arrays e))).

(** [_init_expression] up to the assignment of the internal variables,
    and the whole of it. *)
Definition assign_expression (self : Obj.ref)
    (data : MathematicalExpression.t) : M unit :=
  if bool_decide (MathematicalExpression.num_variables data ≠ 1%Z)
  then Obj.raise (Exception not_one_variable)
  else
    time_var_name ←
      match MathematicalExpression.get_variable_names data with
      | name :: _ => mret name
      | [] => Obj.raise (IndexError "list index out of range")
      end;
    probe_unit self data time_var_name;;
    modify self (set_data (Expression data));;
    modify self (set_time_var_name time_var_name).

Definition _init_expression (self : Obj.ref)
    (data : MathematicalExpression.t) : M unit :=
  assign_expression self data;;
  probe_time_arrays self.

(** *** The constructor *)

Definition __init__ (self : Obj.ref) (data : data_arg)
    (time : option types_time_like) (interpolation : option string)
    (reference_time : option Timestamp) : M unit :=
  match data with
  | ArgArray a => init_from_array self a time interpolation reference_time
  | ArgExpression me =>
      Obj.write self (initial reference_time);;
      _init_expression self me
  end.

(** [TimeSeries(data, time, interpolation, reference_time)]. *)
Definition new (data : data_arg)
    (time : option types_time_like) (interpolation : option string)
    (reference_time : option Timestamp) : M Obj.ref :=
  self ← Obj.alloc (initial None);
  __init__ self data time interpolation reference_time;;
  mret self.

End TimeSeries.
End TimeSeries.

(** ** GenericSeries *)

Module GenericSeries.
Section GenericSeries.
Context `{Numeric} `{!Sympy} `{!WeldxUtil} `{!Formatting}.

(** A keyword argument of a call. *)
Definition call_kwargs : Type := dict pint.array_like.

(** The class attributes that a subclass may set. *)
Record cls_t : Type := {
  __name__ : string;
  (** [cls is GenericSeries] *)
  is_GenericSeries : bool;
  _allowed_variables : option (list string);
  _required_variables : option (list string);
  _evaluation_preprocessor : option (call_kwargs → result call_kwargs);
  _required_dimensions : option (list string);
  _required_unit_dimensionality : option Unit;
}.

(** The class [GenericSeries] itself: every attribute is [None]. *)
Definition GenericSeries : cls_t :=
  {| __name__ := "GenericSeries"; is_GenericSeries := true;
     _allowed_variables := None; _required_variables := None;
     _evaluation_preprocessor := None;
     _required_dimensions := None; _required_unit_dimensionality := None |}.

Inductive data_t : Type :=
| Discrete (da : xr.DataArray)
| Expression (me : MathematicalExpression.t).

Record t : Type := mk {
  cls : cls_t;
  _data : data_t;
  _variable_units : option (dict Unit);
  _symbol_dims : option (dict xr.dimspec);
  _shape : option (list nat);
  _units : option Unit;
  _interpolation : string;
}.

(** *** Constraints of a subclass *)

Definition _check_constraints (c : cls_t) (dims : list string)
    (units_out : Unit) : result unit :=
  _ ← match _required_dimensions c with
      | Some required =>
          for_each (λ _ v,
            if bool_decide (v ∉ dims)
            then Raise (ValueError (__name__ c +:+ " requires dimension '" +:+ v +:+ "'."))
            else Ok ()) required ()
      | None => Ok ()
      end;
  match _required_unit_dimensionality c with
  | Some required =>
      if negb (has_dimensionality units_out required)
      then Raise (ValueError (__name__ c +:+ " requires its output unit to be of dimensionality '"
                    +:+ unit_str required +:+ "' but it actually is '"
                    +:+ dimensionality_str units_out +:+ "'."))
      else Ok ()
  | None => Ok ()
  end.

Definition no_attribute_u : exc :=
  AttributeError "'numpy.ndarray' object has no attribute 'u'".

Definition _check_constraints_discrete (c : cls_t) (data_array : xr.DataArray)
    : result unit :=
  if is_GenericSeries c then Ok ()
  else
    match xr.units data_array with
    | Some u => _check_constraints c (xr.dims data_array) u
    | None => Raise no_attribute_u
    end.

(** [set(d)] for a value of the dimension map: of a string its
    characters, of a list its elements. *)
Fixpoint characters (s : string) : list string :=
  match s with
  | EmptyString => []
  | String c s' => String c EmptyString :: characters s'
  end.

Definition set_of (d : xr.dimspec) : gset string :=
  match d with
  | xr.DStr s => list_to_set (characters s)
  | xr.DList l => list_to_set l
  end.

(** [d[0]]. *)
Definition first_of (d : xr.dimspec) : result string :=
  match d with
  | xr.DStr s =>
      match characters s with
      | c :: _ => Ok c
      | [] => Raise (IndexError "string index out of range")
      end
  | xr.DList l =>
      match l with
      | x :: _ => Ok x
      | [] => Raise (IndexError "list index out of range")
      end
  end.

(** The dimensions that a bound parameter contributes. *)
Definition parameter_dims (v : quantity_or_array) : gset string :=
  let v := match v with
           | PDataArray da => da
           | PQuantity q => xr.wrap (pint.Quant q)
           end in
  if bool_decide (0 < xr.size v) then list_to_set (xr.dims v) else ∅.

Definition _get_expression_dims (expr : MathematicalExpression.t)
    (symbol_dims : dict xr.dimspec) : list string :=
  let dims : gset string := ∅ in
  let dims := foldl (λ dims d, dims ∪ set_of d) dims (values symbol_dims) in
  let dims := foldl (λ dims v, dims ∪ parameter_dims v) dims
                (values (MathematicalExpression.parameters expr)) in
  elements dims.

Definition _check_constraints_expression (c : cls_t)
    (expr : MathematicalExpression.t) (var_dims : dict xr.dimspec)
    (expr_units : Unit) : result unit :=
  if is_GenericSeries c then Ok ()
  else
    _ ← match _allowed_variables c with
        | Some allowed =>
            for_each (λ _ v,
              if bool_decide (v ∉ allowed)
              then Raise (ValueError ("'" +:+ v +:+ "' is not allowed as an expression variable of class "
                            +:+ __name__ c))
              else Ok ()) (MathematicalExpression.get_variable_names expr) ()
        | None => Ok ()
        end;
    _ ← match _required_variables c with
        | Some required =>
            for_each (λ _ v,
              if bool_decide (v ∉ MathematicalExpression.get_variable_names expr)
              then Raise (ValueError (__name__ c +:+ " requires expression variable '" +:+ v +:+ "'."))
              else Ok ()) required ()
        | None => Ok ()
        end;
    let dims := _get_expression_dims expr var_dims in
    _check_constraints c dims expr_units.

(** *** Construction *)

(** The [data] argument, and the [dims] argument, which is a list of
    names for discrete data and a dictionary for an expression. *)
Inductive data_arg : Type :=
| ArgQuantity (q : pint.Quantity)
| ArgDataArray (da : xr.DataArray)
| ArgExpression (me : MathematicalExpression.t)
| ArgStr (s : string)
| ArgOther (type_name : string).

Inductive dims_arg : Type :=
| DimsList (d : xr.dimspec)
| DimsDict (d : dict xr.dimspec).

Definition _init_discrete (c : cls_t) (data : quantity_or_array)
    (dims : option dims_arg) (coords : option (dict pint.array_like))
    : result t :=
  data ← match data with
         | PDataArray da => Ok da
         | PQuantity q =>
             coords ← match coords with
                      | Some coords =>
                          for_each (λ acc (kv : string * pint.array_like),
                            da ← xr.DataArray_init (pint.Quant (pint.Q_ kv.2))
                                   (Some (xr.DList [kv.1])) [];
                            Ok (dict_set acc kv.1 (xr.CoordArray (xr.dequantify da))))
                            coords []
                      | None => Ok []
                      end;
             (* xarray takes [tuple(dims)]: of a dictionary, its keys *)
             let dims := match dims with
                         | Some (DimsList d) => Some d
                         | Some (DimsDict d) => Some (xr.DList (keys d))
                         | None => None
                         end in
             xr.DataArray_init (pint.Quant q) dims coords
         end;
  _ ← _check_constraints_discrete c data;
  Ok {| cls := c; _data := Discrete data; _variable_units := None;
        _symbol_dims := None; _shape := None; _units := None;
        _interpolation := "linear" |}.

Definition not_a_quantity (k : string) : string :=
  "Value for parameter " +:+ k +:+ " is not a quantity.".

Definition _update_expression_params
    (params : dict MathematicalExpression.parameter_arg)
    : result (dict MathematicalExpression.parameter_arg) :=
  for_each (λ params (kv : string * MathematicalExpression.parameter_arg),
    v ← match kv.2 with
        | MathematicalExpression.Tuple v d =>
            Ok (MathematicalExpression.Tuple (pint.Quant (pint.Q_ v)) d)
        | MathematicalExpression.Array da =>
            match xr.units da with
            | Some _ => Ok (MathematicalExpression.Array da)
            | None => Raise (ValueError (not_a_quantity kv.1))
            end
        | MathematicalExpression.Value v =>
            Ok (MathematicalExpression.Value (pint.Quant (pint.Q_ v)))
        end;
    Ok (dict_set params kv.1 v)) params params.

Definition unit_error (e : exc) : string :=
  "Expression can not be evaluated due to a unit dimensionality error. "
  +:+ "Ensure that the expressions parameters and the expected variable "
  +:+ "units are compatible. The original exception was:" +:+ nl +:+ str e.

Definition length_error (e : exc) : string :=
  "During the evaluation of the expression mismatching array lengths' "
  +:+ "were detected. Some possible causes are:" +:+ nl
  +:+ "  - expression parameters that have already assigned coordinates to a "
  +:+ "dimension that is also used as a variable" +:+ nl
  +:+ "  - 2 free dimensions with identical names" +:+ nl
  +:+ "  - 2 expression parameters that use the same dimension with "
  +:+ "different number of values" +:+ nl
  +:+ "The original exception was:" +:+ nl +:+ str e.

(** The dictionary of probe arrays of one pass of the second check: the
    variable at position [i] gets [range(i + 2 + offset)]. *)
Definition array_params (dims : dict xr.dimspec) (units : dict Unit)
    (offset : nat) : result (dict MathematicalExpression.variable_arg) :=
  for_each (λ acc (ikv : nat * (string * Unit)),
    let '(i, (k, v)) := ikv in
    d ← getitem dims k;
    da ← xr.DataArray_init (pint.Quant (pint.Q_of (np.arange (i + 2 + offset)) v))
           (Some d) [];
    Ok (dict_set acc k (MathematicalExpression.VArray da)))
    (zip (seq 0 (length units)) units) [].

(** The first [try] of [_eval_expr]: the unit of the expression at the
    value 1 of every variable, or [None] when a [ValueError] was passed
    over.  It does not read [dims]. *)
Definition first_evaluation (expr : MathematicalExpression.t)
    (units : dict Unit) : result (option Unit) :=
  let first : result Unit :=
    let scalar_params :=
      prod_map id (λ v, MathematicalExpression.VValue
                          (pint.Quant (pint.Q_of (np.scalar_of 1) v))) <$> units in
    res ← MathematicalExpression.evaluate expr scalar_params;
    match xr.payload res with
    | pint.Quant q => Ok (to_reduced_units (pint.units q))
    | pint.Plain _ =>
        Raise (AttributeError "'numpy.ndarray' object has no attribute 'to_reduced_units'")
    end in
  match first with
  | Ok u => Ok (Some u)
  | Raise (DimensionalityError m) =>
      Raise (ValueError (unit_error (DimensionalityError m)))
  | Raise (ValueError _) => Ok None
  | Raise e => Raise e
  end.

Definition _eval_expr (expr : MathematicalExpression.t)
    (dims : dict xr.dimspec) (units : dict Unit)
    : result (Unit * option (list nat)) :=
  expr_units ← first_evaluation expr units;
  _ ← match for_each (λ _ offset,
                params ← array_params dims units offset;
                _ ← MathematicalExpression.evaluate expr params;
                Ok ()) [0; 1] () with
      | Raise (ValueError m) => Raise (ValueError (length_error (ValueError m)))
      | r => r
      end;
  let shape : option (list nat) := None in
  match expr_units with
  | Some u => Ok (u, shape)
  | None =>
      Raise (UnboundLocalError "local variable 'expr_units' referenced before assignment")
  end.

Definition not_a_variable (k : string) (expr : MathematicalExpression.t) : string :=
  k +:+ " is not a variable of the expression:" +:+ nl
  +:+ MathematicalExpression.__repr__ expr.

(** The [parameters] of an existing expression, as arguments for a new
    one. *)
Definition as_parameter_arg (v : quantity_or_array)
    : MathematicalExpression.parameter_arg :=
  match v with
  | PQuantity q => MathematicalExpression.Value (pint.Quant q)
  | PDataArray da => MathematicalExpression.Array da
  end.

Definition undefined_unit (s : string) : string :=
  "'" +:+ s +:+ "' is not defined in the unit registry".

(** [v in dims], [dims[v] = v] and [dims[k]] when [dims] is not the
    dictionary that [_init_expression] expects but a list of names, or a
    single string: the membership is the one of the list (for a string:
    of its substrings), and neither can be indexed by a name. *)
Fixpoint substring_of (v s : string) : bool :=
  String.prefix v s
  || match s with
     | EmptyString => false
     | String _ s' => substring_of v s'
     end.

Definition sequence_contains (dims : xr.dimspec) (v : string) : bool :=
  match dims with
  | xr.DList l => bool_decide (v ∈ l)
  | xr.DStr s => substring_of v s
  end.

Definition sequence_setitem_error (dims : xr.dimspec) : exc :=
  match dims with
  | xr.DList _ => TypeError "list indices must be integers or slices, not str"
  | xr.DStr _ => TypeError "'str' object does not support item assignment"
  end.

Definition sequence_getitem_error (dims : xr.dimspec) : exc :=
  match dims with
  | xr.DList _ => TypeError "list indices must be integers or slices, not str"
  | xr.DStr _ => TypeError "string indices must be integers"
  end.

(** The rest of [_init_expression] for such a [dims].  The loop of the
    defaults stops at the first variable that is not in the sequence, where
    [dims[v] = v] is refused.  Otherwise [_eval_expr] makes its first
    evaluation, which does not read [dims], and starts the second, which
    indexes [dims] by the first key of [units]; by then [units] holds every
    variable name, and an expression whose count of variables is not zero
    has one: its symbols are a set, and its parameters are among them. *)
Definition _init_expression_sequence_dims (expr : MathematicalExpression.t)
    (dims : xr.dimspec) (units : dict Unit) : result t :=
  units ← for_each (λ (units : dict Unit) (v : string),
             if sequence_contains dims v
             then Ok (if contains units v then units
                      else dict_set units v (U_ EmptyString))
             else Raise (sequence_setitem_error dims))
           (MathematicalExpression.get_variable_names expr) units;
  _ ← first_evaluation expr units;
  Raise (sequence_getitem_error dims).

(** The rest of [_init_expression] for a dictionary: the defaults, the
    check of the expression, the constraints of the class, and the
    series. *)
Definition _init_expression_dict_dims (c : cls_t)
    (expr : MathematicalExpression.t)
    (dims : dict xr.dimspec) (units : dict Unit) : result t :=
  let '(dims, units) :=
    foldl (λ (du : dict xr.dimspec * dict Unit) v,
             (if contains du.1 v then du.1 else dict_set du.1 v (xr.DStr v),
              if contains du.2 v then du.2 else dict_set du.2 v (U_ EmptyString)))
          (dims, units) (MathematicalExpression.get_variable_names expr) in
  '(expr_units, expr_shape) ← _eval_expr expr dims units;
  _ ← _check_constraints_expression c expr dims expr_units;
  Ok {| cls := c; _data := Expression expr;
        _variable_units := Some units; _symbol_dims := Some dims;
        _shape := expr_shape; _units := Some expr_units;
        _interpolation := "linear" |}.

Definition _init_expression (c : cls_t)
    (expr : MathematicalExpression.t + string)
    (dims : option dims_arg)
    (parameters : option (dict MathematicalExpression.parameter_arg))
    (units : option (dict string)) : result t :=
  let '(expr, parameters) :=
    match expr with
    | inl me =>
        (expr_repr (MathematicalExpression.expression me),
         Some (prod_map id as_parameter_arg <$> MathematicalExpression.parameters me))
    | inr s => (s, parameters)
    end in
  parameters ← match parameters with
               | Some p => Some <$> _update_expression_params p
               | None => Ok None
               end;
  expr ← MathematicalExpression.__init__ (MathematicalExpression.FromStr expr)
           (MathematicalExpression.Dict <$> parameters);
  if bool_decide (MathematicalExpression.num_variables expr = 0%Z)
  then Raise (ValueError "The passed expression has no variables.")
  else
    units ← match units with
            | None => Ok []
            | Some units =>
                for_each (λ acc (kv : string * string),
                  if bool_decide (kv.1 ∉ MathematicalExpression.get_variable_names expr)
                  then Raise (KeyError (not_a_variable kv.1 expr))
                  else if defined_unit kv.2
                  then Ok (dict_set acc kv.1 (U_ kv.2))
                  else Raise (UndefinedUnitError (undefined_unit kv.2)))
                  units []
            end;
    match dims with
    | None => _init_expression_dict_dims c expr [] units
    | Some (DimsDict dims) => _init_expression_dict_dims c expr dims units
    | Some (DimsList dims) => _init_expression_sequence_dims expr dims units
    end.

Definition unsupported_type (type_name : string) : string :=
  "The data type " +:+ dq +:+ type_name +:+ dq +:+ " is not supported.".

(** [cls(data, dims, coords, units, interpolation, parameters)]; the
    argument [interpolation] is not read. *)
Definition __init__ (c : cls_t) (data : data_arg)
    (dims : option dims_arg) (coords : option (dict pint.array_like))
    (units : option (dict string)) (interpolation : option string)
    (parameters : option (dict MathematicalExpression.parameter_arg))
    : result t :=
  match data with
  | ArgQuantity q => _init_discrete c (PQuantity q) dims coords
  | ArgDataArray da => _init_discrete c (PDataArray da) dims coords
  | ArgExpression me => _init_expression c (inl me) dims parameters units
  | ArgStr s => _init_expression c (inr s) dims parameters units
  | ArgOther ty => Raise (TypeError (unsupported_type ty))
  end.

(** *** Calling a series *)

Definition not_a_dimension (k : string) : string :=
  "'" +:+ k +:+ "' is not a valid dimension.".

Definition symbol_dims_getitem (self : t) (k : string) : result xr.dimspec :=
  match _symbol_dims self with
  | Some d => getitem d k
  | None => Raise (TypeError "'NoneType' object is not subscriptable")
  end.

(** The first loop of [__call__]: every keyword value becomes a labeled
    array. *)
Definition prepare_input (self : t) (input : dict xr.DataArray)
    (kv : string * pint.array_like) : result (dict xr.DataArray) :=
  let '(k, v) := kv in
  let v := pint.Q_ v in
  let v := if bool_decide (length (np.shape (pint.magnitude v)) = 0)
           then pint.expand_dims0 v else v in
  v ← match _data self with
      | Expression _ =>
          d ← symbol_dims_getitem self k;
          d0 ← first_of d;
          xr.DataArray_init (pint.Quant v) (Some d)
            [(d0, xr.CoordPlain (pint.magnitude v))]
      | Discrete da =>
          c ← xr.coords_getitem da k;
          ref_unit ← xr.attrs_getitem (xr.c_attrs c) "units";
          q ← pint.to v ref_unit;
          xr.dequantify <$> xr.DataArray_init (pint.Quant q) (Some (xr.DList [k])) []
      end;
  Ok (dict_set input k v).

(** One pass of the loop that binds a variable of a copy of the series. *)
Definition bind_variable (self : t) (new_series : t)
    (kv : string * pint.array_like) : result t :=
  let '(k, v) := kv in
  d ← symbol_dims_getitem self k;
  match _data new_series with
  | Expression me =>
      me ← MathematicalExpression.set_parameter me k
             (MathematicalExpression.Tuple v d);
      symbol_dims ← match _symbol_dims new_series with
                    | Some sd => pop sd k
                    | None => Raise (AttributeError "'NoneType' object has no attribute 'pop'")
                    end;
      variable_units ← match _variable_units new_series with
                       | Some vu => pop vu k
                       | None => Raise (AttributeError "'NoneType' object has no attribute 'pop'")
                       end;
      Ok {| cls := cls new_series; _data := Expression me;
            _variable_units := Some variable_units;
            _symbol_dims := Some symbol_dims;
            _shape := _shape new_series; _units := _units new_series;
            _interpolation := _interpolation new_series |}
  | Discrete _ =>
      Raise (AttributeError "'DataArray' object has no attribute 'set_parameter'")
  end.

Definition default_options : interp_options :=
  {| method := None; assume_sorted := None; broadcast_missing := None |}.

(** The keyword arguments after the preprocessor of the class, if it has
    one. *)
Definition preprocess (self : t) (kwargs : call_kwargs) : result call_kwargs :=
  match _evaluation_preprocessor (cls self) with
  | Some preprocessor => preprocessor kwargs
  | None => Ok kwargs
  end.

Definition __call__ (self : t) (kwargs : call_kwargs) : result t :=
  kwargs ← preprocess self kwargs;
  input ← for_each (prepare_input self) kwargs [];
  match _data self with
  | Expression me =>
      if bool_decide (Z.of_nat (length kwargs) = MathematicalExpression.num_variables me)
      then
        data ← MathematicalExpression.evaluate me
                 (prod_map id MathematicalExpression.VArray <$> input);
        __init__ GenericSeries (ArgDataArray data) None None None None None
      else
        let new_series := self in
        for_each (bind_variable self) kwargs new_series
  | Discrete da =>
      _ ← for_each (λ _ (k : string),
            if bool_decide (k ∉ xr.dims da)
            then Raise (KeyError (not_a_dimension k))
            else Ok ()) (keys input) ();
      data ← xr_interp_like da input default_options;
      __init__ GenericSeries (ArgDataArray data) None None None None None
  end.

(** *** Properties *)

Definition dims (self : t) : result (list string) :=
  match _data self with
  | Expression me =>
      match _symbol_dims self with
      | Some sd => Ok (_get_expression_dims me sd)
      | None => Raise (AttributeError "'NoneType' object has no attribute 'values'")
      end
  | Discrete da => Ok (xr.dims da)
  end.

Definition ndims (self : t) : result nat := length <$> dims self.

Definition parameter_names (self : t) : option (list string) :=
  keys <$> _variable_units self.

Definition parameter_units (self : t) : option (dict Unit) :=
  _variable_units self.

Definition units (self : t) : result Unit :=
  match _units self with
  | Some u => Ok u
  | None =>
      match _data self with
      | Discrete da =>
          match xr.units da with
          | Some u => Ok u
          | None => Raise no_attribute_u
          end
      | Expression _ =>
          Raise (AttributeError "'MathematicalExpression' object has no attribute 'data'")
      end
  end.

Definition interpolation (self : t) : string := _interpolation self.

Definition set_interpolation (self : t) (val : string) : result t :=
  if bool_decide (val ∉ ["linear"; "step"])
  then Raise (ValueError ("'" +:+ val +:+ "' is not a supported interpolation method."))
  else Ok {| cls := cls self; _data := _data self;
             _variable_units := _variable_units self;
             _symbol_dims := _symbol_dims self;
             _shape := _shape self; _units := _units self;
             _interpolation := val |}.

Definition is_expression (self : t) : bool :=
  match _data self with Expression _ => true | Discrete _ => false end.
Definition is_discrete (self : t) : bool := negb (is_expression self).

(** The properties that end in [raise NotImplementedError]. *)
Inductive implemented (A : Type) : Type :=
| Implemented (a : A)
| NotImplemented.
Arguments Implemented {A} a.
Arguments NotImplemented {A}.

Definition shape (self : t) : implemented (list nat) :=
  match _shape self with
  | Some s => Implemented s
  | None => NotImplemented
  end.

Definition data_array (self : t) : implemented xr.DataArray :=
  match _data self with
  | Discrete da => Implemented da
  | Expression _ => NotImplemented
  end.

(** [coordinates] is [None] for an expression. *)
Definition coordinates (self : t) : option (gmap string xr.Coordinate) :=
  match _data self with
  | Discrete da => Some (xr.coords da)
  | Expression _ => None
  end.

End GenericSeries.
Arguments Implemented {A} a.
Arguments NotImplemented {A}.
End GenericSeries.

(** * The vocabulary of the statements *)

Section store_vocabulary.
Context {T : Type}.

(** A computation that leaves the log alone and assigns to the attributes
    of the object [l] only. *)
Definition only_writes {A} (l : Obj.ref) (m : Obj.M T A) : Prop :=
  ∀ σ, Obj.warnings (m σ).2 = Obj.warnings σ
       ∧ (∀ l', l' ≠ l → Obj.objects (m σ).2 !! l' = Obj.objects σ !! l')
       ∧ (is_Some (Obj.objects σ !! l) → is_Some (Obj.objects (m σ).2 !! l)).

(** What the creation of an object does to a store: nothing is logged, the
    objects of the store stay as they are, and the reference returned is
    the one that was not in use. *)
Definition creates (σ : Obj.store T) (r : result Obj.ref * Obj.store T) : Prop :=
  let l := fresh (dom (Obj.objects σ)) in
  Obj.warnings r.2 = Obj.warnings σ
  ∧ (∀ l', l' ≠ l → Obj.objects r.2 !! l' = Obj.objects σ !! l')
  ∧ (∀ x, r.1 = Ok x → x = l ∧ is_Some (Obj.objects r.2 !! l)).

(** The store in which the object [l] holds [o]. *)
Definition with_object (σ : Obj.store T) (l : Obj.ref) (o : T) : Obj.store T :=
  {| Obj.objects := <[l := o]> (Obj.objects σ); Obj.warnings := Obj.warnings σ |}.
End store_vocabulary.

Section expression_vocabulary.
Context `{Numeric} `{!Sympy}.

(** The names supplied to [evaluate] that are bound already. *)
Definition collisions (self : MathematicalExpression.t)
    (kwargs : dict MathematicalExpression.variable_arg) : gset string :=
  list_to_set (keys kwargs)
  ∩ list_to_set (keys (MathematicalExpression.parameters self)).
End expression_vocabulary.

Section timeseries_vocabulary.
Context `{Numeric} `{!Sympy} `{!WeldxUtil} `{!WeldxTime} `{!Formatting}.
Import TimeSeries.


(** A discrete series with at most one point in time: the case in which
    the [time] property is [None]. *)
Definition single_point (o : t) : Prop :=
  ∃ da n, _data o = Some (Discrete da) ∧ xr.len_time da = Ok n ∧ (n ≤ 1)%nat.

(** The quantity with at least one dimension that the constructor makes
    of its data. *)
Definition at_least_1d (q : pint.Quantity) : pint.Quantity :=
  if np.iterable (pint.magnitude q) then q else pint.expand_dims0 q.

(** Modelled from the spec: [weldx.util.xr_interp_like] is not part of the
    embedded file.  The spec fixes the step interpolation by its example
    (section 8): a query returns "the last value at or before the query
    point".  For an array with a single sample that is asked for the time
    of this sample, that value is the sample: the helper returns the data
    of the array. *)
Definition step_keeps_single_sample : Prop :=
  ∀ (da target : xr.DataArray) (c : xr.Coordinate) (opts : interp_options),
    method opts = Some "step" →
    xr.coords da !! "time" = Some c →
    np.shape (xr.c_data c) = [1] →
    xr.data target = xr.c_data c →
    ∃ dax, xr_interp_like da [("time", target)] opts = Ok dax
           ∧ xr.payload dax = xr.payload da.

(** Modelled from the spec: [weldx.time.Time] is not part of the embedded
    file.  The spec (section 3): "An optional absolute reference timestamp
    anchors relative time deltas to wall-clock time".  A time that is
    given its own reference time keeps its time deltas, and
    [as_data_array] holds them. *)
Definition reference_keeps_deltas : Prop :=
  ∀ (T T' : Time),
    Time_init (of_Time T) None = Ok T' →
    ∃ TI, Time_init (of_Time T) (Time_reference_time T') = Ok TI
          ∧ xr.data (as_data_array TI) = as_timedelta_index T'.
End timeseries_vocabulary.

Section generic_series_vocabulary.
Context `{Numeric} `{!Sympy} `{!WeldxUtil} `{!Formatting}.
Import GenericSeries.

(** The array of an array-like value. *)
Definition array_of (v : pint.array_like) : np.ndarray :=
  match v with
  | pint.Plain a => a
  | pint.Quant q => pint.magnitude q
  end.

(** The state of an expression-backed series: the formula with its bound
    parameters, the dimension map and the unit map. *)
Definition expression_state (self : t) (me : MathematicalExpression.t)
    (sd : dict xr.dimspec) (vu : dict Unit) : Prop :=
  _data self = Expression me ∧ _symbol_dims self = Some sd
  ∧ _variable_units self = Some vu.

(** The unit map names every variable once, and no bound parameter. *)
Definition units_name_variables (me : MathematicalExpression.t)
    (vu : dict Unit) : Prop :=
  NoDup (keys vu)
  ∧ ∀ k, k ∈ keys vu → k ∉ keys (MathematicalExpression.parameters me).
End generic_series_vocabulary.

(** * More vocabulary *)

Section expression_vocabulary_more.
Context `{Numeric} `{!Sympy} `{!WeldxUtil} `{!Formatting}.
Import MathematicalExpression.

(** The value that [set_parameters] stores for an argument: a quantity,
    the labeled array itself, or the labeled array made of a pair
    [(value, dims)]. *)
Definition stored_as (v : parameter_arg) (v' : quantity_or_array) : Prop :=
  match v with
  | Value a => v' = PQuantity (pint.Q_ a)
  | Array da => v' = PDataArray da
  | Tuple a d => ∃ da, xr.DataArray_init a (Some d) [] = Ok da ∧ v' = PDataArray da
  end.

(** An expression after its construction and a sequence of calls of
    [set_parameters]. *)
Definition after_set_parameters (me0 : t) (calls : list (dict parameter_arg))
    : result t :=
  for_each (λ me d, set_parameters me (Dict d)) calls me0.

(** The names match: every symbol has exactly one value, among the
    supplied ones or among the parameters, and nothing else is named. *)
Definition names_match (self : t) (kwargs : dict variable_arg) : Prop :=
  (∀ s, s ∈ free_symbols (expression self) →
        s ∈ keys kwargs ∨ s ∈ keys (parameters self))
  ∧ (∀ k, k ∈ keys kwargs → k ∈ free_symbols (expression self))
  ∧ (∀ k, k ∈ keys (parameters self) → k ∈ free_symbols (expression self)).
End expression_vocabulary_more.

Section timeseries_vocabulary_more.
Context `{Numeric} `{!Sympy} `{!WeldxUtil} `{!WeldxTime} `{!Formatting}.
Import TimeSeries.

(** [Q_(1, "second")], the value at which [_init_expression] evaluates the
    expression first. *)
Definition one_second : MathematicalExpression.variable_arg :=
  MathematicalExpression.VValue
    (pint.Quant (pint.Q_of (np.scalar_of 1) (U_ "second"))).

(** The shape that [_init_expression] records for the value of the
    expression at one second. *)
Definition probed_shape (q : pint.Quantity) : list nat :=
  if np.iterable (pint.magnitude q) then np.shape (pint.magnitude q) else [1].
End timeseries_vocabulary_more.

Section generic_series_vocabulary_more.
Context `{Numeric} `{!Sympy} `{!WeldxUtil} `{!Formatting}.
Import GenericSeries.

(** A series with another value of [_interpolation]. *)
Definition with_interpolation (val : string) (self : t) : t :=
  {| cls := cls self; _data := _data self;
     _variable_units := _variable_units self;
     _symbol_dims := _symbol_dims self;
     _shape := _shape self; _units := _units self;
     _interpolation := val |}.

(** The only result of a call that keeps the attributes of the series
    called is the expression with some variables bound. *)
Definition carried_along (val : string) (r : t) : t :=
  if is_expression r then with_interpolation val r else r.

(** The constraints of a class on dimensions and unit. *)
Definition dimensions_present (c : cls_t) (dims : list string) : Prop :=
  ∀ required, _required_dimensions c = Some required →
              ∀ v, v ∈ required → v ∈ dims.

Definition dimensionality_fits (c : cls_t) (units_out : Unit) : Prop :=
  ∀ required, _required_unit_dimensionality c = Some required →
              has_dimensionality units_out required = true.

(** The constraints of a class on the variables of an expression. *)
Definition variables_fit (c : cls_t) (expr : MathematicalExpression.t) : Prop :=
  (∀ allowed, _allowed_variables c = Some allowed →
     ∀ v, v ∈ MathematicalExpression.get_variable_names expr → v ∈ allowed)
  ∧ (∀ required, _required_variables c = Some required →
     ∀ v, v ∈ required → v ∈ MathematicalExpression.get_variable_names expr).
End generic_series_vocabulary_more.

(** * A back end to run the model on

    Integers for numbers, units as products of named base units, formulas
    that are sums of products of symbols, arrays that broadcast by
    dimension name, and times as offsets from an optional reference.  It
    is what the examples below are evaluated on. *)

Module Sample.

(** ** Units *)

Definition unit : Type := list (string * Z).

Definition mul_factor (u : unit) (f : string * Z) : unit :=
  match dict_get u f.1 with
  | None => dict_set u f.1 f.2
  | Some e => if decide ((e + f.2)%Z = 0%Z) then dict_pop u f.1
              else dict_set u f.1 (e + f.2)%Z
  end.

Definition unit_mul (u v : unit) : unit := foldl mul_factor u v.

Definition parse_unit (s : string) : unit :=
  if decide (s = EmptyString) then []
  else if decide (s ∈ ["s"; "second"]) then [("second", 1%Z)]
  else if decide (s ∈ ["m"; "meter"]) then [("meter", 1%Z)]
  else if decide (s = "m/s") then [("meter", 1%Z); ("second", (-1)%Z)]
  else [(s, 1%Z)].

Definition format_unit (u : unit) : string :=
  String.concat " * "
    ((λ f : string * Z,
        if decide (f.2 = 1%Z) then f.1 else f.1 +:+ " ** " +:+ pretty f.2) <$> u).

#[export] Instance numeric : Numeric := {|
  scalar := Z;
  of_int := id;
  Unit := unit;
  U_ := parse_unit;
  defined_unit := λ s, bool_decide (s ∈ [EmptyString; "s"; "second"; "m"; "meter"; "m/s"]);
  unit_str := format_unit;
  to_reduced_units := id;
  convert := λ u target,
    if decide (u = parse_unit target) then Ok id
    else Raise (DimensionalityError
                  ("Cannot convert from '" +:+ format_unit u +:+ "' to '" +:+ target +:+ "'"));
  has_dimensionality := λ u required, bool_decide (u = required);
  dimensionality_str := format_unit;
|}.

(** ** Arithmetic on labeled arrays *)

(** The extent of every dimension of the result of a binary operation;
    sizes that differ cannot be aligned. *)
Definition broadcast_sizes (a b : xr.DataArray) : result (dict nat) :=
  for_each (λ acc (d : string),
    match dict_get (xr.sizes a) d, dict_get (xr.sizes b) d with
    | Some n, Some m =>
        if decide (n = m) then Ok (acc ++ [(d, n)])
        else Raise (ValueError ("arguments without labels along dimension "
                      +:+ repr_str d +:+ " cannot be aligned because they have different dimension sizes"))
    | Some n, None | None, Some n => Ok (acc ++ [(d, n)])
    | None, None => Ok acc
    end)
    (xr.dims a ++ filter (λ d, d ∉ xr.dims a) (xr.dims b)) [].

(** The element of [a] that an index of the result selects. *)
Definition select (ds : list string) (idx : list nat) (a : xr.DataArray) : option Z :=
  let own := omap (λ d, i ← xr.index_of d ds; idx !! i) (xr.dims a) in
  np.flat (xr.data a) !! np.offset own (np.strides (xr.shape a)).

Definition binary (f : Z → Z → Z)
    (fu : option unit → option unit → result (option unit))
    (a b : xr.DataArray) : result xr.DataArray :=
  u ← fu (xr.units a) (xr.units b);
  sz ← broadcast_sizes a b;
  Ok {| xr.dims := keys sz;
        xr.data := {| np.shape := values sz;
                      np.flat := omap (λ idx, x ← select (keys sz) idx a;
                                              y ← select (keys sz) idx b;
                                              Some (f x y))
                                      (np.indices (values sz)) |};
        xr.units := u;
        xr.coords := xr.coords a ∪ xr.coords b;
        xr.attrs := ∅ |}.

Definition mul_units (u v : option unit) : result (option unit) :=
  match u, v with
  | Some u, Some v => Ok (Some (unit_mul u v))
  | Some u, None | None, Some u => Ok (Some u)
  | None, None => Ok None
  end.

Definition add_units (u v : option unit) : result (option unit) :=
  if decide (u = v) then Ok u
  else Raise (DimensionalityError "Cannot convert between the units of the summands").

(** ** Formulas: sums of products of symbols *)

Definition formula : Type := list (list string).

Fixpoint split_on (c : Ascii.ascii) (s : string) : list string :=
  match s with
  | EmptyString => [EmptyString]
  | String c' s' =>
      if decide (c' = c) then EmptyString :: split_on c s'
      else match split_on c s' with
           | w :: ws => String c' w :: ws
           | [] => [String c' EmptyString]
           end
  end.

Fixpoint without_spaces (s : string) : string :=
  match s with
  | EmptyString => EmptyString
  | String c s' =>
      if decide (c = Ascii.ascii_of_nat 32) then without_spaces s' else String c (without_spaces s')
  end.

Definition parse (s : string) : result formula :=
  let terms := split_on (Ascii.ascii_of_nat 42) <$> split_on (Ascii.ascii_of_nat 43) (without_spaces s) in
  if bool_decide (Exists (Exists (λ w, w = EmptyString)) terms)
  then Raise (ValueError ("SympifyError: could not parse " +:+ repr_str s))
  else Ok terms.

Definition print (e : formula) : string :=
  String.concat " + " (String.concat "*" <$> e).

Definition symbols (e : formula) : list string := remove_dups (concat e).

Definition value_of (env : dict xr.DataArray) (term : list string)
    : result xr.DataArray :=
  match term with
  | [] => Raise (ValueError "empty product")
  | s :: rest =>
      first ← getitem env s;
      for_each (λ acc s, x ← getitem env s; binary Z.mul mul_units acc x) rest first
  end.

Definition compile (e : formula) (args : list xr.DataArray) : result xr.DataArray :=
  let env := zip (symbols e) args in
  match e with
  | [] => Raise (ValueError "empty sum")
  | term :: rest =>
      first ← value_of env term;
      for_each (λ acc t, x ← value_of env t; binary Z.add add_units acc x) rest first
  end.

#[export] Instance sympy : Sympy := {|
  Expr := formula;
  sympify := parse;
  free_symbols := symbols;
  lambdify := compile;
  expr_repr := print;
  expr_eqb := λ a b, bool_decide (a = b);
  simplify_difference_is_zero := λ a b, bool_decide (a ≡ₚ b);
|}.

(** ** Times *)

Record time : Type := { deltas : list Z; reference : option Z }.

Inductive time_like : Type :=
| OfTime (t : time)
| OfQuantity (q : pint.Quantity)
| OfArray (a : np.ndarray)
| Zero.

(** A time that has a reference of its own keeps its absolute values
    under a new reference. *)
Definition make_time (tl : time_like) (time_ref : option Z) : result time :=
  match tl with
  | OfTime t =>
      Ok {| deltas := match reference t, time_ref with
                      | Some r0, Some r1 => (λ d, d + r0 - r1)%Z <$> deltas t
                      | _, _ => deltas t
                      end;
            reference := match time_ref with
                         | Some r1 => Some r1
                         | None => reference t
                         end |}
  | OfQuantity q => Ok {| deltas := np.flat (pint.magnitude q); reference := time_ref |}
  | OfArray a => Ok {| deltas := np.flat a; reference := time_ref |}
  | Zero => Ok {| deltas := [0%Z]; reference := time_ref |}
  end.

Definition index (t : time) : np.ndarray :=
  {| np.shape := [length (deltas t)]; np.flat := deltas t |}.

#[export] Instance weldx_time : WeldxTime := {|
  Timestamp := Z;
  types_time_like := time_like;
  Time := time;
  Time_init := make_time;
  of_Time := OfTime;
  of_quantity := OfQuantity;
  of_timedelta_array := OfArray;
  Timedelta_0 := Zero;
  as_timedelta_index := index;
  as_quantity := λ t unit, pint.Q_of (index t) (U_ unit);
  as_data_array := λ t,
    {| xr.dims := ["time"]; xr.data := index t; xr.units := None;
       xr.coords := {["time" := xr.index_coordinate "time" (index t)]};
       xr.attrs := ∅ |};
  Time_reference_time := reference;
|}.

(** ** Interpolation

    Every method takes, for a requested coordinate value, the last sample
    at or before it (the first sample if there is none); an array asked
    for its own coordinate values is returned as it is. *)

Fixpoint last_at_or_before (ts : list Z) (q : Z) (i best : nat) : nat :=
  match ts with
  | [] => best
  | t :: ts' => last_at_or_before ts' q (S i) (if decide (t ≤ q)%Z then i else best)
  end.

Definition rows (a : np.ndarray) : list (list Z) :=
  let width := foldr Nat.mul 1 (tail (np.shape a)) in
  (λ i, take width (drop (i * width) (np.flat a))) <$> seq 0 (default 0 (head (np.shape a))).

Definition interp_along (da : xr.DataArray) (dim : string) (target : xr.DataArray)
    : result xr.DataArray :=
  match xr.coords da !! dim with
  | None => Raise (KeyError dim)
  | Some c =>
      if decide (xr.c_data c = xr.data target) then Ok da
      else if decide (head (xr.dims da) ≠ Some dim)
      then Raise (ValueError "interpolation along an inner dimension")
      else
        let picked :=
          (λ q, default [] (rows (xr.data da)
                              !! last_at_or_before (np.flat (xr.c_data c)) q 0 0))
            <$> np.flat (xr.data target) in
        Ok {| xr.dims := xr.dims da;
              xr.data := {| np.shape := length picked :: tail (xr.shape da);
                            np.flat := concat picked |};
              xr.units := xr.units da;
              xr.coords := <[dim := xr.as_coordinate target]> (xr.coords da);
              xr.attrs := xr.attrs da |}
  end.

#[export] Instance quantity_or_array_eq_dec : EqDecision quantity_or_array.
Proof. solve_decision. Defined.

#[export] Instance weldx_util : WeldxUtil := {|
  xr_interp_like := λ da targets _,
    for_each (λ acc (kv : string * xr.DataArray), interp_along acc kv.1 kv.2) targets da;
  xr_check_coords := λ da _,
    if decide ("time" ∈ xr.dims da) then Ok true
    else Raise (KeyError "Could not find required coordinate 'time'.");
  compare_nested := λ a b, bool_decide (a = b);
|}.

#[export] Instance formatting : Formatting := {|
  format_value := λ v, match v with
                       | PQuantity q => format_unit (pint.units q)
                       | PDataArray da => String.concat ", " (xr.dims da)
                       end;
|}.

(** ** Values used in the examples *)

Definition vector (l : list Z) : np.ndarray := np.array l.
Definition quantity (l : list Z) (u : string) : pint.Quantity :=
  pint.Q_of (np.array l) (U_ u).
Definition number (z : Z) (u : string) : pint.Quantity :=
  pint.Q_of (np.scalar_of z) (U_ u).

Definition empty_store : Obj.store TimeSeries.t :=
  {| Obj.objects := ∅; Obj.warnings := [] |}.

End Sample.

(** * Examples *)

Module Examples.
Import Sample.

(** [a*t] with [a] bound to 2 m/s, and the same formula with nothing
    bound. *)
Definition a_t : MathematicalExpression.t :=
  {| MathematicalExpression._expression := [["a"; "t"]];
     MathematicalExpression._parameters := [("a", PQuantity (number 2 "m/s"))] |}.
Definition a_t_free : MathematicalExpression.t :=
  {| MathematicalExpression._expression := [["a"; "t"]];
     MathematicalExpression._parameters := [] |}.

(** Three samples in meters at the times 0, 1, 2, linearly interpolated,
    the store that holds this series alone, and the series itself. *)
Definition new_samples : Obj.M TimeSeries.t Obj.ref :=
  TimeSeries.new
    (TimeSeries.ArgArray (TimeSeries.ArgQuantity (quantity [10; 20; 30]%Z "m")))
    (Some (OfArray (vector [0; 1; 2]%Z))) (Some "linear") None.
Definition with_samples : Obj.store TimeSeries.t := (new_samples empty_store).2.
Definition samples : TimeSeries.t :=
  default (TimeSeries.initial None) (Obj.objects with_samples !! 1%positive).

(** The single point in time 1. *)
Definition at_1 : time_like := OfArray (vector [1]%Z).

(** The series of the formula [x*y] with nothing given but the formula,
    and the series of [a*t] with [a] bound to 2 m/s and the time in
    seconds. *)
Definition x_times_y : MathematicalExpression.t :=
  {| MathematicalExpression._expression := [["x"; "y"]];
     MathematicalExpression._parameters := [] |}.
Definition new_x_y : result GenericSeries.t :=
  GenericSeries.__init__ GenericSeries.GenericSeries (GenericSeries.ArgStr "x*y")
    None None None None None.
Definition x_y : GenericSeries.t :=
  {| GenericSeries.cls := GenericSeries.GenericSeries;
     GenericSeries._data := GenericSeries.Expression x_times_y;
     GenericSeries._variable_units := Some [("x", []); ("y", [])];
     GenericSeries._symbol_dims := Some [("x", xr.DStr "x"); ("y", xr.DStr "y")];
     GenericSeries._shape := None;
     GenericSeries._units := Some [];
     GenericSeries._interpolation := "linear" |}.

Definition new_a_t_series : result GenericSeries.t :=
  GenericSeries.__init__ GenericSeries.GenericSeries (GenericSeries.ArgStr "a*t")
    None None (Some [("t", "s")]) None
    (Some [("a", MathematicalExpression.Value (pint.Quant (number 2 "m/s")))]).
Definition a_t_series : GenericSeries.t :=
  {| GenericSeries.cls := GenericSeries.GenericSeries;
     GenericSeries._data := GenericSeries.Expression a_t;
     GenericSeries._variable_units := Some [("t", [("second", 1%Z)])];
     GenericSeries._symbol_dims := Some [("t", xr.DStr "t")];
     GenericSeries._shape := None;
     GenericSeries._units := Some [("meter", 1%Z)];
     GenericSeries._interpolation := "linear" |}.

(** Discrete values over the dimension [x], with coordinates in meters. *)
Definition over_x : GenericSeries.t :=
  {| GenericSeries.cls := GenericSeries.GenericSeries;
     GenericSeries._data :=
       GenericSeries.Discrete
         {| xr.dims := ["x"];
            xr.data := vector [10; 20; 30]%Z;
            xr.units := Some (U_ "m");
            xr.coords :=
              {["x" := {| xr.c_dims := ["x"]; xr.c_data := vector [0; 1; 2]%Z;
                          xr.c_attrs := {["units" := "meter"]} |}]};
            xr.attrs := ∅ |};
     GenericSeries._variable_units := None;
     GenericSeries._symbol_dims := None;
     GenericSeries._shape := None;
     GenericSeries._units := None;
     GenericSeries._interpolation := "linear" |}.
End Examples.

(** * More examples *)

Module MoreExamples.
Import Sample Examples.

(** The binding of [a] to 2 m/s. *)
Definition a_is_2 : dict MathematicalExpression.parameter_arg :=
  [("a", MathematicalExpression.Value (pint.Quant (number 2 "m/s")))].

(** A value for the time variable. *)
Definition t_is_3 : dict MathematicalExpression.variable_arg :=
  [("t", MathematicalExpression.VValue (pint.Quant (number 3 "s")))].

(** [a*t + b] with [a] and [b] bound to meters per second: the summands
    have different units. *)
Definition a_t_plus_b : MathematicalExpression.t :=
  {| MathematicalExpression._expression := [["a"; "t"]; ["b"]];
     MathematicalExpression._parameters :=
       [("a", PQuantity (number 2 "m/s")); ("b", PQuantity (number 1 "m/s"))] |}.

(** The time series of [a*t], and the store after its construction. *)
Definition new_a_t : Obj.M TimeSeries.t Obj.ref :=
  TimeSeries.new (TimeSeries.ArgExpression a_t) None None None.
Definition with_a_t : Obj.store TimeSeries.t := (new_a_t empty_store).2.

(** The labeled array of the three samples. *)
Definition samples_array : xr.DataArray :=
  match TimeSeries._data samples with
  | Some (TimeSeries.Discrete da) => da
  | _ => xr.wrap (pint.Plain (vector []))
  end.

(** A class of series over [x] in meters, whose expressions may use [x]
    and [y] and must use [x]. *)
Definition Profile : GenericSeries.cls_t :=
  {| GenericSeries.__name__ := "Profile";
     GenericSeries.is_GenericSeries := false;
     GenericSeries._allowed_variables := Some ["x"; "y"];
     GenericSeries._required_variables := Some ["x"];
     GenericSeries._evaluation_preprocessor := None;
     GenericSeries._required_dimensions := Some ["x"];
     GenericSeries._required_unit_dimensionality := Some (U_ "m") |}.

(** [a*x] with [a] bound to 2 m/s and [x] in seconds. *)
Definition new_profile : result GenericSeries.t :=
  GenericSeries.__init__ Profile (GenericSeries.ArgStr "a*x")
    None None (Some [("x", "s")]) None
    (Some [("a", MathematicalExpression.Value (pint.Quant (number 2 "m/s")))]).

(** The discrete values of [over_x] as constructor arguments. *)
Definition new_over_x (c : GenericSeries.cls_t) : result GenericSeries.t :=
  GenericSeries.__init__ c
    (GenericSeries.ArgQuantity (quantity [10; 20; 30]%Z "m"))
    (Some (GenericSeries.DimsList (xr.DList ["x"])))
    (Some [("x", pint.Quant (quantity [0; 1; 2]%Z "m"))]) None None None.

(** The samples with another interpolation counter, and the object of the
    series of [a*t]. *)
Definition samples_5 : TimeSeries.t := TimeSeries.set_interp_counter 5 samples.
Definition a_t_object : TimeSeries.t :=
  default (TimeSeries.initial None) (Obj.objects with_a_t !! 1%positive).

(** A value of [x] between the coordinates of [over_x]. *)
Definition x_is_1 : GenericSeries.call_kwargs :=
  [("x", pint.Quant (quantity [1]%Z "m"))].

(** The labeled array of [over_x]. *)
Definition over_x_array : xr.DataArray :=
  match GenericSeries._data over_x with
  | GenericSeries.Discrete da => da
  | GenericSeries.Expression _ => xr.wrap (pint.Plain (vector []))
  end.

(** An array without a unit. *)
Definition plain_array : xr.DataArray := xr.wrap (pint.Plain (vector [1; 2]%Z)).
End MoreExamples.

(** * Properties *)

(** ** Dictionaries and unions *)

Section dict_facts.
Context {V : Type}.
Implicit Types (d : dict V) (k : string) (v : V).

Lemma keys_cons k v d : keys ((k, v) :: d) = k :: keys d.
Proof. done. Qed.

Lemma length_keys d : length (keys d) = length d.
Proof. unfold keys. apply length_fmap. Qed.

Lemma elem_of_keys d k : k ∈ keys d ↔ ∃ v, (k, v) ∈ d.
Proof.
  unfold keys. rewrite list_elem_of_fmap. split.
  - intros [[k' v] [-> Hin]]. by exists v.
  - intros [v Hin]. by exists (k, v).
Qed.

Lemma elem_of_values d v : v ∈ values d ↔ ∃ k, (k, v) ∈ d.
Proof.
  unfold values. rewrite list_elem_of_fmap. split.
  - intros [[k v'] [-> Hin]]. by exists k.
  - intros [k Hin]. by exists (k, v).
Qed.

Lemma dict_get_None d k : dict_get d k = None ↔ k ∉ keys d.
Proof.
  induction d as [|[k' v'] d IH]; simpl.
  - split; [intros _; apply not_elem_of_nil | done].
  - rewrite keys_cons, not_elem_of_cons. destruct (decide (k = k')) as [->|Hne].
    + split; [done | intros []; done].
    + rewrite IH. tauto.
Qed.

Lemma dict_get_Some d k v : dict_get d k = Some v → (k, v) ∈ d.
Proof.
  induction d as [|[k' v'] d IH]; simpl; [done|].
  destruct (decide (k = k')) as [->|Hne].
  - intros [= ->]. left.
  - intros Hget. right. by apply IH.
Qed.

Lemma contains_true d k : contains d k = true ↔ k ∈ keys d.
Proof. unfold contains. apply bool_decide_eq_true. Qed.

Lemma dict_set_keys d k v :
  keys (dict_set d k v) = if decide (k ∈ keys d) then keys d else keys d ++ [k].
Proof.
  induction d as [|[k' v'] d IH]; cbn [dict_set].
  - case_decide as Hin; [by apply elem_of_nil in Hin|done].
  - destruct (decide (k = k')) as [->|Hne].
    + rewrite !keys_cons. rewrite decide_True by left. done.
    + rewrite !keys_cons, IH.
      destruct (decide (k ∈ keys d)) as [Hin|Hnin].
      * rewrite decide_True by (by right). done.
      * rewrite decide_False; [done|]. rewrite not_elem_of_cons. done.
Qed.

Lemma dict_get_set d k k' v :
  dict_get (dict_set d k v) k' = if decide (k' = k) then Some v else dict_get d k'.
Proof.
  induction d as [|[k0 v0] d IH]; simpl.
  - destruct (decide (k' = k)); done.
  - destruct (decide (k = k0)) as [->|Hne]; simpl.
    + destruct (decide (k' = k0)); done.
    + destruct (decide (k' = k0)) as [->|Hne'].
      * rewrite decide_False by done. done.
      * apply IH.
Qed.

Lemma dict_pop_length d k : k ∈ keys d → S (length (dict_pop d k)) = length d.
Proof.
  induction d as [|[k' v'] d IH]; simpl.
  - intros Hin. by apply elem_of_nil in Hin.
  - rewrite keys_cons, elem_of_cons. destruct (decide (k = k')) as [->|Hne]; [done|].
    intros [?|Hin]; [done|]. simpl. by rewrite IH.
Qed.

Lemma dict_pop_elem d k k' :
  NoDup (keys d) → k' ∈ keys (dict_pop d k) ↔ k' ∈ keys d ∧ k' ≠ k.
Proof.
  induction d as [|[k0 v0] d IH]; cbn [dict_pop].
  - intros _. split; [intros Hin; by apply elem_of_nil in Hin|].
    intros [Hin _]. done.
  - rewrite !keys_cons, NoDup_cons. intros [Hnin Hnd].
    destruct (decide (k = k0)) as [->|Hne].
    + rewrite elem_of_cons. split.
      * intros Hin. split; [by right|]. intros ->. done.
      * intros [[->|Hin] Hne]; done.
    + rewrite keys_cons, !elem_of_cons, IH by done. split.
      * intros [->|[Hin Hne']]; [split; [by left|congruence]|split; [by right|done]].
      * intros [[->|Hin] Hne']; [by left|by right].
Qed.

Lemma dict_pop_NoDup d k : NoDup (keys d) → NoDup (keys (dict_pop d k)).
Proof.
  induction d as [|[k0 v0] d IH]; simpl; [done|].
  rewrite !keys_cons, NoDup_cons. intros [Hnin Hnd].
  destruct (decide (k = k0)) as [->|Hne]; [done|].
  rewrite keys_cons, NoDup_cons. split; [|by apply IH].
  rewrite dict_pop_elem by done. tauto.
Qed.

Lemma pop_Ok d k d' :
  pop d k = Ok d' ↔ k ∈ keys d ∧ d' = dict_pop d k.
Proof.
  unfold pop. destruct (contains d k) eqn:Hc.
  - apply contains_true in Hc. split; [by intros [= <-]|]. by intros [_ ->].
  - split; [done|]. intros [Hin _]. apply contains_true in Hin. congruence.
Qed.

Lemma getitem_Ok d k v : getitem d k = Ok v ↔ dict_get d k = Some v.
Proof. unfold getitem. destruct (dict_get d k); split; congruence. Qed.
End dict_facts.

Section union_facts.
Context {A : Type}.

Lemma elem_of_foldl_union (f : A → gset string) (l : list A) (s : gset string) x :
  x ∈ foldl (λ acc a, acc ∪ f a) s l ↔ x ∈ s ∨ ∃ a, a ∈ l ∧ x ∈ f a.
Proof.
  revert s. induction l as [|a l IH]; intros s; simpl.
  - split; [by left|]. intros [?|(a & Hin & _)]; [done|]. by apply elem_of_nil in Hin.
  - rewrite IH, elem_of_union. split.
    + intros [[?|?]|(a' & Hin & Hx)]; [by left| |].
      * right. exists a. split; [left|done].
      * right. exists a'. split; [by right|done].
    + intros [?|(a' & Hin & Hx)]; [by left; left|].
      apply elem_of_cons in Hin as [->|Hin]; [by left; right|].
      right. by exists a'.
Qed.
End union_facts.

(** ** The object store *)

Section store_facts.
Context {T : Type}.
Implicit Types (σ : Obj.store T) (l : Obj.ref).

Lemma bind_run {A B} (m : Obj.M T A) (k : A → Obj.M T B) σ :
  (m ≫= k) σ = match m σ with
               | (Ok a, σ') => k a σ'
               | (Raise e, σ') => (Raise e, σ')
               end.
Proof. done. Qed.

Lemma ret_run {A} (a : A) σ : (mret a : Obj.M T A) σ = (Ok a, σ).
Proof. done. Qed.
Lemma lift_run {A} (r : result A) σ : Obj.lift r σ = (r, σ).
Proof. done. Qed.
Lemma raise_run {A} e σ : Obj.raise (A:=A) e σ = (Raise e, σ).
Proof. done. Qed.
Lemma load_run blank l σ :
  Obj.load blank l σ = (Ok (default blank (Obj.objects σ !! l)), σ).
Proof. done. Qed.
Lemma write_run l (o : T) σ :
  Obj.write l o σ
  = (Ok (), {| Obj.objects := <[l := o]> (Obj.objects σ);
               Obj.warnings := Obj.warnings σ |}).
Proof. done. Qed.
Lemma alloc_run (o : T) σ :
  Obj.alloc o σ
  = (Ok (fresh (dom (Obj.objects σ))),
     {| Obj.objects := <[fresh (dom (Obj.objects σ)) := o]> (Obj.objects σ);
        Obj.warnings := Obj.warnings σ |}).
Proof. done. Qed.
Lemma warn_run msg σ :
  Obj.warn msg σ
  = (Ok (), {| Obj.objects := Obj.objects σ;
               Obj.warnings := Obj.warnings σ ++ [msg] |}).
Proof. done. Qed.
Lemma try_run {A} (m : Obj.M T A) h σ :
  Obj.try_except m h σ = match m σ with
                         | (Ok a, σ') => (Ok a, σ')
                         | (Raise e, σ') => h e σ'
                         end.
Proof. done. Qed.

Lemma only_writes_ret {A} l (a : A) : only_writes (T:=T) l (mret a).
Proof. by intros σ. Qed.
Lemma only_writes_lift {A} l (r : result A) : only_writes (T:=T) l (Obj.lift r).
Proof. by intros σ. Qed.
Lemma only_writes_raise {A} l e : only_writes (T:=T) (A:=A) l (Obj.raise e).
Proof. by intros σ. Qed.
Lemma only_writes_load l blank l' : only_writes (T:=T) l (Obj.load blank l').
Proof. by intros σ. Qed.
Lemma only_writes_write l (o : T) : only_writes l (Obj.write l o).
Proof.
  intros σ. simpl. split_and!; [done| |].
  - intros l' Hne. by rewrite lookup_insert_ne.
  - intros _. rewrite lookup_insert_eq. by eexists.
Qed.
Lemma only_writes_bind {A B} l (m : Obj.M T A) (k : A → Obj.M T B) :
  only_writes l m → (∀ a, only_writes l (k a)) → only_writes l (m ≫= k).
Proof.
  intros Hm Hk σ. rewrite bind_run. specialize (Hm σ).
  destruct (m σ) as [[a|e] σ1]; simpl in *; [|done].
  specialize (Hk a σ1). destruct Hm as (Hw & Hf & Hs), Hk as (Hw' & Hf' & Hs').
  split_and!.
  - congruence.
  - intros l' Hne. rewrite Hf', Hf; done.
  - eauto.
Qed.
Lemma only_writes_try {A} l (m : Obj.M T A) (h : exc → Obj.M T A) :
  only_writes l m → (∀ e, only_writes l (h e)) → only_writes l (Obj.try_except m h).
Proof.
  intros Hm Hh σ. unfold Obj.try_except. specialize (Hm σ).
  destruct (m σ) as [[a|e] σ1]; simpl in *; [done|].
  specialize (Hh e σ1). destruct Hm as (Hw & Hf & Hs), Hh as (Hw' & Hf' & Hs').
  split_and!; [congruence| |eauto].
  intros l' Hne. rewrite Hf', Hf; done.
Qed.
End store_facts.

Section timeseries_writes.
Context `{Numeric} `{!Sympy} `{!WeldxUtil} `{!WeldxTime} `{!Formatting}.
Import TimeSeries.
Local Abbreviation M := (Obj.M t).

Lemma only_writes_modify l f : only_writes l (modify l f).
Proof.
  unfold modify. apply only_writes_bind; [apply only_writes_load|].
  intros o. apply only_writes_write.
Qed.

Ltac frame :=
  repeat first
    [ apply only_writes_ret | apply only_writes_lift | apply only_writes_raise
    | apply only_writes_load | apply only_writes_write | apply only_writes_modify
    | apply only_writes_bind; [|intros ?]
    | match goal with |- only_writes _ (match ?x with _ => _ end) => destruct x end
    | match goal with |- only_writes _ (if ?x then _ else _) => destruct x end ].

Lemma only_writes_set_interpolation self mode :
  only_writes self (set_interpolation self mode).
Proof. unfold set_interpolation, load. frame. Qed.

Lemma only_writes_initialize_discrete self data time interp :
  only_writes self (_initialize_discrete self data time interp).
Proof.
  unfold _initialize_discrete. apply only_writes_bind; [|intros; apply only_writes_set_interpolation].
  frame.
Qed.

Lemma only_writes_init_from_array self data time interp ref :
  only_writes self (init_from_array self data time interp ref).
Proof.
  unfold init_from_array. apply only_writes_bind; [frame|intros _].
  destruct data; [apply only_writes_initialize_discrete..|frame].
Qed.
End timeseries_writes.

Ltac run :=
  repeat progress
    (rewrite ?bind_run, ?ret_run, ?lift_run, ?raise_run, ?load_run, ?write_run,
       ?alloc_run, ?warn_run, ?try_run;
     cbv beta iota; cbn [Obj.objects Obj.warnings]).

(** ** MathematicalExpression *)

Section expression_facts.
Context `{Numeric} `{!Sympy} `{!WeldxUtil} `{!Formatting}.
Import MathematicalExpression.

Lemma elem_of_collisions self kwargs k :
  k ∈ collisions self kwargs ↔ k ∈ keys kwargs ∧ k ∈ keys (parameters self).
Proof. unfold collisions. rewrite elem_of_intersection, !elem_of_list_to_set. done. Qed.

Lemma collisions_size self kwargs :
  0 < size (collisions self kwargs) ↔ ∃ k, k ∈ keys kwargs ∧ k ∈ keys (parameters self).
Proof.
  rewrite <- Nat.neq_0_lt_0. rewrite size_non_empty_iff.
  split.
  - intros Hne. apply set_choose in Hne as [k Hk]. exists k. by apply elem_of_collisions.
  - intros [k Hk] Hempty. apply elem_of_collisions in Hk.
    destruct (Hempty k) as [Hc _]. apply Hc in Hk. by apply elem_of_empty in Hk.
Qed.

Lemma keys_prod_map {A B} (f : A → B) (d : dict A) :
  keys (prod_map id f <$> d) = keys d.
Proof.
  unfold keys. rewrite <- list_fmap_compose. apply list_fmap_ext.
  by intros i [k v] _.
Qed.

(** Without a collision the call of the compiled function does not see a
    name twice. *)
Lemma function_without_collision self (kwargs : dict variable_arg) :
  (¬ ∃ k, k ∈ keys kwargs ∧ k ∈ keys (parameters self)) →
  function self (variables_of kwargs) (parameters_of self)
  = call_with_keywords (free_symbols (expression self))
      (lambdify (expression self)) (variables_of kwargs ++ parameters_of self).
Proof.
  intros Hc. unfold function.
  destruct (filter _ _) as [|k ks] eqn:Hf; [done|]. exfalso. apply Hc. exists k.
  assert (k ∈ filter (λ k : string, k ∈ keys (variables_of kwargs))
                (keys (parameters_of self))) as Hk by (rewrite Hf; left).
  apply list_elem_of_filter in Hk as [Hv Hp].
  unfold variables_of in Hv. unfold parameters_of in Hp.
  rewrite keys_prod_map in Hv. rewrite keys_prod_map in Hp. done.
Qed.

(** Claim C8.  For every expression, [evaluate] raises the error of the
    rebinding guard exactly when a supplied name is the name of a bound
    parameter, and the message lists exactly those names; when no name
    collides the guard raises nothing and the evaluation proceeds: the
    result of [evaluate] is the result of calling the compiled function on
    the supplied variables and the bound parameters. *)
Theorem evaluate_rebinding_guard (self : t) (kwargs : dict variable_arg) :
  ((∃ k, k ∈ keys kwargs ∧ k ∈ keys (parameters self)) →
     evaluate self kwargs = Raise (ValueError (already_defined (collisions self kwargs)))
     ∧ ∀ k, k ∈ collisions self kwargs ↔ k ∈ keys kwargs ∧ k ∈ keys (parameters self))
  ∧ ((¬ ∃ k, k ∈ keys kwargs ∧ k ∈ keys (parameters self)) →
     evaluate self kwargs
     = call_with_keywords (free_symbols (expression self))
         (lambdify (expression self)) (variables_of kwargs ++ parameters_of self)).
Proof.
  unfold evaluate.
  change (list_to_set (keys kwargs) ∩ list_to_set (keys (_parameters self)))
    with (collisions self kwargs).
  split; intros Hc.
  - rewrite bool_decide_eq_true_2 by (by apply collisions_size).
    split; [done|]. apply elem_of_collisions.
  - rewrite bool_decide_eq_false_2 by (by rewrite collisions_size).
    by apply function_without_collision.
Qed.
End expression_facts.

(** ** TimeSeries *)

Section timeseries_facts.
Context `{Numeric} `{!Sympy} `{!WeldxUtil} `{!WeldxTime} `{!Formatting}.
Import TimeSeries.
Lemma creates_raise (σ : Obj.store t) e : creates σ (Raise e, σ).
Proof. by split_and!. Qed.

Lemma new_from_array_creates data time interp ref σ :
  creates σ (new_from_array data time interp ref σ).
Proof.
  unfold creates, new_from_array. rewrite bind_run. simpl.
  set (l := fresh (dom (Obj.objects σ))). rewrite bind_run.
  set (σ1 := {| Obj.objects := <[l:=initial None]> (Obj.objects σ); Obj.warnings := Obj.warnings σ |}).
  destruct (only_writes_init_from_array l data time interp ref σ1) as (Hw & Hf & Hs).
  destruct (init_from_array l data time interp ref σ1) as [[[]|e] σ2]; simpl in *.
  all: split_and!; [done| |].
  all: try (intros l' Hne; rewrite Hf by done; by apply lookup_insert_ne).
  - intros x [= <-]. split; [done|]. apply Hs. rewrite lookup_insert_eq. by eexists.
  - intros x [=].
Qed.

Lemma interpolated_creates o time time_unit σ :
  creates σ (interpolated o time time_unit σ).
Proof.
  unfold interpolated. rewrite bind_run. unfold Obj.lift at 1.
  destruct (Time_init time None) as [tm|e]; [|apply creates_raise].
  rewrite bind_run. unfold Obj.lift at 1.
  destruct (Time_init (of_Time tm) (reference_time o)) as [ti|e]; [|apply creates_raise].
  destruct (_data o) as [[da|me]|].
  all: rewrite bind_run; unfold Obj.lift at 1.
  1: destruct (_interp_time_discrete o ti) as [dax|e]; [|apply creates_raise].
  2,3: destruct (_interp_time_expression o ti time_unit) as [dax|e]; [|apply creates_raise].
  all: rewrite bind_run; unfold Obj.lift at 1.
  all: destruct (interpolation _) as [interp|e]; [|apply creates_raise].
  all: apply new_from_array_creates.
Qed.

Lemma fresh_lookup_None (σ : Obj.store t) : Obj.objects σ !! fresh (dom (Obj.objects σ)) = None.
Proof. apply not_elem_of_dom, is_fresh. Qed.

(** The effect of [interp_time] on the store. *)
Lemma interp_time_effect σ self o time time_unit :
  Obj.objects σ !! self = Some o →
  let r := interp_time self time time_unit σ in
  Obj.warnings r.2
    = Obj.warnings σ ++ (if bool_decide (0 < _interp_counter o)%Z
                         then [already_interpolated (_interp_counter o)] else [])
  ∧ (∀ l x, Obj.objects σ !! l = Some x → Obj.objects r.2 !! l = Some x)
  ∧ (∀ ts, r.1 = Ok ts →
       Obj.objects σ !! ts = None
       ∧ ∃ o', Obj.objects r.2 !! ts = Some o'
               ∧ _interp_counter o' = (_interp_counter o + 1)%Z).
Proof.
  intros Hself r. subst r. unfold interp_time.
  rewrite bind_run. unfold load at 1, Obj.load. simpl. rewrite Hself. simpl.
  rewrite bind_run.
  set (log := if bool_decide (0 < _interp_counter o)%Z
              then [already_interpolated (_interp_counter o)] else []).
  set (σ0 := {| Obj.objects := Obj.objects σ; Obj.warnings := Obj.warnings σ ++ log |}).
  assert (Hwarn : (if bool_decide (0 < _interp_counter o)%Z
                   then Obj.warn (already_interpolated (_interp_counter o))
                   else mret ()) σ = (Ok (), σ0)).
  { subst σ0 log. destruct (bool_decide _); simpl; [done|].
    rewrite app_nil_r. by destruct σ. }
  rewrite Hwarn. clear Hwarn. rewrite bind_run.
  pose proof (interpolated_creates o time time_unit σ0) as (Hw & Hf & Hr).
  pose proof (fresh_lookup_None σ0) as Hfresh.
  destruct (interpolated o time time_unit σ0) as [[ts|e] σ1]; simpl in *.
  - destruct (Hr ts eq_refl) as [-> [o1 Ho1]].
    assert (Hself1 : Obj.objects σ1 !! self = Some o).
    { rewrite Hf; [done|]. intros ->. congruence. }
    rewrite Hself1, Ho1. simpl.
    split_and!; [done| |].
    + intros l x Hl. rewrite lookup_insert_ne by congruence. rewrite Hf; [done|congruence].
    + intros ts [= <-]. split; [done|]. eexists. rewrite lookup_insert_eq. done.
  - split_and!; [done| |done].
    intros l x Hl. rewrite Hf; [done|congruence].
Qed.

(** Claim C5.  For every series [self] of the store, discrete or backed by
    an expression, and every time argument, [interp_time] logs the notice
    that the data has been interpolated before exactly when the counter
    of [self] is greater than zero, and it does so whether or not the
    computation that follows succeeds; it leaves every object of the
    store, [self] among them, as it was; and when it returns, the series
    it returns is an object that the store did not hold, with the counter
    of [self] plus one. *)
Theorem interp_time_frame σ self o time time_unit :
  Obj.objects σ !! self = Some o →
  let r := interp_time self time time_unit σ in
  Obj.warnings r.2
    = Obj.warnings σ ++ (if bool_decide (0 < _interp_counter o)%Z
                         then [already_interpolated (_interp_counter o)] else [])
  ∧ (∀ l x, Obj.objects σ !! l = Some x → Obj.objects r.2 !! l = Some x)
  ∧ (∀ ts, r.1 = Ok ts →
       Obj.objects σ !! ts = None
       ∧ ∃ o', Obj.objects r.2 !! ts = Some o'
               ∧ _interp_counter o' = (_interp_counter o + 1)%Z).
Proof. apply interp_time_effect. Qed.

(** Claim C7.  The construction of a series from an expression whose
    number of free variables (free symbols minus bound parameters) is not
    one, two for instance, fails: it raises the error whose message says
    that the expression must have exactly one free variable that
    represents time, and leaves behind the object it had begun to
    initialise. *)
Theorem new_requires_one_variable data time interp ref σ :
  MathematicalExpression.num_variables data ≠ 1%Z →
  new (ArgExpression data) time interp ref σ
  = (Raise (Exception "The mathematical expression must have exactly 1 free variable that represents time."),
     with_object σ (fresh (dom (Obj.objects σ))) (initial ref)).
Proof.
  intros Hn. unfold new, __init__, _init_expression, assign_expression.
  rewrite bool_decide_eq_true_2 by done.
  rewrite !bind_run. unfold with_object. simpl. rewrite !bind_run. simpl. rewrite insert_insert_eq. done.
Qed.


Ltac frame :=
  repeat first
    [ apply only_writes_ret | apply only_writes_lift | apply only_writes_raise
    | apply only_writes_load | apply only_writes_write | apply only_writes_modify
    | apply only_writes_bind; [|intros ?]
    | match goal with |- only_writes _ (match ?x with _ => _ end) => destruct x end
    | match goal with |- only_writes _ (if ?x then _ else _) => destruct x end ].

Lemma len_time_attrs_setitem da k v :
  xr.len_time (xr.attrs_setitem da k v) = xr.len_time da.
Proof. done. Qed.

Lemma single_point_time o : single_point o → time o = Ok None.
Proof.
  intros (da & n & Hd & Hl & Hn). unfold time. rewrite Hd, Hl. simpl.
  rewrite bool_decide_eq_false_2 by lia. done.
Qed.

(** What the setter does to a discrete series. *)
Lemma set_interpolation_discrete σ self o da mode :
  Obj.objects σ !! self = Some o →
  _data o = Some (Discrete da) →
  set_interpolation self mode σ
  = if bool_decide (mode ∉ _valid_interpolations)
    then (Raise (ValueError (unsupported_interpolation mode)), σ)
    else match time o with
         | Raise e => (Raise e, σ)
         | Ok tm =>
             (Ok (), with_object σ self
                (set_data (Discrete (xr.attrs_setitem da "interpolation"
                   match tm with
                   | None => if bool_decide (mode ≠ "step") then "step" else mode
                   | Some _ => mode
                   end)) o))
         end.
Proof.
  intros Hself Hd. unfold set_interpolation, load. run. rewrite Hself. simpl. rewrite Hd.
  destruct (bool_decide (mode ∉ _)); [done|]. run.
  destruct (time o) as [tm|e]; done.
Qed.

Lemma set_interpolation_other σ self o :
  Obj.objects σ !! self = Some o →
  (∀ da, _data o ≠ Some (Discrete da)) →
  ∀ mode, set_interpolation self mode σ = (Ok (), σ).
Proof.
  intros Hself Hd mode. unfold set_interpolation, load. run. rewrite Hself. simpl.
  destruct (_data o) as [[da|me]|]; [by destruct (Hd da)|done..].
Qed.

(** After a successful write of the property, a series with at most one
    point in time has the mode [step]. *)
Lemma set_interpolation_single_point σ self o mode σ' o' :
  Obj.objects σ !! self = Some o →
  set_interpolation self mode σ = (Ok (), σ') →
  Obj.objects σ' !! self = Some o' →
  single_point o' →
  interpolation o' = Ok (Some "step").
Proof.
  intros Hself Hset Hself' Hsp.
  destruct (_data o) as [[da|me]|] eqn:Hd.
  - rewrite (set_interpolation_discrete _ _ _ _ _ Hself Hd) in Hset.
    destruct (bool_decide (mode ∉ _)); [done|].
    destruct (time o) as [tm|e] eqn:Htm; [|done].
    injection Hset as <-. unfold with_object in Hself'. simpl in Hself'.
    rewrite lookup_insert_eq in Hself'. injection Hself' as <-.
    assert (single_point o) as Hsp0.
    { destruct Hsp as (da' & n & Hd' & Hl & Hn). injection Hd' as <-.
      exists da, n. by rewrite len_time_attrs_setitem in Hl. }
    rewrite (single_point_time _ Hsp0) in Htm. injection Htm as <-.
    unfold interpolation. simpl. unfold xr.attrs_getitem. rewrite lookup_insert_eq.
    by case_bool_decide; subst.
  - rewrite (set_interpolation_other _ _ _ Hself) in Hset by (intros; congruence).
    injection Hset as <-. destruct Hsp as (da' & n & Hd' & _). congruence.
  - rewrite (set_interpolation_other _ _ _ Hself) in Hset by (intros; congruence).
    injection Hset as <-. destruct Hsp as (da' & n & Hd' & _). congruence.
Qed.

Lemma initialize_discrete_setter self data time interp σ σ' :
  is_Some (Obj.objects σ !! self) →
  _initialize_discrete self data time interp σ = (Ok (), σ') →
  ∃ σm o, Obj.objects σm !! self = Some o
          ∧ set_interpolation self (default "step" interp) σm = (Ok (), σ').
Proof.
  intros Hsome. unfold _initialize_discrete. rewrite bind_run.
  match goal with |- context [match ?m σ with _ => _ end] =>
    assert (only_writes self m) as Hm
      by (destruct data; cbv zeta; frame); specialize (Hm σ); destruct (m σ) as [[[]|e] σm]
  end; [|done].
  destruct Hm as (_ & _ & Hs). destruct (Hs Hsome) as [o Ho]. eauto.
Qed.

Lemma init_from_array_single_point self data time interp ref σ σ' o :
  init_from_array self data time interp ref σ = (Ok (), σ') →
  Obj.objects σ' !! self = Some o →
  single_point o →
  interpolation o = Ok (Some "step").
Proof.
  unfold init_from_array. run. intros Hinit Ho Hsp.
  destruct data as [q|da|ty]; [| |done].
  all: apply initialize_discrete_setter in Hinit as (σm & om & Hom & Hset);
    [|simpl; rewrite lookup_insert_eq; by eexists].
  all: exact (set_interpolation_single_point _ _ _ _ _ _ Hom Hset Ho Hsp).
Qed.

Lemma assign_expression_data self data σ σ0 o :
  Obj.objects σ !! self = Some o →
  assign_expression self data σ = (Ok (), σ0) →
  ∃ o0, Obj.objects σ0 !! self = Some o0
        ∧ _data o0 = Some (Expression data)
        ∧ _interp_counter o0 = _interp_counter o
        ∧ _reference_time o0 = _reference_time o.
Proof.
  intros Hself. unfold assign_expression.
  destruct (bool_decide (_ ≠ 1%Z)); [done|].
  destruct (MathematicalExpression.get_variable_names data) as [|name names]; run; [done|].
  unfold probe_unit. run.
  match goal with |- context [MathematicalExpression.evaluate data ?a] =>
    destruct (MathematicalExpression.evaluate data a) as [res|e]
  end; cbn [fmap result_fmap]; [|by destruct (is_DimensionalityError e); run].
  destruct (xr.payload res) as [a|q]; run; [done|].
  unfold modify, load. run. rewrite Hself. cbn [default].
  rewrite !lookup_insert_eq. cbn [default].
  intros [= <-]. cbn [Obj.objects]. rewrite lookup_insert_eq. eexists. done.
Qed.

Lemma probe_time_arrays_frame self σ0 σ2 o :
  Obj.objects σ0 !! self = Some o →
  probe_time_arrays self σ0 = (Ok (), σ2) →
  Obj.objects σ2 !! self = Some o.
Proof.
  intros Hself. unfold probe_time_arrays, Obj.try_except. run.
  pose proof (interp_time_effect σ0 self o probe_2 "s" Hself) as (_ & Hf1 & _).
  destruct (interp_time self probe_2 "s" σ0) as [[ts1|e] σ1]; [|done]. run.
  simpl in Hf1. specialize (Hf1 _ _ Hself).
  pose proof (interp_time_effect σ1 self o probe_3 "s" Hf1) as (_ & Hf2 & _).
  destruct (interp_time self probe_3 "s" σ1) as [[ts2|e] σ2']; [|done].
  intros [= <-]. by apply Hf2.
Qed.

Lemma new_single_point data time interp ref σ self σ' o :
  new data time interp ref σ = (Ok self, σ') →
  Obj.objects σ' !! self = Some o →
  single_point o →
  interpolation o = Ok (Some "step").
Proof.
  unfold new, __init__. run. set (l := fresh (dom (Obj.objects σ))).
  destruct data as [a|me].
  - destruct (init_from_array l a time interp ref _) as [[[]|e] σ1] eqn:Hinit; [|done].
    intros [= <- <-]. by eapply init_from_array_single_point.
  - run. unfold _init_expression. run.
    match goal with |- context [assign_expression l me ?s] => set (σa := s) end.
    destruct (assign_expression l me σa) as [[[]|e] σ0] eqn:Hassign; [|done]. run.
    eapply assign_expression_data in Hassign as (o0 & Ho0 & Hd0 & _);
      [|subst σa; simpl; apply lookup_insert_eq].
    destruct (probe_time_arrays l σ0) as [[[]|e] σ2] eqn:Hprobe; [|done].
    intros [= <- <-] Ho (da & n & Hd & _).
    rewrite (probe_time_arrays_frame _ _ _ _ Ho0 Hprobe) in Ho. congruence.
Qed.

Lemma new_array_eq a time interp ref :
  new (ArgArray a) time interp ref = new_from_array a time interp ref.
Proof. done. Qed.

Lemma interpolated_cases o time time_unit σ :
  (∃ e, interpolated o time time_unit σ = (Raise e, σ))
  ∨ (∃ a tm interp, interpolated o time time_unit σ = new_from_array a tm interp None σ).
Proof.
  unfold interpolated. run.
  destruct (Time_init time None) as [tm|e]; run; [|eauto].
  destruct (Time_init (of_Time tm) (reference_time o)) as [ti|e]; run; [|eauto].
  destruct (_data o) as [[da|me]|]; run.
  1: destruct (_interp_time_discrete o ti) as [dax|e]; run; [|eauto].
  2,3: destruct (_interp_time_expression o ti time_unit) as [dax|e]; run; [|eauto].
  all: destruct (interpolation o) as [interp|e]; run; eauto.
Qed.

Lemma single_point_set_interp_counter n o :
  single_point (set_interp_counter n o) ↔ single_point o.
Proof. done. Qed.

Lemma interp_time_single_point self time time_unit σ ts σ' o' :
  interp_time self time time_unit σ = (Ok ts, σ') →
  Obj.objects σ' !! ts = Some o' →
  single_point o' →
  interpolation o' = Ok (Some "step").
Proof.
  unfold interp_time, load. run.
  match goal with |- context [(if ?b then ?x else ?y) σ] =>
    destruct ((if b then x else y) σ) as [[[]|e] σ0]
  end; run; [|done].
  set (o := default (initial None) (Obj.objects σ !! self)).
  destruct (interpolated o time time_unit σ0) as [[l|e] σ1] eqn:Hi; [|done].
  unfold modify, load. run. intros [= <- <-]. cbn [Obj.objects].
  rewrite lookup_insert_eq. intros [= <-]. rewrite single_point_set_interp_counter.
  intros Hsp. change (interpolation (set_interp_counter _ ?x)) with (interpolation x).
  destruct (interpolated_cases o time time_unit σ0) as [[e He]|(a & tm & interp & Hnew)];
    [congruence|].
  rewrite Hnew, <- new_array_eq in Hi.
  destruct (Obj.objects σ1 !! l) as [o1|] eqn:Ho1.
  - by eapply new_single_point.
  - by destruct Hsp as (da & n & Hd & _).
Qed.

Lemma create_data_array_len q tm da n :
  np.shape (as_timedelta_index tm) = [n] →
  _create_data_array (PQuantity q) tm = Ok da →
  xr.len_time da = Ok n.
Proof.
  intros Hshape. unfold _create_data_array. cbn [mbind result_bind].
  destruct (xr.rename _ _ _) as [da0|e]; [|done].
  cbn [mbind result_bind]. unfold xr.assign_coords. case_bool_decide; [done|].
  match goal with |- context [for_each ?f ?l ?s] => destruct (for_each f l s) end;
    [|done].
  cbn [mbind result_bind]. intros [= <-].
  unfold xr.len_time, xr.coords_getitem. cbn [xr.coords].
  rewrite lookup_insert_eq. cbn [xr.index_coordinate xr.c_data]. by rewrite Hshape.
Qed.

Lemma new_without_time q interp ref σ self σ' o tm :
  Time_init Timedelta_0 None = Ok tm →
  np.shape (as_timedelta_index tm) = [1] →
  new (ArgArray (ArgQuantity q)) None interp ref σ = (Ok self, σ') →
  Obj.objects σ' !! self = Some o →
  single_point o.
Proof.
  intros Htm Hshape. unfold new, __init__, init_from_array, _initialize_discrete.
  run. cbn [default]. rewrite Htm. run. unfold modify, load. run.
  rewrite !lookup_insert_eq. cbn [default].
  match goal with |- context [_create_data_array ?a tm] =>
    destruct (_create_data_array a tm) as [da|e] eqn:Hda
  end; run; [|done].
  rewrite !lookup_insert_eq. cbn [default].
  match goal with |- context [set_interpolation ?l ?m ?s] =>
    pose proof (set_interpolation_discrete s l _ da m (lookup_insert_eq _ _ _) eq_refl) as Hset;
    destruct (set_interpolation l m s) as [[[]|e] σ2]
  end; [|done].
  intros [= <- <-]. destruct (bool_decide _); [done|].
  destruct (time _); [|done]. injection Hset as ->.
  cbn [Obj.objects with_object]. rewrite lookup_insert_eq. intros [= <-].
  eexists _, 1. split; [done|]. rewrite len_time_attrs_setitem.
  split; [|lia]. by eapply create_data_array_len.
Qed.

(** Claim C6.  A discrete series with only one point in time has the
    interpolation mode [step]: this holds for every series that the
    constructor returns, for every series that [interp_time] returns, and
    in particular for the series that the constructor makes of a quantity
    when no time is given; and it is kept by the writes of the property:
    on such a series the write of any valid mode returns and leaves
    [step], and the write of an invalid mode raises and leaves the store
    as it was. *)
Theorem single_point_is_step :
  (∀ data time interp ref σ self σ' o,
     new data time interp ref σ = (Ok self, σ') →
     Obj.objects σ' !! self = Some o →
     single_point o → interpolation o = Ok (Some "step"))
  ∧ (∀ self time time_unit σ ts σ' o,
     interp_time self time time_unit σ = (Ok ts, σ') →
     Obj.objects σ' !! ts = Some o →
     single_point o → interpolation o = Ok (Some "step"))
  ∧ (∀ q interp ref σ self σ' o tm,
     Time_init Timedelta_0 None = Ok tm →
     np.shape (as_timedelta_index tm) = [1] →
     new (ArgArray (ArgQuantity q)) None interp ref σ = (Ok self, σ') →
     Obj.objects σ' !! self = Some o →
     single_point o ∧ interpolation o = Ok (Some "step"))
  ∧ (∀ σ self o mode,
     Obj.objects σ !! self = Some o →
     single_point o →
     if bool_decide (mode ∈ _valid_interpolations)
     then ∃ o', set_interpolation self mode σ = (Ok (), with_object σ self o')
                ∧ single_point o'
                ∧ interpolation o' = Ok (Some "step")
     else set_interpolation self mode σ
          = (Raise (ValueError (unsupported_interpolation mode)), σ)).
Proof.
  split_and!.
  - apply new_single_point.
  - apply interp_time_single_point.
  - intros q interp ref σ self σ' o tm Htm Hshape Hnew Ho.
    pose proof (new_without_time _ _ _ _ _ _ _ _ Htm Hshape Hnew Ho) as Hsp.
    split; [done|]. by eapply new_single_point.
  - intros σ self o mode Hself Hsp.
    destruct Hsp as (da & n & Hd & Hl & Hn).
    rewrite (set_interpolation_discrete _ _ _ _ _ Hself Hd).
    rewrite (single_point_time o) by (by exists da, n).
    case_bool_decide as Hmode.
    + rewrite bool_decide_eq_false_2 by (by intros ?).
      eexists. split; [done|]. split.
      * exists (xr.attrs_setitem da "interpolation"
                  (if bool_decide (mode ≠ "step") then "step" else mode)), n.
        done.
      * unfold interpolation. cbn. unfold xr.attrs_getitem.
        rewrite lookup_insert_eq. by case_bool_decide; subst.
    + by rewrite bool_decide_eq_true_2.
Qed.

(** Claim C10.  Two discrete series whose arrays are identical (same
    values, time coordinates, unit and attributes, the interpolation among
    them) are equal, whatever their counters of interpolations and their
    reference times are set to. *)
Theorem eq_ignores_counter_and_reference (o o' : t) (da da' : xr.DataArray)
    (n n' : Z) (ref ref' : option Timestamp) :
  _data o = Some (Discrete da) →
  _data o' = Some (Discrete da') →
  xr.identical da da' = true →
  is_Some (xr.units da) →
  __eq__ (set_reference_time ref (set_interp_counter n o))
    (Some (set_reference_time ref' (set_interp_counter n' o')))
  = true.
Proof.
  intros Ho Ho' Hid [unit Hu]. unfold __eq__. cbn [_data set_reference_time set_interp_counter].
  rewrite Ho, Ho'.
  assert (xr.units da' = Some unit) as ->; [|done].
  unfold xr.identical in Hid. rewrite !andb_true_iff, !bool_decide_eq_true in Hid.
  destruct Hid as ((((_ & _) & <-) & _) & _). done.
Qed.

Lemma at_least_1d_iterable q : np.iterable (pint.magnitude (at_least_1d q)) = true.
Proof.
  unfold at_least_1d. destruct (np.iterable (pint.magnitude q)) eqn:Hit; [done|].
  done.
Qed.

Lemma at_least_1d_idemp q : at_least_1d (at_least_1d q) = at_least_1d q.
Proof. unfold at_least_1d at 1. by rewrite at_least_1d_iterable. Qed.

Lemma create_data_array_fields q tm da :
  _create_data_array (PQuantity q) tm = Ok da →
  xr.data da = pint.magnitude q
  ∧ xr.units da = Some (pint.units q)
  ∧ xr.coords da !! "time"
    = Some (xr.index_coordinate "time" (as_timedelta_index tm)).
Proof.
  unfold _create_data_array. cbn [mbind result_bind].
  unfold xr.rename. repeat case_bool_decide; cbn [mbind result_bind]; try done.
  unfold xr.assign_coords. case_bool_decide; [done|].
  match goal with |- context [for_each ?f ?l ?s] => destruct (for_each f l s) end;
    [|done].
  cbn [mbind result_bind]. intros [= <-]. cbn. by rewrite lookup_insert_eq.
Qed.

(** The object that a successful constructor call on a quantity leaves. *)
Lemma new_from_quantity_inv q tl interp ref σ l σ' :
  new_from_array (ArgQuantity q) (Some tl) interp ref σ = (Ok l, σ') →
  ∃ T' da1 mode,
    Time_init tl None = Ok T'
    ∧ _create_data_array (PQuantity (at_least_1d q)) T' = Ok da1
    ∧ l = fresh (dom (Obj.objects σ))
    ∧ σ' = with_object σ l
             {| _data := Some (Discrete (xr.attrs_setitem da1 "interpolation" mode));
                _time_var_name := None; _shape := None; _units := None;
                _interp_counter := 0;
                _reference_time := Time_reference_time T' |}
    ∧ (∀ n, xr.len_time da1 = Ok n → (n ≤ 1)%nat → mode = "step").
Proof.
  unfold new_from_array, init_from_array, _initialize_discrete. run.
  cbn [default pint.Q_]. fold (at_least_1d q).
  change (id tl) with tl. destruct (Time_init tl None) as [T'|e]; run; [|done].
  unfold modify, load. run. rewrite !lookup_insert_eq. cbn [default].
  destruct (_create_data_array (PQuantity (at_least_1d q)) T') as [da1|e] eqn:Hda;
    run; [|done].
  rewrite !lookup_insert_eq. cbn [default]. unfold id.
  match goal with |- context [set_interpolation ?l ?m ?s] =>
    pose proof (set_interpolation_discrete s l _ da1 m (lookup_insert_eq _ _ _) eq_refl) as Hset;
    destruct (set_interpolation l m s) as [[[]|e] σ2]
  end; [|done].
  intros [= <- <-]. case_bool_decide; [done|].
  match type of Hset with context [time ?o] => destruct (time o) as [tm|e] eqn:Htm end;
    [|done].
  injection Hset as ->. eexists T', da1, _. split_and!; [done..| |].
  - unfold with_object. cbn. rewrite !insert_insert_eq. done.
  - intros n Hlen Hn. unfold time in Htm. cbn in Htm. rewrite Hlen in Htm.
    cbn in Htm. rewrite bool_decide_eq_false_2 in Htm by lia.
    injection Htm as <-. by case_bool_decide.
Qed.

Lemma new_from_quantity_run q tl interp ref σ T' da1 n :
  Time_init tl None = Ok T' →
  _create_data_array (PQuantity (at_least_1d q)) T' = Ok da1 →
  xr.len_time da1 = Ok n → (n ≤ 1)%nat →
  default "step" interp ∈ _valid_interpolations →
  new_from_array (ArgQuantity q) (Some tl) interp ref σ
  = (Ok (fresh (dom (Obj.objects σ))),
     with_object σ (fresh (dom (Obj.objects σ)))
       {| _data := Some (Discrete (xr.attrs_setitem da1 "interpolation" "step"));
          _time_var_name := None; _shape := None; _units := None;
          _interp_counter := 0;
          _reference_time := Time_reference_time T' |}).
Proof.
  intros HT Hda Hlen Hn Hvalid.
  unfold new_from_array, init_from_array, _initialize_discrete. run.
  cbn [default pint.Q_]. fold (at_least_1d q).
  change (id tl) with tl. rewrite HT. run.
  unfold modify, load. run. rewrite !lookup_insert_eq. cbn [default].
  rewrite Hda. run. rewrite !lookup_insert_eq. cbn [default]. unfold id.
  match goal with |- context [set_interpolation ?l ?m ?s] =>
    rewrite (set_interpolation_discrete s l _ da1 m (lookup_insert_eq _ _ _) eq_refl)
  end.
  rewrite bool_decide_eq_false_2 by (by intros ?).
  unfold time. cbn [_data set_data]. rewrite Hlen. cbn [mbind result_bind].
  rewrite bool_decide_eq_false_2 by lia. run.
  unfold with_object. cbn. rewrite !insert_insert_eq.
  by case_bool_decide as Hm; [|rewrite Hm].
Qed.

(** What a successful interpolation of a discrete series has done. *)
Lemma interp_time_discrete_inv σ self o da tl time_unit l σ1 :
  Obj.objects σ !! self = Some o →
  _data o = Some (Discrete da) →
  interp_time self tl time_unit σ = (Ok l, σ1) →
  ∃ T TI m dax q T' da1 mode,
    Time_init tl None = Ok T
    ∧ Time_init (of_Time T) (reference_time o) = Ok TI
    ∧ interpolation o = Ok m
    ∧ xr_interp_like da [("time", as_data_array TI)]
        {| method := m; assume_sorted := Some false;
           broadcast_missing := Some false |} = Ok dax
    ∧ xr.payload dax = pint.Quant q
    ∧ Time_init (of_Time T) None = Ok T'
    ∧ _create_data_array (PQuantity (at_least_1d q)) T' = Ok da1
    ∧ l = fresh (dom (Obj.objects σ))
    ∧ Obj.objects σ1
      = <[l := {| _data := Some (Discrete (xr.attrs_setitem da1 "interpolation" mode));
                  _time_var_name := None; _shape := None; _units := None;
                  _interp_counter := _interp_counter o + 1;
                  _reference_time := Time_reference_time T' |}]> (Obj.objects σ)
    ∧ (∀ n, xr.len_time da1 = Ok n → (n ≤ 1)%nat → mode = "step").
Proof.
  intros Hself Hd. unfold interp_time, load. run. rewrite Hself. cbn [default]. unfold id.
  match goal with |- context [(if ?b then ?x else ?y) σ] =>
    assert (∃ w, (if b then x else y) σ
                 = (Ok (), {| Obj.objects := Obj.objects σ; Obj.warnings := w |}))
      as [w ->] by (destruct σ; destruct b; run; eexists; done)
  end.
  run. unfold interpolated. run.
  destruct (Time_init tl None) as [T|e] eqn:HT; run; [|done].
  destruct (Time_init (of_Time T) (reference_time o)) as [TI|e] eqn:HTI; run; [|done].
  rewrite Hd. run. unfold _interp_time_discrete. rewrite Hd.
  destruct (interpolation o) as [m|e] eqn:Hm; cbn [mbind result_bind]; [|done].
  destruct (xr_interp_like da _ _) as [dax|e] eqn:Hdax; run; [|done].
  destruct (xr.payload dax) as [a|q] eqn:Hq.
  { unfold new_from_array, init_from_array. run. done. }
  match goal with |- context [new_from_array ?a ?t ?i ?r ?s] =>
    destruct (new_from_array a t i r s) as [[l'|e] σ'] eqn:Hnew
  end; run; [|done].
  apply new_from_quantity_inv in Hnew
    as (T' & da1 & mode & HT' & Hda & -> & -> & Hmode).
  unfold modify, load, with_object. run.
  rewrite !lookup_insert_eq. cbn [default]. unfold id. rewrite lookup_insert_ne; last first.
  { intros Heq. pose proof (is_fresh (dom (Obj.objects σ))) as Hfr.
    rewrite Heq in Hfr. apply Hfr, elem_of_dom. by eexists. }
  rewrite Hself. cbn [default]. rewrite insert_insert_eq.
  intros [= <- <-]. exists T, TI, m, dax, q, T', da1, mode. done.
Qed.

(** The converse for a result with a single point in time. *)
Lemma interp_time_discrete_run σ self o da tl time_unit T TI m dax q T' da1 n :
  Obj.objects σ !! self = Some o →
  _data o = Some (Discrete da) →
  Time_init tl None = Ok T →
  Time_init (of_Time T) (reference_time o) = Ok TI →
  interpolation o = Ok m →
  xr_interp_like da [("time", as_data_array TI)]
    {| method := m; assume_sorted := Some false;
       broadcast_missing := Some false |} = Ok dax →
  xr.payload dax = pint.Quant q →
  Time_init (of_Time T) None = Ok T' →
  _create_data_array (PQuantity (at_least_1d q)) T' = Ok da1 →
  xr.len_time da1 = Ok n → (n ≤ 1)%nat →
  default "step" m ∈ _valid_interpolations →
  ∃ σ', interp_time self tl time_unit σ = (Ok (fresh (dom (Obj.objects σ))), σ')
        ∧ Obj.objects σ'
          = <[fresh (dom (Obj.objects σ)) :=
                {| _data := Some (Discrete (xr.attrs_setitem da1 "interpolation" "step"));
                   _time_var_name := None; _shape := None; _units := None;
                   _interp_counter := _interp_counter o + 1;
                   _reference_time := Time_reference_time T' |}]> (Obj.objects σ).
Proof.
  intros Hself Hd HT HTI Hm Hdax Hq HT' Hda Hlen Hn Hvalid.
  unfold interp_time, load. run. rewrite Hself. cbn [default]. unfold id.
  match goal with |- context [(if ?b then ?x else ?y) σ] =>
    assert (∃ w, (if b then x else y) σ
                 = (Ok (), {| Obj.objects := Obj.objects σ; Obj.warnings := w |}))
      as [w ->] by (destruct σ; destruct b; run; eexists; done)
  end.
  run. unfold interpolated. run. rewrite HT. run. rewrite HTI. run.
  rewrite Hd. run. unfold _interp_time_discrete. rewrite Hd, Hm.
  cbn [mbind result_bind]. rewrite Hdax. run. rewrite Hq.
  erewrite new_from_quantity_run by done. run.
  unfold modify, load, with_object. run.
  rewrite !lookup_insert_eq. cbn [default]. unfold id. rewrite lookup_insert_ne; last first.
  { intros Heq. pose proof (is_fresh (dom (Obj.objects σ))) as Hfr.
    rewrite Heq in Hfr. apply Hfr, elem_of_dom. by eexists. }
  rewrite Hself. cbn [default]. rewrite insert_insert_eq.
  eexists. split; [done|]. done.
Qed.

(** Claim C4.  For a discrete series [ts] and a single point in time
    [tl], when [ts.interp_time(tl)] returns a series, the interpolation
    of this series at [tl] returns too, and the series it returns is equal
    to the first one by the equality of [TimeSeries] (the helpers
    [xr_interp_like] and [Time] being as the spec has them). *)
Theorem interp_time_idempotent σ ts o da tl time_unit l1 σ1 T T' :
  step_keeps_single_sample →
  reference_keeps_deltas →
  Obj.objects σ !! ts = Some o →
  _data o = Some (Discrete da) →
  Time_init tl None = Ok T →
  Time_init (of_Time T) None = Ok T' →
  np.shape (as_timedelta_index T') = [1] →
  interp_time ts tl time_unit σ = (Ok l1, σ1) →
  ∃ l2 σ2 o1 o2,
    interp_time l1 tl time_unit σ1 = (Ok l2, σ2)
    ∧ Obj.objects σ2 !! l1 = Some o1
    ∧ Obj.objects σ2 !! l2 = Some o2
    ∧ __eq__ o2 (Some o1) = true.
Proof.
  intros Hstep Href Hself Hd HT HT' Hone Hfirst.
  destruct (interp_time_discrete_inv _ _ _ _ _ _ _ _ Hself Hd Hfirst)
    as (T0 & TI & m & dax & q & T0' & da1 & mode & HT0 & HTI & Hm & Hdax & Hq
        & HT0' & Hda & -> & Hσ1 & Hmode).
  assert (T0 = T) as -> by congruence. assert (T0' = T') as -> by congruence.
  pose proof (create_data_array_len _ _ _ _ Hone Hda) as Hlen.
  rewrite (Hmode 1 Hlen) in Hσ1 by lia. clear Hmode mode.
  destruct (create_data_array_fields _ _ _ Hda) as (Hdata & Hunits & Hcoord).
  set (da1s := xr.attrs_setitem da1 "interpolation" "step") in *.
  set (o1 := {| _data := Some (Discrete da1s); _time_var_name := None;
                _shape := None; _units := None;
                _interp_counter := _interp_counter o + 1;
                _reference_time := Time_reference_time T' |}) in *.
  assert (Obj.objects σ1 !! fresh (dom (Obj.objects σ)) = Some o1) as Hl1.
  { rewrite Hσ1. apply lookup_insert_eq. }
  destruct (Href T T' HT') as (TI2 & HTI2 & Htarget).
  destruct (Hstep da1s (as_data_array TI2) _
              {| method := Some "step"; assume_sorted := Some false;
                 broadcast_missing := Some false |} eq_refl Hcoord Hone Htarget)
    as (dax2 & Hdax2 & Hpay).
  assert (xr.payload dax2 = pint.Quant (at_least_1d q)) as Hq2.
  { rewrite Hpay. unfold xr.payload, da1s. cbn. rewrite Hunits, Hdata.
    by destruct (at_least_1d q). }
  destruct (interp_time_discrete_run σ1 (fresh (dom (Obj.objects σ))) o1 da1s tl
              time_unit T TI2 (Some "step") dax2 (at_least_1d q) T' da1 1)
    as (σ2 & Hsecond & Hσ2); try done.
  { unfold interpolation, o1, da1s. cbn. unfold xr.attrs_getitem.
    by rewrite lookup_insert_eq. }
  { by rewrite at_least_1d_idemp. }
  { cbn. unfold _valid_interpolations. left. }
  exists (fresh (dom (Obj.objects σ1))), σ2, o1,
    {| _data := Some (Discrete da1s); _time_var_name := None;
       _shape := None; _units := None;
       _interp_counter := _interp_counter o1 + 1;
       _reference_time := Time_reference_time T' |}.
  split_and!; [done| | |].
  - rewrite Hσ2, lookup_insert_ne; [done|].
    intros Heq. pose proof (is_fresh (dom (Obj.objects σ1))) as Hfr.
    rewrite Heq in Hfr. apply Hfr, elem_of_dom. by eexists.
  - rewrite Hσ2. apply lookup_insert_eq.
  - unfold __eq__. cbn. rewrite Hunits. unfold xr.identical.
    by rewrite !bool_decide_eq_true_2.
Qed.

End timeseries_facts.

(** ** GenericSeries *)

Section generic_series_facts.
Context `{Numeric} `{!Sympy} `{!WeldxUtil} `{!Formatting}.
Import GenericSeries.
Lemma result_bind_Ok {A B} (r : result A) (f : A → result B) b :
  r ≫= f = Ok b ↔ ∃ a, r = Ok a ∧ f a = Ok b.
Proof.
  destruct r as [a|e]; simpl; split.
  - intros Hf. by exists a.
  - by intros (a' & [= <-] & Hf).
  - done.
  - by intros (a' & [=] & _).
Qed.

Lemma DataArray_init_plain v d da :
  xr.DataArray_init v (Some d) [] = Ok da →
  xr.dims da = xr.dim_names d ∧ xr.data da = array_of v.
Proof.
  unfold xr.DataArray_init. destruct v as [a|q]; cbn [mbind result_bind].
  all: case_bool_decide; [done|]. all: cbn. all: by intros [= <-].
Qed.

(** One pass of the binding loop. *)
Lemma bind_variable_step self ns k v ns1 me sd vu :
  expression_state ns me sd vu →
  bind_variable self ns (k, v) = Ok ns1 →
  ∃ d da sd1,
    symbol_dims_getitem self k = Ok d
    ∧ xr.DataArray_init v (Some d) [] = Ok da
    ∧ k ∈ keys vu
    ∧ pop sd k = Ok sd1
    ∧ expression_state ns1
        {| MathematicalExpression._expression := MathematicalExpression._expression me;
           MathematicalExpression._parameters :=
             dict_set (MathematicalExpression._parameters me) k (PDataArray da) |}
        sd1 (dict_pop vu k)
    ∧ cls ns1 = cls ns ∧ _units ns1 = _units ns ∧ _shape ns1 = _shape ns
    ∧ _interpolation ns1 = _interpolation ns.
Proof.
  intros (Hd & Hsd & Hvu). unfold bind_variable. rewrite Hd, Hsd, Hvu.
  rewrite result_bind_Ok. intros (d & Hgd & Hrest). revert Hrest.
  rewrite result_bind_Ok. intros (me1 & Hset & Hrest). revert Hrest.
  rewrite result_bind_Ok. intros (sd1 & Hpop & Hrest). revert Hrest.
  rewrite result_bind_Ok. intros (vu1 & Hpopu & [= <-]).
  apply pop_Ok in Hpopu as [Hin ->].
  unfold MathematicalExpression.set_parameter, MathematicalExpression.set_parameters in Hset.
  cbn [for_each] in Hset. unfold MathematicalExpression.set_parameters_step in Hset.
  case_bool_decide; [done|]. revert Hset. cbn [mbind result_bind].
  destruct (xr.DataArray_init v (Some d) []) as [da|e] eqn:Hda; [|done].
  cbn. intros [= <-]. exists d, da, sd1. done.
Qed.

(** The whole binding loop. *)
Lemma bind_variables_loop self kw : ∀ ns me sd vu ns',
  expression_state ns me sd vu →
  units_name_variables me vu →
  for_each (bind_variable self) kw ns = Ok ns' →
  ∃ me' sd' vu',
    expression_state ns' me' sd' vu'
    ∧ units_name_variables me' vu'
    ∧ MathematicalExpression._expression me' = MathematicalExpression._expression me
    ∧ length (MathematicalExpression._parameters me')
      = length (MathematicalExpression._parameters me) + length kw
    ∧ length vu' + length kw = length vu
    ∧ NoDup (keys kw)
    ∧ (∀ k, k ∈ keys kw → k ∈ keys vu)
    ∧ (∀ k, k ∈ keys vu' ↔ k ∈ keys vu ∧ k ∉ keys kw)
    ∧ sd' = foldl dict_pop sd (keys kw)
    ∧ (∀ k v, (k, v) ∈ kw →
         ∃ d da, symbol_dims_getitem self k = Ok d
                 ∧ xr.DataArray_init v (Some d) [] = Ok da
                 ∧ dict_get (MathematicalExpression._parameters me') k
                   = Some (PDataArray da))
    ∧ (∀ k, k ∉ keys kw →
         dict_get (MathematicalExpression._parameters me') k
         = dict_get (MathematicalExpression._parameters me) k)
    ∧ cls ns' = cls ns ∧ _units ns' = _units ns.
Proof.
  induction kw as [|[k0 v0] kw IH]; intros ns me sd vu ns' Hst [Hnd Hdisj]; cbn [for_each].
  - intros [= <-]. exists me, sd, vu. split_and!; try done.
    all: try (simpl; lia).
    + constructor.
    + intros k Hin. by apply elem_of_nil in Hin.
    + intros k. split; [|tauto]. intros Hin. split; [done|]. apply not_elem_of_nil.
    + intros k v Hin. by apply elem_of_nil in Hin.
  - rewrite result_bind_Ok. intros (ns1 & Hstep & Hloop).
    destruct (bind_variable_step _ _ _ _ _ _ _ _ Hst Hstep)
      as (d0 & da0 & sd1 & Hgd & Hda & Hin0 & Hpop & Hst1 & Hcls1 & Hu1 & _).
    apply pop_Ok in Hpop as [Hinsd ->].
    set (me1 := {| MathematicalExpression._expression := MathematicalExpression._expression me;
                   MathematicalExpression._parameters :=
                     dict_set (MathematicalExpression._parameters me) k0 (PDataArray da0) |}) in *.
    assert (units_name_variables me1 (dict_pop vu k0)) as Hwf1.
    { split; [by apply dict_pop_NoDup|]. intros k. rewrite dict_pop_elem by done.
      intros [Hk Hne]. unfold MathematicalExpression.parameters, me1. cbn.
      rewrite dict_set_keys. case_decide; [by apply Hdisj|].
      rewrite elem_of_app, list_elem_of_singleton. intros [?|?]; [|done].
      by apply (Hdisj k). }
    destruct (IH _ _ _ _ _ Hst1 Hwf1 Hloop)
      as (me' & sd' & vu' & Hst' & Hwf' & He & Hlen & Hlenu & Hndkw & Hsub & Hkeys
          & Hsd' & Hbound & Hother & Hcls & Hu).
    assert (k0 ∉ keys kw) as Hk0.
    { intros Hin. apply Hsub in Hin. apply dict_pop_elem in Hin; [|done]. tauto. }
    exists me', sd', vu'. split_and!; try done.
    + rewrite Hlen. unfold me1. cbn.
      rewrite <- !length_keys, dict_set_keys, decide_False by (by apply Hdisj).
      rewrite length_app. simpl. lia.
    + pose proof (dict_pop_length vu k0 Hin0). simpl. lia.
    + rewrite keys_cons. by constructor.
    + intros k. rewrite keys_cons, elem_of_cons. intros [->|Hin]; [done|].
      apply Hsub in Hin. apply dict_pop_elem in Hin; tauto.
    + intros k. rewrite Hkeys, dict_pop_elem, keys_cons, not_elem_of_cons by done. tauto.
    + intros k v. rewrite elem_of_cons. intros [[= -> ->]|Hin]; [|by apply Hbound].
      exists d0, da0. split_and!; [done..|].
      rewrite Hother by done. unfold me1. cbn. rewrite dict_get_set, decide_True; done.
    + intros k. rewrite keys_cons, not_elem_of_cons. intros [Hne Hnin].
      rewrite Hother by done. unfold me1. cbn. rewrite dict_get_set, decide_False; done.
    + congruence.
    + congruence.
Qed.

Lemma dict_set_NoDup {V} (d : dict V) k v : NoDup (keys d) → NoDup (keys (dict_set d k v)).
Proof.
  intros Hnd. rewrite dict_set_keys. case_decide; [done|].
  apply NoDup_app. split_and!; [done| |apply NoDup_singleton].
  intros x Hx Hin. apply list_elem_of_singleton in Hin as ->. done.
Qed.

Lemma dict_set_elem {V} (d : dict V) k v k' :
  k' ∈ keys (dict_set d k v) ↔ k' ∈ keys d ∨ k' = k.
Proof.
  rewrite dict_set_keys. case_decide.
  - split; [by left|]. intros [?| ->]; done.
  - rewrite elem_of_app, list_elem_of_singleton. done.
Qed.

(** The unit map that [_init_expression] builds names variables only,
    each once. *)
Lemma given_units_name_variables (names : list string) (units : dict string)
    msg : ∀ acc vu,
  NoDup (keys acc) → (∀ k, k ∈ keys acc → k ∈ names) →
  for_each (λ acc (kv : string * string),
              if bool_decide (kv.1 ∉ names)
              then Raise (KeyError (msg kv.1))
              else if defined_unit kv.2
              then Ok (dict_set acc kv.1 (U_ kv.2))
              else Raise (UndefinedUnitError (undefined_unit kv.2)))
           units acc = Ok vu →
  NoDup (keys vu) ∧ ∀ k, k ∈ keys vu → k ∈ names.
Proof.
  induction units as [|[k u] units IH]; intros acc vu Hnd Hsub; cbn [for_each].
  - by intros [= <-].
  - cbn [fst snd]. case_bool_decide as Hk; [done|].
    destruct (defined_unit u); [|done]. cbn [mbind result_bind].
    apply IH; [by apply dict_set_NoDup|].
    intros k'. rewrite dict_set_elem. intros [?| ->]; [by apply Hsub|].
    first [done | by apply dec_stable].
Qed.

Lemma default_units_name_variables (names all : list string) :
  ∀ (du : dict xr.dimspec * dict Unit),
  (∀ k, k ∈ names → k ∈ all) →
  NoDup (keys du.2) → (∀ k, k ∈ keys du.2 → k ∈ all) →
  let du' := foldl (λ (du : dict xr.dimspec * dict Unit) v,
               (if contains du.1 v then du.1 else dict_set du.1 v (xr.DStr v),
                if contains du.2 v then du.2 else dict_set du.2 v (U_ EmptyString)))
             du names in
  NoDup (keys du'.2) ∧ (∀ k, k ∈ keys du'.2 → k ∈ all)
  ∧ (∀ k, k ∈ names → k ∈ keys du'.2 ∧ k ∈ keys du'.1)
  ∧ (∀ k, k ∈ keys du.2 → k ∈ keys du'.2)
  ∧ (∀ k, k ∈ keys du.1 → k ∈ keys du'.1).
Proof.
  induction names as [|v names IH]; intros [d u] Hall Hnd Hsub; cbn [foldl fst snd].
  - split_and!; try done. intros k Hk. by apply elem_of_nil in Hk.
  - cbn [fst snd] in *.
    match goal with |- context [foldl _ ?x names] => set (du1 := x) end.
    assert (∀ k, k ∈ keys u → k ∈ keys du1.2) as Hu1.
    { intros k Hk. unfold du1. cbn. destruct (contains u v); [done|].
      apply dict_set_elem. by left. }
    assert (∀ k, k ∈ keys d → k ∈ keys du1.1) as Hd1.
    { intros k Hk. unfold du1. cbn. destruct (contains d v); [done|].
      apply dict_set_elem. by left. }
    assert (v ∈ keys du1.2 ∧ v ∈ keys du1.1) as [Hv2 Hv1].
    { unfold du1. cbn. split.
      - destruct (contains u v) eqn:Hc; [by apply contains_true|].
        apply dict_set_elem. by right.
      - destruct (contains d v) eqn:Hc; [by apply contains_true|].
        apply dict_set_elem. by right. }
    destruct (IH du1) as (Hnd' & Hsub' & Hnames & Hmono2 & Hmono1).
    + intros k Hk. apply Hall. by right.
    + unfold du1. cbn. destruct (contains u v); [done|]. by apply dict_set_NoDup.
    + intros k. unfold du1. cbn. destruct (contains u v); [by apply Hsub|].
      rewrite dict_set_elem. intros [?| ->]; [by apply Hsub|]. apply Hall. left.
    + split_and!; try done.
      * intros k. rewrite elem_of_cons. intros [-> |Hk]; [|by apply Hnames].
        split; [by apply Hmono2|by apply Hmono1].
      * intros k Hk. by apply Hmono2, Hu1.
      * intros k Hk. by apply Hmono1, Hd1.
Qed.

(** No series is made of an expression with a list in the place of the
    dictionary of dimensions. *)
Lemma init_expression_sequence_dims_raises expr dims units s :
  _init_expression_sequence_dims expr dims units ≠ Ok s.
Proof.
  unfold _init_expression_sequence_dims.
  destruct (for_each _ _ units) as [units'|e]; [|done]. cbn [mbind result_bind].
  by destruct (first_evaluation expr units').
Qed.

(** What a successful construction from an expression leaves. *)
Lemma init_expression_state c expr dims parameters units self :
  _init_expression c expr dims parameters units = Ok self →
  ∃ me sd vu,
    expression_state self me sd vu
    ∧ units_name_variables me vu
    ∧ (∀ k, k ∈ MathematicalExpression.get_variable_names me
            → k ∈ keys vu ∧ k ∈ keys sd)
    ∧ (∀ k, k ∈ keys vu → k ∈ MathematicalExpression.get_variable_names me)
    ∧ (∃ shape, _eval_expr me sd vu = Ok (default (U_ EmptyString) (_units self), shape))
    ∧ is_Some (_units self).
Proof.
  unfold _init_expression.
  destruct (match expr with inl me => _ | inr s => _ end) as [ex ps].
  rewrite result_bind_Ok. intros (ps' & _ & Hrest). revert Hrest.
  rewrite result_bind_Ok. intros (me & _ & Hrest). revert Hrest.
  case_bool_decide; [done|].
  rewrite result_bind_Ok. intros (vu0 & Hvu0 & Hrest). revert Hrest.
  assert (NoDup (keys vu0)
          ∧ ∀ k, k ∈ keys vu0 → k ∈ MathematicalExpression.get_variable_names me)
    as [Hnd0 Hsub0].
  { destruct units as [units|]; [|injection Hvu0 as <-; split; [constructor|]].
    - eapply (given_units_name_variables _ units (λ k, not_a_variable k me) []);
        [constructor| |done].
      intros k Hk. by apply elem_of_nil in Hk.
    - intros k Hk. by apply elem_of_nil in Hk. }
  assert (∀ sd0 : dict xr.dimspec,
            _init_expression_dict_dims c me sd0 vu0 = Ok self →
            ∃ me sd vu,
              expression_state self me sd vu
              ∧ units_name_variables me vu
              ∧ (∀ k, k ∈ MathematicalExpression.get_variable_names me
                      → k ∈ keys vu ∧ k ∈ keys sd)
              ∧ (∀ k, k ∈ keys vu → k ∈ MathematicalExpression.get_variable_names me)
              ∧ (∃ shape, _eval_expr me sd vu
                          = Ok (default (U_ EmptyString) (_units self), shape))
              ∧ is_Some (_units self)) as Hdict.
  { intros sd0. unfold _init_expression_dict_dims.
    pose proof (default_units_name_variables
                  (MathematicalExpression.get_variable_names me)
                  (MathematicalExpression.get_variable_names me) (sd0, vu0)
                  (λ _ Hk, Hk) Hnd0 Hsub0) as Hdef.
    cbv zeta in Hdef.
    destruct (foldl _ (sd0, vu0) _) as [sd vu]. cbn [fst snd] in Hdef.
    destruct Hdef as (Hnd & Hsub & Hnames & _ & _).
    rewrite result_bind_Ok. intros ([u sh] & Heval & Hrest). revert Hrest.
    rewrite result_bind_Ok. intros ([] & _ & [= <-]).
    exists me, sd, vu. split_and!; try done.
    - split; [done|]. intros k Hk Hp. apply Hsub in Hk.
      unfold MathematicalExpression.get_variable_names in Hk.
      apply list_elem_of_filter in Hk as [Hk _]. done.
    - cbn. by exists sh. }
  destruct dims as [[l|d]|].
  - intros Hl. by apply init_expression_sequence_dims_raises in Hl.
  - apply Hdict.
  - apply Hdict.
Qed.

Lemma elem_of_expression_dims me sd x :
  x ∈ _get_expression_dims me sd
  ↔ (∃ d, d ∈ values sd ∧ x ∈ set_of d)
    ∨ (∃ p, p ∈ values (MathematicalExpression.parameters me) ∧ x ∈ parameter_dims p).
Proof.
  unfold _get_expression_dims. rewrite elem_of_elements, !elem_of_foldl_union.
  rewrite elem_of_empty. tauto.
Qed.

(** Claim C1, as amended.  For an expression-backed series with [n] free
    variables, a call that binds [k] of them with [k <> n] and returns,
    returns an expression-backed series on the same formula that reports
    [n - k] free variables; its unit map and its dimension map have lost
    the bound names and nothing else; and the dimension labels of every
    variable that was bound to a non-empty array are still among its
    [dims], where the bound array-valued parameter now contributes
    them. *)
Theorem call_binds_variables self me sd vu kwargs kw new_series :
  expression_state self me sd vu →
  units_name_variables me vu →
  preprocess self kwargs = Ok kw →
  Z.of_nat (length kw) ≠ MathematicalExpression.num_variables me →
  __call__ self kwargs = Ok new_series →
  ∃ me' sd' vu',
    expression_state new_series me' sd' vu'
    ∧ units_name_variables me' vu'
    ∧ MathematicalExpression.expression me' = MathematicalExpression.expression me
    ∧ MathematicalExpression.num_variables me'
      = (MathematicalExpression.num_variables me - Z.of_nat (length kw))%Z
    ∧ parameter_names new_series = Some (keys vu')
    ∧ length (keys vu') = length (keys vu) - length kw
    ∧ (∀ k, k ∈ keys vu' ↔ k ∈ keys vu ∧ k ∉ keys kw)
    ∧ sd' = foldl dict_pop sd (keys kw)
    ∧ ∀ k v d, (k, v) ∈ kw → dict_get sd k = Some d →
        0 < np.size (array_of v) →
        ∃ ds, dims new_series = Ok ds ∧ ∀ x, x ∈ xr.dim_names d → x ∈ ds.
Proof.
  intros Hst Hwf Hpre Hpartial. unfold __call__. rewrite Hpre. cbn [mbind result_bind].
  destruct (for_each (prepare_input self) kw []) as [input|e]; [|done].
  cbn [mbind result_bind]. destruct Hst as (Hd & Hsd & Hvu). rewrite Hd.
  rewrite bool_decide_eq_false_2 by done. intros Hloop.
  destruct (bind_variables_loop self kw self me sd vu new_series)
    as (me' & sd' & vu' & Hst' & Hwf' & He & Hlen & Hlenu & Hndkw & Hsub & Hkeys
        & Hsd' & Hbound & Hother & Hcls & Hu); [done..|].
  exists me', sd', vu'. split_and!; try done.
  - unfold MathematicalExpression.num_variables, MathematicalExpression.expression.
    rewrite He, Hlen. lia.
  - unfold parameter_names. destruct Hst' as (_ & _ & ->). done.
  - rewrite !length_keys. lia.
  - intros k v d Hin Hget Hsize. destruct Hst' as (Hd' & Hsd'' & _).
    unfold dims. rewrite Hd', Hsd''. eexists. split; [done|].
    intros x Hx. apply elem_of_expression_dims. right.
    destruct (Hbound k v Hin) as (d' & da & Hgd & Hda & Hp).
    unfold symbol_dims_getitem in Hgd. rewrite Hsd in Hgd.
    apply getitem_Ok in Hgd. assert (d' = d) as -> by congruence.
    apply DataArray_init_plain in Hda as [Hdims Hdata].
    exists (PDataArray da). split.
    + apply elem_of_values. exists k. by apply dict_get_Some.
    + unfold parameter_dims, xr.size. rewrite Hdata, bool_decide_eq_true_2 by done.
      rewrite elem_of_list_to_set, Hdims. done.
Qed.

(** Claim C3, as amended.  For an expression-backed series with [n] free
    variables, a call that binds all [n] and returns, returns a discrete
    series of the class [GenericSeries] that holds the result of the
    evaluation of the expression and nothing of the probe; its [units] are
    the unit that this result carries. *)
Theorem call_evaluates self me kwargs kw new_series :
  _data self = Expression me →
  preprocess self kwargs = Ok kw →
  Z.of_nat (length kw) = MathematicalExpression.num_variables me →
  __call__ self kwargs = Ok new_series →
  ∃ input data,
    for_each (prepare_input self) kw [] = Ok input
    ∧ MathematicalExpression.evaluate me
        (prod_map id MathematicalExpression.VArray <$> input) = Ok data
    ∧ new_series
      = {| cls := GenericSeries; _data := Discrete data;
           _variable_units := None; _symbol_dims := None; _shape := None;
           _units := None; _interpolation := "linear" |}
    ∧ units new_series = match xr.units data with
                         | Some u => Ok u
                         | None => Raise no_attribute_u
                         end.
Proof.
  intros Hd Hpre Hfull. unfold __call__. rewrite Hpre. cbn [mbind result_bind].
  destruct (for_each (prepare_input self) kw []) as [input|e]; [|done].
  cbn [mbind result_bind]. rewrite Hd. rewrite bool_decide_eq_true_2 by done.
  destruct (MathematicalExpression.evaluate me _) as [data|e] eqn:Hev; [|done].
  cbn [mbind result_bind]. unfold __init__, _init_discrete. cbn. intros [= <-].
  exists input, data. done.
Qed.

Lemma dict_get_sizes_None da k : k ∉ xr.dims da → dict_get (xr.sizes da) k = None.
Proof.
  intros Hk. apply dict_get_None. intros Hin. apply Hk.
  unfold xr.sizes, keys in Hin. apply list_elem_of_fmap in Hin as [[k' n] [-> Hin]].
  by apply elem_of_zip_l in Hin.
Qed.

Lemma length_append (s1 s2 : string) :
  String.length (s1 +:+ s2) = (String.length s1 + String.length s2)%nat.
Proof.
  induction s1 as [|c s1 IH]; [done|].
  change (S (String.length (s1 +:+ s2)) = S (String.length s1 + String.length s2)).
  by rewrite IH.
Qed.

Lemma not_a_dimension_is_longer k : k ≠ not_a_dimension k.
Proof.
  intros Heq. apply (f_equal String.length) in Heq. unfold not_a_dimension in Heq.
  rewrite !length_append in Heq. cbn in Heq. lia.
Qed.

(** Claim C9.  The call of a discrete series whose first keyword [k] names
    neither a dimension nor a coordinate of the array fails, and the error
    is not the one with the message [not_a_dimension]: the lookup of the
    unit of the coordinate [k] comes before the test of the dimension
    names, and it raises the [KeyError] of the lookup, whose argument is
    the bare name [k]. *)
Theorem call_unknown_name self da kwargs k v rest :
  _data self = Discrete da →
  preprocess self kwargs = Ok ((k, v) :: rest) →
  xr.coords da !! k = None →
  k ∉ xr.dims da →
  __call__ self kwargs = Raise (KeyError k)
  ∧ KeyError k ≠ KeyError (not_a_dimension k).
Proof.
  intros Hd Hpre Hc Hk. split.
  - unfold __call__. rewrite Hpre. cbn.
    rewrite Hd. unfold xr.coords_getitem. rewrite Hc, dict_get_sizes_None by done.
    done.
  - intros [= Heq]. by apply not_a_dimension_is_longer in Heq.
Qed.

End generic_series_facts.

(** * More of the module *)

(** ** MathematicalExpression *)

Section expression_parameters.
Context `{Numeric} `{!Sympy} `{!WeldxUtil} `{!Formatting}.
Import MathematicalExpression.

Lemma set_parameters_step_Ok names self k v self' :
  set_parameters_step names self (k, v) = Ok self' →
  k ∈ names
  ∧ ∃ v', stored_as v v'
          ∧ self' = {| _expression := _expression self;
                       _parameters := dict_set (_parameters self) k v' |}.
Proof.
  unfold set_parameters_step. case_bool_decide as Hk; [done|].
  intros Hs. split; [first [done | by apply dec_stable]|].
  destruct v as [a|a d|da]; cbn in Hs.
  - injection Hs as <-. by eexists.
  - destruct (xr.DataArray_init a (Some d) []) as [da|e] eqn:Hda; [|done].
    cbn in Hs. injection Hs as <-. eexists. split; [|done]. by exists da.
  - injection Hs as <-. by eexists.
Qed.

Lemma set_parameters_loop names d : ∀ self self',
  for_each (set_parameters_step names) d self = Ok self' →
  _expression self' = _expression self
  ∧ (∀ k, k ∈ keys d → k ∈ names)
  ∧ (∀ k, k ∈ keys (_parameters self') ↔ k ∈ keys (_parameters self) ∨ k ∈ keys d)
  ∧ (NoDup (keys (_parameters self)) → NoDup (keys (_parameters self')))
  ∧ (∀ k, k ∉ keys d → dict_get (_parameters self') k = dict_get (_parameters self) k)
  ∧ (NoDup (keys d) → ∀ k v, (k, v) ∈ d →
       ∃ v', stored_as v v' ∧ dict_get (_parameters self') k = Some v').
Proof.
  induction d as [|[k v] d IH]; intros self self' Hloop.
  - injection Hloop as <-. split_and!; try done.
    + intros k Hk. by apply elem_of_nil in Hk.
    + intros k. split; [by left|]. intros [?|Hk]; [done|]. by apply elem_of_nil in Hk.
    + intros _ k v Hk. by apply elem_of_nil in Hk.
  - cbn [for_each] in Hloop. apply result_bind_Ok in Hloop as (self1 & Hstep & Hloop).
    apply set_parameters_step_Ok in Hstep as (Hk & v' & Hv' & ->).
    destruct (IH _ _ Hloop) as (He & Hnames & Hkeys & Hnd & Hother & Hval).
    cbn [_expression _parameters] in *. rewrite keys_cons.
    split_and!.
    + done.
    + intros k' [->|Hk']%elem_of_cons; [done|by apply Hnames].
    + intros k'. rewrite Hkeys, dict_set_elem, elem_of_cons. tauto.
    + intros Hn. by apply Hnd, dict_set_NoDup.
    + intros k' Hk'. rewrite Hother by (intros ?; apply Hk'; by right).
      rewrite dict_get_set. destruct (decide (k' = k)) as [->|]; [|done].
      exfalso. apply Hk'. by left.
    + intros Hn k' w Hin. apply NoDup_cons in Hn as [Hkd Hn].
      apply elem_of_cons in Hin as [[= -> ->]|Hin].
      * exists v'. split; [done|]. rewrite Hother by done.
        rewrite dict_get_set. by rewrite decide_True.
      * by apply Hval.
Qed.

(** Property X1.  When [set_parameters] returns, the formula is unchanged,
    every name it was given is a symbol of the formula, the bound names are the
    old ones and the given ones, a name that was not given keeps its value, and
    (for a dictionary without repeated keys) every given name is bound to its
    value: a plain value as a quantity, an array as it is, a pair as the
    labeled array made of it. *)
Theorem set_parameters_binds self d self' :
  set_parameters self (Dict d) = Ok self' →
  expression self' = expression self
  ∧ (∀ k, k ∈ keys d → k ∈ free_symbols (expression self))
  ∧ (∀ k, k ∈ keys (parameters self')
          ↔ k ∈ keys (parameters self) ∨ k ∈ keys d)
  ∧ (∀ k, k ∉ keys d →
       dict_get (parameters self') k = dict_get (parameters self) k)
  ∧ (NoDup (keys d) → ∀ k v, (k, v) ∈ d →
       ∃ v', stored_as v v' ∧ dict_get (parameters self') k = Some v').
Proof.
  unfold set_parameters. intros Hloop.
  destruct (set_parameters_loop _ _ _ _ Hloop) as (He & Hn & Hk & _ & Ho & Hv).
  done.
Qed.

Lemma length_filter_not_elem (l ks : list string) :
  NoDup l → NoDup ks → (∀ k, k ∈ ks → k ∈ l) →
  (length (filter (λ x : string, x ∉ ks) l) + length ks = length l)%nat.
Proof.
  intros Hl Hks Hsub.
  pose proof (filter_app_complement (λ x : string, x ∈ ks) l) as Hp.
  apply Permutation_length in Hp. rewrite length_app in Hp.
  assert (filter (λ x : string, x ∈ ks) l ≡ₚ ks) as Hq.
  { apply NoDup_Permutation; [by apply NoDup_filter|done|].
    intros x. rewrite list_elem_of_filter. split; [by intros [? _]|].
    intros Hx. split; [done|by apply Hsub]. }
  apply Permutation_length in Hq. rewrite Hq in Hp. lia.
Qed.

Lemma init_parameters e params me :
  __init__ e params = Ok me →
  NoDup (keys (parameters me))
  ∧ ∀ k, k ∈ keys (parameters me) → k ∈ free_symbols (expression me).
Proof.
  unfold __init__. intros Hinit. apply result_bind_Ok in Hinit as (e' & _ & Hinit).
  destruct params as [[d|ty]|]; cbn in Hinit; [| done |].
  - destruct (set_parameters_loop _ _ _ _ Hinit) as (He & Hn & Hk & Hnd & _).
    cbn [_expression _parameters] in *. unfold parameters, expression. rewrite He.
    split; [apply Hnd; constructor|]. intros k [Hk'|Hk']%Hk; [|by apply Hn].
    by apply elem_of_nil in Hk'.
  - injection Hinit as <-. split; [constructor|]. intros k Hk. by apply elem_of_nil in Hk.
Qed.

Lemma after_set_parameters_keeps calls : ∀ me0 me,
  after_set_parameters me0 calls = Ok me →
  NoDup (keys (parameters me0)) →
  (∀ k, k ∈ keys (parameters me0) → k ∈ free_symbols (expression me0)) →
  expression me = expression me0
  ∧ NoDup (keys (parameters me))
  ∧ ∀ k, k ∈ keys (parameters me) → k ∈ free_symbols (expression me).
Proof.
  unfold after_set_parameters.
  induction calls as [|d calls IH]; intros me0 me Hloop Hnd Hsub.
  - by injection Hloop as <-.
  - cbn [for_each] in Hloop. apply result_bind_Ok in Hloop as (me1 & Hset & Hloop).
    destruct (set_parameters_loop _ _ _ _ Hset) as (He & Hn & Hk & Hnd1 & _).
    destruct (IH _ _ Hloop) as (He' & Hnd' & Hsub').
    + by apply Hnd1.
    + unfold expression, parameters. rewrite He.
      intros k [Hk'|Hk']%Hk; [by apply Hsub|by apply Hn].
    + split; [|done]. unfold expression in *. by rewrite He', He.
Qed.

(** Property X2.  For an expression made by the constructor and any number
    of calls of [set_parameters], whose symbols are distinct: [num_variables] is
    the length of [get_variable_names] and is not negative, every parameter is a
    symbol, and the variable names are the symbols that are not parameters. *)
Theorem num_variables_counts_names e params calls me0 me :
  __init__ e params = Ok me0 →
  after_set_parameters me0 calls = Ok me →
  NoDup (free_symbols (expression me)) →
  num_variables me = Z.of_nat (length (get_variable_names me))
  ∧ (0 ≤ num_variables me)%Z
  ∧ (∀ k, k ∈ keys (parameters me) → k ∈ free_symbols (expression me))
  ∧ (∀ k, k ∈ get_variable_names me
          ↔ k ∈ free_symbols (expression me) ∧ k ∉ keys (parameters me)).
Proof.
  intros Hinit Hcalls Hsym.
  destruct (init_parameters _ _ _ Hinit) as [Hnd0 Hsub0].
  destruct (after_set_parameters_keeps _ _ _ Hcalls Hnd0 Hsub0) as (_ & Hnd & Hsub).
  pose proof (length_filter_not_elem _ _ Hsym Hnd Hsub) as Hlen.
  unfold num_variables, get_variable_names, expression, parameters in *.
  rewrite length_keys in Hlen.
  split_and!; [lia|lia|done|].
  intros k. rewrite list_elem_of_filter. tauto.
Qed.

(** Property X3.  When [set_parameter] returns, the name is a symbol of the
    formula; binding a name that was free adds one parameter and removes one
    variable, binding a name that was bound leaves both counts; the variable
    names are the old ones without the name. *)
Theorem set_parameter_counts self k v self' :
  NoDup (keys (parameters self)) →
  set_parameter self k v = Ok self' →
  k ∈ free_symbols (expression self)
  ∧ num_parameters self'
    = (if decide (k ∈ keys (parameters self))
       then num_parameters self else num_parameters self + 1)%Z
  ∧ num_variables self'
    = (if decide (k ∈ keys (parameters self))
       then num_variables self else num_variables self - 1)%Z
  ∧ get_variable_names self'
    = filter (λ x : string, x ≠ k) (get_variable_names self).
Proof.
  intros Hnd. unfold set_parameter, set_parameters. cbn [for_each].
  intros Hset. apply result_bind_Ok in Hset as (self1 & Hstep & [= <-]).
  apply set_parameters_step_Ok in Hstep as (Hk & v' & _ & ->).
  unfold num_parameters, num_variables, get_variable_names, expression, parameters in *.
  cbn [_expression _parameters].
  assert (length (dict_set (_parameters self) k v')
          = if decide (k ∈ keys (_parameters self))
            then length (_parameters self) else S (length (_parameters self))) as Hlen.
  { rewrite <- !length_keys, dict_set_keys. destruct (decide _); [done|].
    rewrite length_app. cbn. lia. }
  rewrite Hlen. split_and!; [done| | |].
  - destruct (decide _); lia.
  - destruct (decide _); lia.
  - rewrite list_filter_filter. apply list_filter_iff.
    intros x. rewrite dict_set_elem. split.
    + intros Hx. split; [|intros ?; apply Hx; by left].
      intros ->. apply Hx. by right.
    + intros [Hxk Hx] [?|?]; done.
Qed.
End expression_parameters.

Section expression_evaluation.
Context `{Numeric} `{!Sympy} `{!WeldxUtil} `{!Formatting}.
Import MathematicalExpression.

Lemma keys_app {V} (d1 d2 : dict V) : keys (d1 ++ d2) = keys d1 ++ keys d2.
Proof. unfold keys. apply fmap_app. Qed.

Lemma filter_nil_Forall {A} (P : A → Prop) `{!∀ x, Decision (P x)} (l : list A) :
  filter P l = [] ↔ ∀ x, x ∈ l → ¬ P x.
Proof.
  split.
  - intros Hf x Hx HP. by eapply filter_nil_not_elem_of.
  - intros Hall. induction l as [|x l IH]; [done|].
    rewrite filter_cons_False by (apply Hall; left). apply IH.
    intros y Hy. apply Hall. by right.
Qed.

Lemma call_with_keywords_cases params body (kwargs : dict xr.DataArray) :
  ((∀ k, k ∈ keys kwargs → k ∈ params) ∧ (∀ p, p ∈ params → p ∈ keys kwargs)
   ∧ call_with_keywords params body kwargs = body (omap (dict_get kwargs) params))
  ∨ (¬ ((∀ k, k ∈ keys kwargs → k ∈ params) ∧ (∀ p, p ∈ params → p ∈ keys kwargs))
     ∧ ∃ m, call_with_keywords params body kwargs = Raise (TypeError m)).
Proof.
  unfold call_with_keywords.
  destruct (filter (λ k : string, k ∉ params) (keys kwargs)) as [|k ks] eqn:Hf1.
  - destruct (filter (λ p : string, p ∉ keys kwargs) params) as [|p ps] eqn:Hf2.
    + left. split_and!; [| |done].
      * intros k Hk. apply dec_stable.
        exact (proj1 (filter_nil_Forall _ _) Hf1 k Hk).
      * intros p Hp. apply dec_stable.
        exact (proj1 (filter_nil_Forall _ _) Hf2 p Hp).
    + right. split; [|by eexists].
      intros [_ Hall].
      assert (p ∈ filter (λ p : string, p ∉ keys kwargs) params) as Hp
        by (rewrite Hf2; left).
      apply list_elem_of_filter in Hp as [Hn Hp]. by apply Hn, Hall.
  - right. split; [|by eexists].
    intros [Hall _].
    assert (k ∈ filter (λ k : string, k ∉ params) (keys kwargs)) as Hk
      by (rewrite Hf1; left).
    apply list_elem_of_filter in Hk as [Hn Hk]. by apply Hn, Hall.
Qed.

Lemma keys_call_arguments self (kwargs : dict variable_arg) k :
  k ∈ keys (variables_of kwargs ++ parameters_of self)
  ↔ k ∈ keys kwargs ∨ k ∈ keys (parameters self).
Proof.
  rewrite keys_app, elem_of_app. unfold variables_of, parameters_of.
  by rewrite !keys_prod_map.
Qed.

Lemma names_match_arguments self (kwargs : dict variable_arg) :
  names_match self kwargs
  ↔ (∀ k, k ∈ keys (variables_of kwargs ++ parameters_of self)
          → k ∈ free_symbols (expression self))
    ∧ (∀ p, p ∈ free_symbols (expression self)
            → p ∈ keys (variables_of kwargs ++ parameters_of self)).
Proof.
  unfold names_match. split.
  - intros (Hs & Hk & Hp). split.
    + intros k [?|?]%keys_call_arguments; [by apply Hk|by apply Hp].
    + intros p Hsym. apply keys_call_arguments. by apply Hs.
  - intros [Hk Hs]. split_and!.
    + intros s Hsym. by apply keys_call_arguments, Hs.
    + intros k Hin. apply Hk, keys_call_arguments. by left.
    + intros k Hin. apply Hk, keys_call_arguments. by right.
Qed.

(** Property X4.  When [evaluate] returns, the names match: every symbol
    has a value among the keywords or the parameters, every keyword and every
    parameter is a symbol, and no keyword is a parameter; the result is the
    compiled function at the values in the order of the symbols.  When no
    keyword is a parameter and the names do not match, [evaluate] raises a
    [TypeError]. *)
Theorem evaluate_names self kwargs :
  (∀ v, evaluate self kwargs = Ok v →
     names_match self kwargs
     ∧ (∀ k, k ∈ keys kwargs → k ∉ keys (parameters self))
     ∧ lambdify (expression self)
         (omap (dict_get (variables_of kwargs ++ parameters_of self))
            (free_symbols (expression self))) = Ok v)
  ∧ ((∀ k, k ∈ keys kwargs → k ∉ keys (parameters self)) →
     ¬ names_match self kwargs →
     ∃ m, evaluate self kwargs = Raise (TypeError m)).
Proof.
  assert (∀ k, (k ∈ keys kwargs → k ∉ keys (parameters self))
               ↔ ¬ (k ∈ keys kwargs ∧ k ∈ keys (parameters self))) as Hiff
    by (intros k; tauto).
  pose proof (call_with_keywords_cases (free_symbols (expression self))
                (lambdify (expression self))
                (variables_of kwargs ++ parameters_of self)) as Hcases.
  unfold evaluate.
  change (list_to_set (keys kwargs) ∩ list_to_set (keys (_parameters self)))
    with (collisions self kwargs).
  split.
  - intros v. case_bool_decide as Hc; [done|].
    rewrite collisions_size in Hc.
    rewrite function_without_collision by done. intros Hv.
    destruct Hcases as [(Hk & Hs & Hcall)|[_ [m Hm]]]; [|congruence].
    split_and!.
    + by apply names_match_arguments.
    + intros k Hk1 Hk2. apply Hc. by exists k.
    + by rewrite <- Hcall.
  - intros Hno Hnm.
    rewrite bool_decide_eq_false_2; last first.
    { rewrite collisions_size. intros (k & Hk1 & Hk2). by apply (Hno k). }
    rewrite function_without_collision; last first.
    { intros (k & Hk1 & Hk2). by apply (Hno k). }
    destruct Hcases as [(Hk & Hs & _)|[_ Hm]]; [|done].
    exfalso. apply Hnm, names_match_arguments. done.
Qed.
End expression_evaluation.

(** ** TimeSeries *)

Section timeseries_construction.
Context `{Numeric} `{!Sympy} `{!WeldxUtil} `{!WeldxTime} `{!Formatting}.
Import TimeSeries.

(** The first part of [_init_expression], when it returns. *)
Lemma assign_expression_inv self data σ σ0 o :
  Obj.objects σ !! self = Some o →
  assign_expression self data σ = (Ok (), σ0) →
  ∃ name rest q,
    MathematicalExpression.num_variables data = 1%Z
    ∧ MathematicalExpression.get_variable_names data = name :: rest
    ∧ xr.payload <$> MathematicalExpression.evaluate data [(name, one_second)]
      = Ok (pint.Quant q)
    ∧ σ0 = with_object σ self
             {| _data := Some (Expression data); _time_var_name := Some name;
                _shape := Some (probed_shape q); _units := Some (pint.units q);
                _interp_counter := _interp_counter o;
                _reference_time := _reference_time o |}.
Proof.
  intros Hself. unfold assign_expression.
  case_bool_decide as Hn; [done|].
  destruct (MathematicalExpression.get_variable_names data) as [|name names]; run; [done|].
  unfold probe_unit. run. fold one_second.
  destruct (MathematicalExpression.evaluate data [(name, one_second)]) as [res|e]
    eqn:Hev; cbn [fmap result_fmap]; [|by destruct (is_DimensionalityError e); run].
  destruct (xr.payload res) as [a|q] eqn:Hres; run; [done|].
  unfold modify, load. run. rewrite Hself. cbn [default].
  rewrite !lookup_insert_eq. cbn [default].
  intros [= <-]. exists name, names, q. split_and!.
  - first [done | apply dec_stable; by intros ?].
  - done.
  - rewrite Hev. cbn [fmap result_fmap]. by rewrite Hres.
  - unfold with_object. cbn. by rewrite !insert_insert_eq.
Qed.

(** The object that the constructor makes of an expression. *)
Lemma new_expression_inv data time interp ref σ self σ' :
  new (ArgExpression data) time interp ref σ = (Ok self, σ') →
  ∃ name rest q,
    MathematicalExpression.get_variable_names data = name :: rest
    ∧ xr.payload <$> MathematicalExpression.evaluate data [(name, one_second)]
      = Ok (pint.Quant q)
    ∧ Obj.objects σ' !! self
      = Some {| _data := Some (Expression data); _time_var_name := Some name;
                _shape := Some (probed_shape q); _units := Some (pint.units q);
                _interp_counter := 0; _reference_time := ref |}.
Proof.
  unfold new, __init__, _init_expression. run.
  set (l := fresh (dom (Obj.objects σ))).
  match goal with |- context [assign_expression l data ?s] => set (σa := s) end.
  assert (Obj.objects σa !! l = Some (initial ref)) as Hl.
  { subst σa. cbn. by rewrite lookup_insert_eq. }
  destruct (assign_expression l data σa) as [[[]|e] σ0] eqn:Hassign; run; [|done].
  destruct (assign_expression_inv _ _ _ _ _ Hl Hassign)
    as (name & rest & q & _ & Hnames & Hev & ->).
  match goal with |- context [probe_time_arrays l ?s] =>
    destruct (probe_time_arrays l s) as [[[]|e] σ2] eqn:Hprobe
  end; run; [|done].
  intros [= <- <-].
  eapply probe_time_arrays_frame in Hprobe;
    [|unfold with_object; cbn; by rewrite lookup_insert_eq].
  by exists name, rest, q.
Qed.

(** Property X5.  A time series made of an expression holds the expression,
    the name of its first variable as the time variable, the unit and the shape
    of its value at one second, the counter 0 and the reference time given;
    writing its interpolation changes nothing. *)
Theorem new_expression_state data time interp ref σ self σ' :
  new (ArgExpression data) time interp ref σ = (Ok self, σ') →
  ∃ name rest q,
    MathematicalExpression.get_variable_names data = name :: rest
    ∧ xr.payload <$> MathematicalExpression.evaluate data [(name, one_second)]
      = Ok (pint.Quant q)
    ∧ Obj.objects σ' !! self
      = Some {| _data := Some (Expression data); _time_var_name := Some name;
                _shape := Some (probed_shape q); _units := Some (pint.units q);
                _interp_counter := 0; _reference_time := ref |}
    ∧ ∀ mode, set_interpolation self mode σ' = (Ok (), σ').
Proof.
  intros Hnew.
  apply new_expression_inv in Hnew as (name & rest & q & Hnames & Hev & Hself).
  exists name, rest, q. split_and!; [done..|].
  intros mode. by eapply set_interpolation_other.
Qed.

(** Property X6.  When the expression has one variable and its evaluation
    at one second raises, the constructor raises: the message on the unit of the
    time for a dimensionality error, the error itself otherwise; the store holds
    the object as it was before any attribute of the expression was set. *)
Theorem new_probe_error data time interp ref σ name rest e :
  MathematicalExpression.num_variables data = 1%Z →
  MathematicalExpression.get_variable_names data = name :: rest →
  MathematicalExpression.evaluate data [(name, one_second)] = Raise e →
  new (ArgExpression data) time interp ref σ
  = (Raise (if is_DimensionalityError e then Exception wrong_units else e),
     with_object σ (fresh (dom (Obj.objects σ))) (initial ref)).
Proof.
  intros Hn Hnames Hev.
  unfold new, __init__, _init_expression, assign_expression. run.
  rewrite bool_decide_eq_false_2 by (by intros ?).
  rewrite Hnames. run. unfold probe_unit. run. fold one_second. rewrite Hev.
  cbn [fmap result_fmap]. run.
  unfold with_object. cbn. rewrite insert_insert_eq.
  by destruct (is_DimensionalityError e); run.
Qed.
End timeseries_construction.

Section timeseries_discrete.
Context `{Numeric} `{!Sympy} `{!WeldxUtil} `{!WeldxTime} `{!Formatting}.
Import TimeSeries.

(** The setter on a discrete object, when it returns. *)
Lemma set_interpolation_inv σ self o da mode σ' :
  Obj.objects σ !! self = Some o →
  _data o = Some (Discrete da) →
  set_interpolation self mode σ = (Ok (), σ') →
  ∃ n, xr.len_time da = Ok n
       ∧ mode ∈ _valid_interpolations
       ∧ σ' = with_object σ self
                (set_data (Discrete (xr.attrs_setitem da "interpolation"
                   (if bool_decide (1 < n) then mode else "step"))) o).
Proof.
  intros Hself Hd. rewrite (set_interpolation_discrete _ _ _ _ _ Hself Hd).
  case_bool_decide as Hmode; [done|].
  unfold time. rewrite Hd. destruct (xr.len_time da) as [n|e]; [|done].
  cbn [mbind result_bind]. intros Hset. exists n.
  split; [done|]. split; [first [done | by apply dec_stable]|].
  case_bool_decide.
  - destruct (xr.coords_getitem da "time") as [c|e]; [|done]. cbn in Hset.
    destruct (Time_init _ _); [|done]. cbn in Hset. by injection Hset as <-.
  - injection Hset as <-. by case_bool_decide; subst.
Qed.

(** Property X7.  For a discrete time series, when the interpolation is
    written with success, the mode is one of the valid ones, and the
    interpolation read afterwards is the mode written if the series has more
    than one point in time and [step] otherwise; only the attribute of the data
    changes, nothing is warned, and the other objects are as they were. *)
Theorem interpolation_round_trip σ self o da mode σ' :
  Obj.objects σ !! self = Some o →
  _data o = Some (Discrete da) →
  set_interpolation self mode σ = (Ok (), σ') →
  ∃ o' n,
    mode ∈ _valid_interpolations
    ∧ xr.len_time da = Ok n
    ∧ Obj.objects σ' !! self = Some o'
    ∧ interpolation o' = Ok (Some (if bool_decide (1 < n) then mode else "step"))
    ∧ o' = set_data (Discrete (xr.attrs_setitem da "interpolation"
                                 (if bool_decide (1 < n) then mode else "step"))) o
    ∧ Obj.warnings σ' = Obj.warnings σ
    ∧ ∀ l, l ≠ self → Obj.objects σ' !! l = Obj.objects σ !! l.
Proof.
  intros Hself Hd Hset.
  destruct (set_interpolation_inv _ _ _ _ _ _ Hself Hd Hset) as (n & Hn & Hmode & ->).
  eexists _, n. split; [done|]. split; [done|].
  split; [unfold with_object; cbn; by rewrite lookup_insert_eq|].
  split.
  { unfold interpolation. cbn. unfold xr.attrs_getitem. by rewrite lookup_insert_eq. }
  split; [done|]. split; [done|].
  intros l Hl. unfold with_object. cbn. by rewrite lookup_insert_ne.
Qed.

(** The object that the constructor makes of a quantity. *)
Lemma new_quantity_inv q time interp ref σ self σ' :
  new (ArgArray (ArgQuantity q)) time interp ref σ = (Ok self, σ') →
  ∃ T da n,
    Time_init (default Timedelta_0 time) None = Ok T
    ∧ _create_data_array (PQuantity (at_least_1d q)) T = Ok da
    ∧ xr.len_time da = Ok n
    ∧ default "step" interp ∈ _valid_interpolations
    ∧ self = fresh (dom (Obj.objects σ))
    ∧ σ' = with_object σ self
             {| _data := Some (Discrete (xr.attrs_setitem da "interpolation"
                           (if bool_decide (1 < n)
                            then default "step" interp else "step")));
                _time_var_name := None; _shape := None; _units := None;
                _interp_counter := 0;
                _reference_time := Time_reference_time T |}.
Proof.
  rewrite new_array_eq.
  unfold new_from_array, init_from_array, _initialize_discrete. run.
  cbn [pint.Q_]. fold (at_least_1d q).
  destruct (Time_init (default Timedelta_0 time) None) as [T|e]; run; [|done].
  unfold modify, load. run. rewrite !lookup_insert_eq. cbn [default].
  destruct (_create_data_array (PQuantity (at_least_1d q)) T) as [da|e] eqn:Hda;
    run; [|done].
  rewrite !lookup_insert_eq. cbn [default]. unfold id.
  match goal with |- context [set_interpolation ?l ?m ?s] =>
    destruct (set_interpolation l m s) as [[[]|e] σ2] eqn:Hset
  end; [|done].
  eapply set_interpolation_inv in Hset as (n & Hn & Hmode & ->);
    [|by apply lookup_insert_eq|done].
  intros [= <- <-]. exists T, da, n. split_and!; [done..|].
  unfold with_object. cbn. by rewrite !insert_insert_eq.
Qed.

(** Property X8.  A time series made of a quantity has the interpolation
    given, or [step] when none was given, which is a valid mode; with at most one
    point in time it has [step], whatever was given. *)
Theorem new_discrete_interpolation q time interp ref σ self σ' :
  new (ArgArray (ArgQuantity q)) time interp ref σ = (Ok self, σ') →
  ∃ o da n,
    Obj.objects σ' !! self = Some o
    ∧ _data o = Some (Discrete da)
    ∧ xr.len_time da = Ok n
    ∧ default "step" interp ∈ _valid_interpolations
    ∧ interpolation o
      = Ok (Some (if bool_decide (1 < n) then default "step" interp else "step")).
Proof.
  intros Hnew.
  apply new_quantity_inv in Hnew as (T & da & n & _ & _ & Hn & Hmode & _ & ->).
  eexists _, _, n. split_and!.
  - unfold with_object. cbn. by rewrite lookup_insert_eq.
  - done.
  - done.
  - done.
  - unfold interpolation. cbn. unfold xr.attrs_getitem. by rewrite lookup_insert_eq.
Qed.

(** Property X9.  A time series made of a quantity is a new object that
    holds the values of the quantity (at least one-dimensional), its unit, the
    time index of the time argument as the coordinate [time], and the counter 0;
    its reference time is the one of the time argument: the reference time
    argument of the constructor is not kept. *)
Theorem new_discrete_data q time interp ref σ self σ' :
  new (ArgArray (ArgQuantity q)) time interp ref σ = (Ok self, σ') →
  ∃ T o da,
    Time_init (default Timedelta_0 time) None = Ok T
    ∧ Obj.objects σ !! self = None
    ∧ Obj.objects σ' !! self = Some o
    ∧ _data o = Some (Discrete da)
    ∧ xr.data da = pint.magnitude (at_least_1d q)
    ∧ xr.units da = Some (pint.units q)
    ∧ xr.coords da !! "time"
      = Some (xr.index_coordinate "time" (as_timedelta_index T))
    ∧ _reference_time o = Time_reference_time T
    ∧ _interp_counter o = 0%Z.
Proof.
  intros Hnew.
  apply new_quantity_inv in Hnew as (T & da & n & HT & Hda & _ & _ & -> & ->).
  apply create_data_array_fields in Hda as (Hdata & Hunits & Hcoords).
  eexists T, _, _. split_and!.
  - done.
  - apply fresh_lookup_None.
  - unfold with_object. cbn. by rewrite lookup_insert_eq.
  - done.
  - done.
  - cbn. rewrite Hunits. unfold at_least_1d. by destruct (np.iterable _).
  - done.
  - done.
  - done.
Qed.
End timeseries_discrete.

Section timeseries_arrays.
Context `{Numeric} `{!Sympy} `{!WeldxUtil} `{!WeldxTime} `{!Formatting}.
Import TimeSeries.

Lemma index_of_Some d l : ∀ i, xr.index_of d l = Some i → d ∈ l.
Proof.
  induction l as [|d' l IH]; intros i; cbn; [done|].
  destruct (decide (d = d')) as [->|]; [intros _; left|].
  destruct (xr.index_of d l) as [j|]; [|done]. intros _. right. by eapply IH.
Qed.

(** The object that the constructor makes of a labeled array. *)
Lemma new_data_array_inv da time interp ref σ self σ' :
  new_from_array (ArgDataArray da) time interp ref σ = (Ok self, σ') →
  ∃ da0 n,
    _check_data_array da = Ok ()
    ∧ xr.transpose_first da "time" = Ok da0
    ∧ xr.len_time da0 = Ok n
    ∧ default "step" interp ∈ _valid_interpolations
    ∧ self = fresh (dom (Obj.objects σ))
    ∧ σ' = with_object σ self
             {| _data := Some (Discrete (xr.attrs_setitem da0 "interpolation"
                           (if bool_decide (1 < n)
                            then default "step" interp else "step")));
                _time_var_name := None; _shape := None; _units := None;
                _interp_counter := 0; _reference_time := ref |}.
Proof.
  unfold new_from_array, init_from_array, _initialize_discrete. run.
  destruct (_check_data_array da) as [[]|e]; run; [|done].
  destruct (xr.transpose_first da "time") as [da0|e]; run; [|done].
  unfold modify, load. run. rewrite !lookup_insert_eq. cbn [default].
  match goal with |- context [set_interpolation ?l ?m ?s] =>
    destruct (set_interpolation l m s) as [[[]|e] σ2] eqn:Hset
  end; [|done].
  eapply set_interpolation_inv in Hset as (n & Hn & Hmode & ->);
    [|by apply lookup_insert_eq|done].
  intros [= <- <-]. exists da0, n. split_and!; [done..|].
  unfold with_object. cbn. by rewrite !insert_insert_eq.
Qed.

(** Property X10.  A time series made of a labeled array does not read
    the time argument: the same call without it gives the same result.  The
    array has the dimension [time], which is moved to the front, and a unit;
    the coordinates and the unit are kept, the reference time is the argument,
    the counter is 0. *)
Theorem new_from_data_array da time interp ref σ self σ' :
  new (ArgArray (ArgDataArray da)) time interp ref σ = (Ok self, σ') →
  new (ArgArray (ArgDataArray da)) None interp ref σ = (Ok self, σ')
  ∧ ∃ o da0,
      Obj.objects σ' !! self = Some o
      ∧ _data o = Some (Discrete da0)
      ∧ xr.dims da0 = "time" :: filter (λ d : string, d ≠ "time") (xr.dims da)
      ∧ "time" ∈ xr.dims da
      ∧ xr.units da0 = xr.units da ∧ is_Some (xr.units da)
      ∧ xr.coords da0 = xr.coords da
      ∧ _reference_time o = ref
      ∧ _interp_counter o = 0%Z.
Proof.
  rewrite !new_array_eq. intros Hnew. split; [exact Hnew|].
  apply new_data_array_inv in Hnew as (da0 & n & Hcheck & Htr & _ & _ & -> & ->).
  unfold xr.transpose_first in Htr.
  destruct (xr.index_of "time" (xr.dims da)) as [i|] eqn:Hi; [|done].
  injection Htr as <-.
  eexists _, _. split_and!.
  - unfold with_object. cbn. by rewrite lookup_insert_eq.
  - done.
  - done.
  - by eapply index_of_Some.
  - done.
  - unfold _check_data_array in Hcheck.
    destruct (xr_check_coords _ _) as [b|[]]; try done.
    by destruct (xr.units da).
  - done.
  - done.
  - done.
Qed.

(** Property X11.  [interp_time] of an expression series makes a discrete
    series of the values of the expression at the given times, with the
    dimension [time] first and the interpolation [step], the counter one more
    than the counter of the series, and no reference time. *)
Theorem interp_time_of_expression σ self o me tl time_unit ts σ' :
  Obj.objects σ !! self = Some o →
  _data o = Some (Expression me) →
  interp_time self tl time_unit σ = (Ok ts, σ') →
  ∃ T TI dax da0,
    Time_init tl None = Ok T
    ∧ Time_init (of_Time T) (reference_time o) = Ok TI
    ∧ _interp_time_expression o TI time_unit = Ok dax
    ∧ xr.transpose_first dax "time" = Ok da0
    ∧ Obj.objects σ' !! ts
      = Some {| _data := Some (Discrete (xr.attrs_setitem da0 "interpolation" "step"));
                _time_var_name := None; _shape := None; _units := None;
                _interp_counter := _interp_counter o + 1;
                _reference_time := None |}.
Proof.
  intros Hself Hd. unfold interp_time, load. run. rewrite Hself. cbn [default]. unfold id.
  match goal with |- context [(if ?b then ?x else ?y) σ] =>
    assert (∃ w, (if b then x else y) σ
                 = (Ok (), {| Obj.objects := Obj.objects σ; Obj.warnings := w |}))
      as [w ->] by (destruct σ; destruct b; run; eexists; done)
  end.
  run. unfold interpolated. run.
  destruct (Time_init tl None) as [T|e] eqn:HT; run; [|done].
  destruct (Time_init (of_Time T) (reference_time o)) as [TI|e] eqn:HTI; run; [|done].
  rewrite Hd. run.
  destruct (_interp_time_expression o TI time_unit) as [dax|e] eqn:Hdax; run; [|done].
  unfold interpolation. rewrite Hd. run.
  match goal with |- context [new_from_array ?a ?t ?i ?r ?s] =>
    destruct (new_from_array a t i r s) as [[l'|e] σ1] eqn:Hnew
  end; run; [|done].
  apply new_data_array_inv in Hnew as (da0 & n & _ & Htr & _ & _ & -> & ->).
  unfold modify, load, with_object. run.
  rewrite !lookup_insert_eq. cbn [default]. unfold id. rewrite lookup_insert_ne; last first.
  { intros Heq. pose proof (is_fresh (dom (Obj.objects σ))) as Hfr.
    rewrite Heq in Hfr. apply Hfr, elem_of_dom. by eexists. }
  rewrite Hself. cbn [default]. rewrite insert_insert_eq.
  intros [= <- <-]. exists T, TI, dax, da0. split_and!; [done..|].
  cbn. rewrite lookup_insert_eq. by destruct (bool_decide (1 < n)).
Qed.

(** Property X12.  [interp_time] of a discrete series makes a series of the
    values interpolated at the given times with the mode of the series; its
    interpolation is that mode ([step] when the series has none, or when the
    result has at most one point in time), and its reference time is the one
    of the time argument. *)
Theorem interp_time_of_discrete σ self o da tl time_unit ts σ' :
  Obj.objects σ !! self = Some o →
  _data o = Some (Discrete da) →
  interp_time self tl time_unit σ = (Ok ts, σ') →
  ∃ T TI m dax q T' o' da' n,
    Time_init tl None = Ok T
    ∧ Time_init (of_Time T) (reference_time o) = Ok TI
    ∧ interpolation o = Ok m
    ∧ xr_interp_like da [("time", as_data_array TI)]
        {| method := m; assume_sorted := Some false;
           broadcast_missing := Some false |} = Ok dax
    ∧ xr.payload dax = pint.Quant q
    ∧ Time_init (of_Time T) None = Ok T'
    ∧ Obj.objects σ' !! ts = Some o'
    ∧ _data o' = Some (Discrete da')
    ∧ xr.data da' = pint.magnitude (at_least_1d q)
    ∧ xr.units da' = Some (pint.units q)
    ∧ xr.coords da' !! "time"
      = Some (xr.index_coordinate "time" (as_timedelta_index T'))
    ∧ xr.len_time da' = Ok n
    ∧ interpolation o'
      = Ok (Some (if bool_decide (1 < n) then default "step" m else "step"))
    ∧ _reference_time o' = Time_reference_time T'.
Proof.
  intros Hself Hd. unfold interp_time, load. run. rewrite Hself. cbn [default]. unfold id.
  match goal with |- context [(if ?b then ?x else ?y) σ] =>
    assert (∃ w, (if b then x else y) σ
                 = (Ok (), {| Obj.objects := Obj.objects σ; Obj.warnings := w |}))
      as [w ->] by (destruct σ; destruct b; run; eexists; done)
  end.
  run. unfold interpolated. run.
  destruct (Time_init tl None) as [T|e] eqn:HT; run; [|done].
  destruct (Time_init (of_Time T) (reference_time o)) as [TI|e] eqn:HTI; run; [|done].
  rewrite Hd. run. unfold _interp_time_discrete. rewrite Hd.
  destruct (interpolation o) as [m|e] eqn:Hm; cbn [mbind result_bind]; [|done].
  destruct (xr_interp_like da _ _) as [dax|e] eqn:Hdax; run; [|done].
  destruct (xr.payload dax) as [a|q] eqn:Hq.
  { unfold new_from_array, init_from_array. run. done. }
  match goal with |- context [new_from_array ?a ?t ?i ?r ?s] =>
    destruct (new_from_array a t i r s) as [[l'|e] σ1] eqn:Hnew
  end; run; [|done].
  rewrite <- new_array_eq in Hnew.
  apply new_quantity_inv in Hnew as (T' & da1 & n & HT' & Hda & Hn & _ & -> & ->).
  cbn [default] in HT'. unfold id in HT'.
  apply create_data_array_fields in Hda as (Hdata & Hunits & Hcoords).
  unfold modify, load, with_object. run.
  rewrite !lookup_insert_eq. cbn [default]. unfold id. rewrite lookup_insert_ne; last first.
  { intros Heq. pose proof (is_fresh (dom (Obj.objects σ))) as Hfr.
    rewrite Heq in Hfr. apply Hfr, elem_of_dom. by eexists. }
  rewrite Hself. cbn [default]. rewrite insert_insert_eq.
  intros [= <- <-]. eexists T, TI, m, dax, q, T', _, _, n.
  do 6 (split; [done|]).
  split; [cbn; by rewrite lookup_insert_eq|].
  split; [done|]. split; [done|].
  split; [cbn; rewrite Hunits; unfold at_least_1d; by destruct (np.iterable _)|].
  split; [done|]. split; [done|]. split; [|done].
  unfold interpolation. cbn. unfold xr.attrs_getitem. by rewrite lookup_insert_eq.
Qed.
End timeseries_arrays.

Section timeseries_equality.
Context `{Numeric} `{!Sympy} `{!WeldxUtil} `{!WeldxTime} `{!Formatting}.
Import TimeSeries.

(** An array is identical to itself. *)
Lemma identical_refl (a : xr.DataArray) : xr.identical a a = true.
Proof. unfold xr.identical. by rewrite !bool_decide_eq_true_2. Qed.

(** Property X13.  Two discrete time series that hold the same labeled
    array are equal exactly when the array carries a unit.  A discrete
    series is not equal to a series whose array carries no unit, nor to a
    series of an expression, in either order; no series is equal to
    [None]. *)
Theorem eq_by_kind (o o' : t) :
  (∀ da, _data o = Some (Discrete da) → _data o' = Some (Discrete da) →
     __eq__ o (Some o') = bool_decide (is_Some (xr.units da)))
  ∧ (∀ da da', _data o = Some (Discrete da) → _data o' = Some (Discrete da') →
     xr.units da' = None → __eq__ o (Some o') = false)
  ∧ (∀ da me, _data o = Some (Discrete da) → _data o' = Some (Expression me) →
     __eq__ o (Some o') = false ∧ __eq__ o' (Some o) = false)
  ∧ __eq__ o None = false.
Proof.
  split_and!; [| | |done].
  - intros da Hd Hd'. unfold __eq__. rewrite Hd, Hd'.
    destruct (xr.units da) as [u|] eqn:Hu.
    + rewrite identical_refl. symmetry. apply bool_decide_eq_true_2. by eexists.
    + symmetry. apply bool_decide_eq_false_2. by intros [? ?].
  - intros da da' Hd Hd' Hu. unfold __eq__. by rewrite Hd, Hd', Hu.
  - intros da me Hd Hd'. unfold __eq__. rewrite Hd, Hd'. done.
Qed.
End timeseries_equality.

(** ** GenericSeries *)

Section generic_series_construction.
Context `{Numeric} `{!Sympy} `{!WeldxUtil} `{!Formatting}.
Import GenericSeries.

(** A loop of checks returns when no element fails, and raises the error
    of an element that fails. *)
Lemma for_each_check {A} (P : A → Prop) `{!∀ x, Decision (P x)} (f : A → exc)
    (l : list A) :
  (for_each (λ _ v, if bool_decide (P v) then Raise (f v) else Ok ()) l () = Ok ()
   ↔ ∀ v, v ∈ l → ¬ P v)
  ∧ (∀ e, for_each (λ _ v, if bool_decide (P v) then Raise (f v) else Ok ()) l ()
          = Raise e → ∃ v, v ∈ l ∧ P v ∧ e = f v).
Proof.
  induction l as [|x l [IH1 IH2]]; cbn [for_each].
  - split; [|done]. split; [|done]. intros _ v Hv. by apply elem_of_nil in Hv.
  - case_bool_decide as Hx; cbn [mbind result_bind].
    + split.
      * split; [done|]. intros Hall. exfalso. apply (Hall x); [left|done].
      * intros e [= <-]. exists x. split; [left|done].
    + split.
      * rewrite IH1. split.
        -- intros Hall v [->|Hv]%elem_of_cons; [done|by apply Hall].
        -- intros Hall v Hv. apply Hall. by right.
      * intros e [v (Hv & HP & ->)]%IH2. exists v. split; [by right|done].
Qed.

Lemma eval_expr_shape expr dims units u shape :
  _eval_expr expr dims units = Ok (u, shape) → shape = None.
Proof.
  unfold _eval_expr. intros Hev.
  apply result_bind_Ok in Hev as (eu & _ & Hev).
  apply result_bind_Ok in Hev as (x & _ & Hev).
  destruct eu; [|done]. by injection Hev as _ <-.
Qed.

Lemma init_expression_defaults c expr dims parameters units s :
  _init_expression c expr dims parameters units = Ok s →
  cls s = c ∧ _interpolation s = "linear" ∧ _shape s = None
  ∧ is_expression s = true.
Proof.
  unfold _init_expression. destruct expr as [me|str].
  all: intros Hinit;
    apply result_bind_Ok in Hinit as (ps & _ & Hinit);
    apply result_bind_Ok in Hinit as (e & _ & Hinit);
    case_bool_decide; [done|];
    apply result_bind_Ok in Hinit as (us & _ & Hinit);
    (destruct dims as [[l|d]|];
       [by apply init_expression_sequence_dims_raises in Hinit|..]);
    unfold _init_expression_dict_dims in Hinit;
    destruct (foldl _ _ _) as [ds' us'];
    apply result_bind_Ok in Hinit as ([u sh] & Hev & Hinit);
    apply result_bind_Ok in Hinit as (? & _ & Hinit);
    injection Hinit as <-; apply eval_expr_shape in Hev as ->; done.
Qed.

Lemma init_discrete_defaults c data dims coords s :
  _init_discrete c data dims coords = Ok s →
  cls s = c ∧ _interpolation s = "linear" ∧ _shape s = None ∧ _units s = None
  ∧ is_discrete s = true.
Proof.
  unfold _init_discrete. intros Hinit.
  apply result_bind_Ok in Hinit as (da & _ & Hinit).
  apply result_bind_Ok in Hinit as (? & _ & Hinit).
  by injection Hinit as <-.
Qed.

(** Property X14.  The constructor does not read its interpolation
    argument: every series it returns has the interpolation [linear], no shape,
    and the class it was made for. *)
Theorem new_ignores_interpolation c data dims coords units interp parameters :
  __init__ c data dims coords units interp parameters
  = __init__ c data dims coords units None parameters
  ∧ ∀ s, __init__ c data dims coords units interp parameters = Ok s →
         interpolation s = "linear" ∧ shape s = NotImplemented ∧ cls s = c.
Proof.
  split; [done|]. intros s. unfold __init__, interpolation, shape.
  destruct data as [q|da|me|str|ty]; [| | | |done].
  1,2: by intros (-> & -> & -> & _)%init_discrete_defaults.
  1,2: by intros (-> & -> & -> & _)%init_expression_defaults.
Qed.
End generic_series_construction.

Section generic_series_calls.
Context `{Numeric} `{!Sympy} `{!WeldxUtil} `{!Formatting}.
Import GenericSeries.

Lemma bind_variable_with_interpolation val self ns kv :
  bind_variable (with_interpolation val self) (with_interpolation val ns) kv
  = with_interpolation val <$> bind_variable self ns kv.
Proof.
  destruct kv as [k v]. unfold bind_variable.
  change (symbol_dims_getitem (with_interpolation val self) k)
    with (symbol_dims_getitem self k).
  destruct (symbol_dims_getitem self k) as [d|e]; [|done]. cbn [mbind result_bind].
  change (_data (with_interpolation val ns)) with (_data ns).
  change (_symbol_dims (with_interpolation val ns)) with (_symbol_dims ns).
  change (_variable_units (with_interpolation val ns)) with (_variable_units ns).
  destruct (_data ns) as [da|me]; [done|].
  match goal with |- context [MathematicalExpression.set_parameter me k ?a] =>
    destruct (MathematicalExpression.set_parameter me k a) as [me'|e]
  end; [|done]. cbn.
  destruct (_symbol_dims ns) as [sd|]; [|done].
  destruct (pop sd k) as [sd'|e]; [|done]. cbn.
  destruct (_variable_units ns) as [vu|]; [|done].
  by destruct (pop vu k) as [vu'|e].
Qed.

Lemma bind_variables_with_interpolation val self kw : ∀ ns,
  for_each (bind_variable (with_interpolation val self)) kw
    (with_interpolation val ns)
  = with_interpolation val <$> for_each (bind_variable self) kw ns.
Proof.
  induction kw as [|kv kw IH]; intros ns; [done|]. cbn [for_each].
  rewrite bind_variable_with_interpolation.
  destruct (bind_variable self ns kv) as [ns1|e]; [|done]. cbn. apply IH.
Qed.

Lemma bind_variables_expression self kw : ∀ ns r,
  is_expression ns = true →
  for_each (bind_variable self) kw ns = Ok r →
  is_expression r = true ∧ _interpolation r = _interpolation ns.
Proof.
  induction kw as [|[k v] kw IH]; intros ns r Hns; cbn [for_each].
  - by intros [= <-].
  - intros (ns1 & Hstep & Hloop)%result_bind_Ok.
    unfold bind_variable in Hstep.
    apply result_bind_Ok in Hstep as (d & _ & Hstep).
    destruct (_data ns); [done|].
    apply result_bind_Ok in Hstep as (me' & _ & Hstep).
    apply result_bind_Ok in Hstep as (sd' & _ & Hstep).
    apply result_bind_Ok in Hstep as (vu' & _ & Hstep).
    injection Hstep as <-.
    apply IH in Hloop as [-> ->]; done.
Qed.

(** Property X15.  A call does not read the interpolation of the series:
    with another value it returns the same result, except that an expression
    result carries the value along.  A discrete result has the interpolation
    [linear]. *)
Theorem call_never_reads_interpolation self val kwargs :
  __call__ (with_interpolation val self) kwargs
  = carried_along val <$> __call__ self kwargs
  ∧ ∀ r, __call__ self kwargs = Ok r →
         if is_expression r
         then is_expression self = true ∧ interpolation r = interpolation self
         else interpolation r = "linear".
Proof.
  unfold __call__.
  change (preprocess (with_interpolation val self) kwargs)
    with (preprocess self kwargs).
  destruct (preprocess self kwargs) as [kw|e]; [|done]. cbn [mbind result_bind].
  change (prepare_input (with_interpolation val self)) with (prepare_input self).
  destruct (for_each (prepare_input self) kw []) as [input|e]; [|done].
  cbn [mbind result_bind].
  change (_data (with_interpolation val self)) with (_data self).
  destruct (_data self) as [da|me] eqn:Hd.
  - (* a discrete series *)
    destruct (for_each _ (keys input) ()) as [[]|e]; [|done]. cbn [mbind result_bind].
    destruct (xr_interp_like da input default_options) as [data|e]; [|done].
    cbn [mbind result_bind].
    destruct (__init__ GenericSeries (ArgDataArray data) None None None None None)
      as [r|e] eqn:Hr; [|done].
    unfold __init__ in Hr. apply init_discrete_defaults in Hr as (_ & Hi & _ & _ & Hdisc).
    unfold is_discrete in Hdisc. apply negb_true_iff in Hdisc.
    cbn [fmap result_fmap]. unfold carried_along. rewrite Hdisc.
    split; [done|]. intros r' [= <-]. by rewrite Hdisc.
  - case_bool_decide as Hn.
    + (* every variable bound *)
      destruct (MathematicalExpression.evaluate me _) as [data|e]; [|done].
      cbn [mbind result_bind].
      destruct (__init__ GenericSeries (ArgDataArray data) None None None None None)
        as [r|e] eqn:Hr; [|done].
      unfold __init__ in Hr. apply init_discrete_defaults in Hr as (_ & Hi & _ & _ & Hdisc).
      unfold is_discrete in Hdisc. apply negb_true_iff in Hdisc.
      cbn [fmap result_fmap]. unfold carried_along. rewrite Hdisc.
      split; [done|]. intros r' [= <-]. by rewrite Hdisc.
    + (* some variables bound *)
      rewrite bind_variables_with_interpolation.
      assert (is_expression self = true) as Hself by (unfold is_expression; by rewrite Hd).
      destruct (for_each (bind_variable self) kw self) as [r|e] eqn:Hr; [|done].
      pose proof (bind_variables_expression _ _ _ _ Hself Hr) as [Hexp Hi].
      cbn [fmap result_fmap]. unfold carried_along. rewrite Hexp.
      split; [done|]. intros r' [= <-]. by rewrite Hexp.
Qed.
End generic_series_calls.

Section generic_series_constraints.
Context `{Numeric} `{!Sympy} `{!WeldxUtil} `{!Formatting}.
Import GenericSeries.

Lemma check_constraints_Ok c dims u :
  _check_constraints c dims u = Ok ()
  ↔ dimensions_present c dims ∧ dimensionality_fits c u.
Proof.
  unfold _check_constraints, dimensions_present, dimensionality_fits.
  destruct (_required_dimensions c) as [req|].
  - match goal with |- context [for_each ?f req ()] =>
      pose proof (for_each_check (λ v : string, v ∉ dims)
                    (λ v, ValueError (__name__ c +:+ " requires dimension '" +:+ v +:+ "'."))
                    req) as [Hok Herr];
      destruct (for_each f req ()) as [[]|e] eqn:Hloop
    end; cbn [mbind result_bind].
    + assert (∀ v, v ∈ req → v ∈ dims) as Hreq.
      { intros v Hv. apply dec_stable. by apply (proj1 Hok). }
      destruct (_required_unit_dimensionality c) as [r|].
      * destruct (has_dimensionality u r) eqn:Hdim; cbn.
        -- split; [|done]. intros _. split; [by intros ? [= <-]|by intros ? [= <-]].
        -- split; [done|]. intros [_ Hfit]. by rewrite (Hfit r) in Hdim.
      * split; [|done]. intros _. split; [by intros ? [= <-]|done].
    + split; [done|]. intros [Hreq _]. exfalso.
      destruct (Herr e eq_refl) as (v & Hv & Hn & _). by apply Hn, (Hreq req).
  - cbn [mbind result_bind]. destruct (_required_unit_dimensionality c) as [r|].
    + destruct (has_dimensionality u r) eqn:Hdim; cbn.
      * split; [|done]. intros _. split; [done|by intros ? [= <-]].
      * split; [done|]. intros [_ Hfit]. by rewrite (Hfit r) in Hdim.
    + split; [|done]. intros _. done.
Qed.

Lemma check_constraints_Raise c dims u e :
  _check_constraints c dims u = Raise e → ∃ m, e = ValueError m.
Proof.
  unfold _check_constraints.
  destruct (_required_dimensions c) as [req|].
  - match goal with |- context [for_each ?f req ()] =>
      pose proof (for_each_check (λ v : string, v ∉ dims)
                    (λ v, ValueError (__name__ c +:+ " requires dimension '" +:+ v +:+ "'."))
                    req) as [_ Herr];
      destruct (for_each f req ()) as [[]|e'] eqn:Hloop
    end; cbn [mbind result_bind].
    + destruct (_required_unit_dimensionality c) as [r|]; [|done].
      destruct (has_dimensionality u r); cbn; [done|]. intros [= <-]. by eexists.
    + intros [= <-]. destruct (Herr _ eq_refl) as (v & _ & _ & ->). by eexists.
  - cbn [mbind result_bind]. destruct (_required_unit_dimensionality c) as [r|]; [|done].
    destruct (has_dimensionality u r); cbn; [done|]. intros [= <-]. by eexists.
Qed.

(** Property X16.  The constructor accepts a labeled array exactly when
    the class is [GenericSeries] itself, or the array has a unit, holds the
    required dimensions and its unit has the required dimensionality.  The
    series made holds the array as it is; for an array with a unit every
    refusal is a [ValueError]. *)
Theorem discrete_constraints c da dims coords units interp parameters :
  (is_Ok (__init__ c (ArgDataArray da) dims coords units interp parameters) = true
   ↔ is_GenericSeries c = true
     ∨ ∃ u, xr.units da = Some u
            ∧ dimensions_present c (xr.dims da) ∧ dimensionality_fits c u)
  ∧ (∀ s, __init__ c (ArgDataArray da) dims coords units interp parameters = Ok s →
       s = {| cls := c; _data := Discrete da; _variable_units := None;
              _symbol_dims := None; _shape := None; _units := None;
              _interpolation := "linear" |})
  ∧ (∀ e u, __init__ c (ArgDataArray da) dims coords units interp parameters = Raise e →
       xr.units da = Some u → ∃ m, e = ValueError m).
Proof.
  unfold __init__, _init_discrete, _check_constraints_discrete.
  cbn [mbind result_bind].
  destruct (is_GenericSeries c).
  { cbn. split_and!; [|by intros s [= <-]|done]. split; [by left|done]. }
  destruct (xr.units da) as [u|].
  - destruct (_check_constraints c (xr.dims da) u) as [[]|e] eqn:Hcheck;
      cbn [mbind result_bind is_Ok].
    + apply check_constraints_Ok in Hcheck. split_and!; [|by intros s [= <-]|done].
      split; [|done]. intros _. right. by exists u.
    + split_and!; [|done|].
      * split; [done|]. intros [?|(u' & [= <-] & Hok)]; [done|].
        apply check_constraints_Ok in Hok. congruence.
      * intros e' u' [= <-] _. by eapply check_constraints_Raise.
  - cbn. split_and!; [|done|done]. split; [done|]. by intros [?|(u' & ? & _)].
Qed.

Lemma check_constraints_expression_Ok c expr var_dims u :
  _check_constraints_expression c expr var_dims u = Ok ()
  ↔ is_GenericSeries c = true
    ∨ variables_fit c expr
      ∧ dimensions_present c (_get_expression_dims expr var_dims)
      ∧ dimensionality_fits c u.
Proof.
  unfold _check_constraints_expression, variables_fit.
  destruct (is_GenericSeries c); [split; [by left|done]|].
  assert (∀ P Q : Prop, (P ↔ Q) → (P ↔ false = true ∨ Q)) as Hor
    by (intros P Q ->; split; [by right|by intros [?|?]]).
  apply Hor. clear Hor.
  destruct (_allowed_variables c) as [allowed|].
  - match goal with |- context [for_each ?f ?l ()] =>
      pose proof (for_each_check (λ v : string, v ∉ allowed)
                    (λ v, ValueError ("'" +:+ v +:+ "' is not allowed as an expression variable of class "
                            +:+ __name__ c)) l) as [Hok Herr];
      destruct (for_each f l ()) as [[]|e] eqn:Hloop
    end; cbn [mbind result_bind].
    + assert (∀ v, v ∈ MathematicalExpression.get_variable_names expr → v ∈ allowed)
        as Hallowed.
      { intros v Hv. apply dec_stable. by apply (proj1 Hok). }
      destruct (_required_variables c) as [required|].
      * match goal with |- context [for_each ?f required ()] =>
          pose proof (for_each_check
                        (λ v : string, v ∉ MathematicalExpression.get_variable_names expr)
                        (λ v, ValueError (__name__ c +:+ " requires expression variable '" +:+ v +:+ "'."))
                        required) as [Hok2 Herr2];
          destruct (for_each f required ()) as [[]|e] eqn:Hloop2
        end; cbn [mbind result_bind].
        -- rewrite check_constraints_Ok. split.
           ++ intros [? ?]. split_and!; [by intros ? [= <-]| |done|done].
              intros ? [= <-] v Hv. apply dec_stable. by apply (proj1 Hok2).
           ++ by intros (_ & ? & ?).
        -- split; [done|]. intros ((_ & Hreq) & _). exfalso.
           destruct (Herr2 e eq_refl) as (v & Hv & Hn & _). by apply Hn, (Hreq required).
      * cbn [mbind result_bind]. rewrite check_constraints_Ok. split.
        -- intros [? ?]. split_and!; [by intros ? [= <-]|done|done|done].
        -- by intros (_ & ? & ?).
    + split; [done|]. intros ((Hal & _) & _). exfalso.
      destruct (Herr e eq_refl) as (v & Hv & Hn & _). by apply Hn, (Hal allowed).
  - cbn [mbind result_bind]. destruct (_required_variables c) as [required|].
    + match goal with |- context [for_each ?f required ()] =>
        pose proof (for_each_check
                      (λ v : string, v ∉ MathematicalExpression.get_variable_names expr)
                      (λ v, ValueError (__name__ c +:+ " requires expression variable '" +:+ v +:+ "'."))
                      required) as [Hok2 Herr2];
        destruct (for_each f required ()) as [[]|e] eqn:Hloop2
      end; cbn [mbind result_bind].
      * rewrite check_constraints_Ok. split.
        -- intros [? ?]. split_and!; [done| |done|done].
           intros ? [= <-] v Hv. apply dec_stable. by apply (proj1 Hok2).
        -- by intros (_ & ? & ?).
      * split; [done|]. intros ((_ & Hreq) & _). exfalso.
        destruct (Herr2 e eq_refl) as (v & Hv & Hn & _). by apply Hn, (Hreq required).
    + cbn [mbind result_bind]. rewrite check_constraints_Ok. split.
      * intros [? ?]. split_and!; done.
      * by intros (_ & ? & ?).
Qed.
End generic_series_constraints.

Section generic_series_expressions.
Context `{Numeric} `{!Sympy} `{!WeldxUtil} `{!Formatting}.
Import GenericSeries.

Lemma dict_get_is_Some {V} (d : dict V) k : is_Some (dict_get d k) ↔ k ∈ keys d.
Proof.
  destruct (dict_get d k) as [v|] eqn:Hg.
  - split; [|by eexists]. intros _. apply dec_stable. intros Hn.
    apply dict_get_None in Hn. congruence.
  - apply dict_get_None in Hg. split; [by intros [? ?]|done].
Qed.

(** The dictionary of units that the constructor makes of its argument. *)
Lemma given_units_get (names : list string) (units : dict string) msg : ∀ acc vu,
  for_each (λ acc (kv : string * string),
              if bool_decide (kv.1 ∉ names)
              then Raise (KeyError (msg kv.1))
              else if defined_unit kv.2
              then Ok (dict_set acc kv.1 (U_ kv.2))
              else Raise (UndefinedUnitError (undefined_unit kv.2)))
           units acc = Ok vu →
  NoDup (keys units) →
  (∀ k, k ∈ keys units → k ∈ names)
  ∧ ∀ k, dict_get vu k
         = match dict_get units k with
           | Some u => Some (U_ u)
           | None => dict_get acc k
           end.
Proof.
  induction units as [|[k u] units IH]; intros acc vu; cbn [for_each].
  - intros [= <-] _. split; [|done]. intros k Hk. by apply elem_of_nil in Hk.
  - case_bool_decide as Hk; [done|]. cbn [fst snd].
    destruct (defined_unit u); [|done]. cbn [mbind result_bind].
    intros Hloop. rewrite keys_cons. intros [Hkn Hnd]%NoDup_cons.
    destruct (IH _ _ Hloop Hnd) as [Hnames Hget]. split.
    + intros k' [->|Hk']%elem_of_cons; [|by apply Hnames].
      first [done | by apply dec_stable].
    + intros k'. rewrite Hget. cbn [dict_get].
      destruct (decide (k' = k)) as [->|Hne].
      * apply dict_get_None in Hkn. rewrite Hkn, dict_get_set. by rewrite decide_True.
      * destruct (dict_get units k'); [done|]. rewrite dict_get_set.
        by rewrite decide_False.
Qed.

(** The two dictionaries after the loop that fills in the defaults. *)
Lemma defaults_get (names : list string) :
  ∀ (du : dict xr.dimspec * dict Unit),
  let du' := foldl (λ (du : dict xr.dimspec * dict Unit) v,
               (if contains du.1 v then du.1 else dict_set du.1 v (xr.DStr v),
                if contains du.2 v then du.2 else dict_set du.2 v (U_ EmptyString)))
             du names in
  (∀ k, dict_get du'.1 k
        = match dict_get du.1 k with
          | Some d => Some d
          | None => if decide (k ∈ names) then Some (xr.DStr k) else None
          end)
  ∧ (∀ k, dict_get du'.2 k
          = match dict_get du.2 k with
            | Some u => Some u
            | None => if decide (k ∈ names) then Some (U_ EmptyString) else None
            end).
Proof.
  induction names as [|v names IH]; intros [sd vu]; cbn [foldl fst snd].
  - split; intros k; by destruct (dict_get _ k).
  - match goal with |- context [foldl ?f ?a names] =>
      destruct (IH a) as [IH1 IH2]
    end. cbn [fst snd] in IH1, IH2. cbv zeta. split; intros k.
    + rewrite IH1. unfold contains. case_bool_decide as Hv.
      * destruct (dict_get sd k) eqn:Hk; [done|].
        destruct (decide (k = v)) as [->|Hne].
        { apply dict_get_is_Some in Hv as [? ?]. congruence. }
        destruct (decide (k ∈ names)), (decide (k ∈ v :: names)) as [Hin|Hin];
          try done.
        -- exfalso. apply Hin. by right.
        -- apply elem_of_cons in Hin as [?|?]; done.
      * rewrite dict_get_set. destruct (decide (k = v)) as [->|Hne].
        -- apply dict_get_None in Hv. rewrite Hv. rewrite decide_True by left. done.
        -- destruct (dict_get sd k) eqn:Hk; [done|].
           destruct (decide (k ∈ names)), (decide (k ∈ v :: names)) as [Hin|Hin];
             try done.
           ++ exfalso. apply Hin. by right.
           ++ apply elem_of_cons in Hin as [?|?]; done.
    + rewrite IH2. unfold contains. case_bool_decide as Hv.
      * destruct (dict_get vu k) eqn:Hk; [done|].
        destruct (decide (k = v)) as [->|Hne].
        { apply dict_get_is_Some in Hv as [? ?]. congruence. }
        destruct (decide (k ∈ names)), (decide (k ∈ v :: names)) as [Hin|Hin];
          try done.
        -- exfalso. apply Hin. by right.
        -- apply elem_of_cons in Hin as [?|?]; done.
      * rewrite dict_get_set. destruct (decide (k = v)) as [->|Hne].
        -- apply dict_get_None in Hv. rewrite Hv. rewrite decide_True by left. done.
        -- destruct (dict_get vu k) eqn:Hk; [done|].
           destruct (decide (k ∈ names)), (decide (k ∈ v :: names)) as [Hin|Hin];
             try done.
           ++ exfalso. apply Hin. by right.
           ++ apply elem_of_cons in Hin as [?|?]; done.
Qed.

(** What a successful construction from an expression has gone through. *)
Lemma init_expression_inv c expr dims parameters units s :
  _init_expression c expr dims parameters units = Ok s →
  NoDup (keys (default [] units)) →
  ∃ me sd vu u,
    s = {| cls := c; _data := Expression me; _variable_units := Some vu;
           _symbol_dims := Some sd; _shape := None; _units := Some u;
           _interpolation := "linear" |}
    ∧ MathematicalExpression.num_variables me ≠ 0%Z
    ∧ (∀ k, k ∈ keys (default [] units)
            → k ∈ MathematicalExpression.get_variable_names me)
    ∧ (∀ k, dict_get sd k
            = match match dims with
                    | Some (DimsDict d) => dict_get d k
                    | _ => None
                    end with
              | Some d => Some d
              | None => if decide (k ∈ MathematicalExpression.get_variable_names me)
                        then Some (xr.DStr k) else None
              end)
    ∧ (∀ k, dict_get vu k
            = match dict_get (default [] units) k with
              | Some u => Some (U_ u)
              | None => if decide (k ∈ MathematicalExpression.get_variable_names me)
                        then Some (U_ EmptyString) else None
              end)
    ∧ _eval_expr me sd vu = Ok (u, None)
    ∧ _check_constraints_expression c me sd u = Ok ().
Proof.
  unfold _init_expression.
  destruct (match expr with inl me => _ | inr s => _ end) as [ex ps].
  rewrite result_bind_Ok. intros (ps' & _ & Hrest). revert Hrest.
  rewrite result_bind_Ok. intros (me & _ & Hrest). revert Hrest.
  case_bool_decide as Hn; [done|].
  rewrite result_bind_Ok. intros (vu0 & Hvu0 & Hrest) Hnd. revert Hrest.
  set (sd0 := match dims with Some (DimsDict d) => d | _ => [] end).
  assert (match dims with
          | None => _init_expression_dict_dims c me [] vu0
          | Some (DimsDict dims) => _init_expression_dict_dims c me dims vu0
          | Some (DimsList dims) => _init_expression_sequence_dims me dims vu0
          end = Ok s → _init_expression_dict_dims c me sd0 vu0 = Ok s) as Hdict.
  { destruct dims as [[l|d]|]; [|done..].
    intros Hl. by apply init_expression_sequence_dims_raises in Hl. }
  intros Hrest%Hdict. clear Hdict. revert Hrest. unfold _init_expression_dict_dims.
  assert ((∀ k, k ∈ keys (default [] units)
                → k ∈ MathematicalExpression.get_variable_names me)
          ∧ ∀ k, dict_get vu0 k
                 = match dict_get (default [] units) k with
                   | Some u => Some (U_ u)
                   | None => None
                   end) as [Hsub Hvu].
  { destruct units as [units|]; cbn [default] in *.
    - by eapply (given_units_get _ units (λ k, not_a_variable k me) []).
    - injection Hvu0 as <-. split; [|done]. intros k Hk. by apply elem_of_nil in Hk. }
  assert (∀ k, dict_get sd0 k
               = match dims with
                 | Some (DimsDict d) => dict_get d k
                 | _ => None
                 end) as Hsd.
  { by destruct dims as [[d|d]|]. }
  clearbody sd0.
  pose proof (defaults_get (MathematicalExpression.get_variable_names me) (sd0, vu0))
    as Hdef.
  cbv zeta in Hdef.
  match goal with |- context [foldl ?f ?a ?l] =>
    change (foldl _ _ _) with (foldl f a l) in Hdef;
    destruct (foldl f a l) as [sd vu]
  end.
  cbn [fst snd] in Hdef.
  destruct Hdef as [Hdef1 Hdef2].
  rewrite result_bind_Ok. intros ([u sh] & Heval & Hrest). revert Hrest.
  rewrite result_bind_Ok. intros ([] & Hcheck & [= <-]).
  pose proof (eval_expr_shape _ _ _ _ _ Heval) as ->.
  exists me, sd, vu, u. split_and!; try done.
  - intros k. rewrite Hdef1, Hsd. done.
  - intros k. rewrite Hdef2, Hvu. by destruct (dict_get (default [] units) k).
Qed.

Lemma init_is_expression c data dims coords units interp parameters s :
  __init__ c data dims coords units interp parameters = Ok s →
  is_expression s = true →
  ∃ expr, _init_expression c expr dims parameters units = Ok s.
Proof.
  unfold __init__. destruct data as [q|da|me|str|ty]; [| | | |done].
  1,2: intros (_ & _ & _ & _ & Hd)%init_discrete_defaults Hexp;
       unfold is_discrete in Hd; by rewrite Hexp in Hd.
  all: intros Hinit _; by eexists.
Qed.

(** Property X17.  An expression series returned by the constructor has at
    least one free variable, dimensions and a unit; unless the class is
    [GenericSeries] itself, its variables are allowed and hold the required
    ones, its dimensions hold the required ones and its unit has the required
    dimensionality. *)
Theorem expression_constraints c data dims coords units interp parameters s :
  NoDup (keys (default [] units)) →
  __init__ c data dims coords units interp parameters = Ok s →
  is_expression s = true →
  ∃ me ds u,
    _data s = Expression me
    ∧ MathematicalExpression.num_variables me ≠ 0%Z
    ∧ GenericSeries.dims s = Ok ds
    ∧ GenericSeries.units s = Ok u
    ∧ (is_GenericSeries c = true
       ∨ variables_fit c me ∧ dimensions_present c ds ∧ dimensionality_fits c u).
Proof.
  intros Hnd Hinit Hexp.
  destruct (init_is_expression _ _ _ _ _ _ _ _ Hinit Hexp) as [expr Hexpr].
  apply init_expression_inv in Hexpr
    as (me & sd & vu & u & -> & Hn & _ & _ & _ & _ & Hcheck); [|done].
  exists me, (_get_expression_dims me sd), u. split_and!; [done..|].
  by apply check_constraints_expression_Ok.
Qed.

(** Property X18.  In an expression series returned by the constructor the
    parameter names are the free variables; each one has a unit, the one given
    for it and the empty unit by default, and a dimension, the one given for it
    and its own name by default. *)
Theorem expression_variable_maps c data dims coords units interp parameters s :
  NoDup (keys (default [] units)) →
  __init__ c data dims coords units interp parameters = Ok s →
  is_expression s = true →
  ∃ me ks vu sd,
    _data s = Expression me
    ∧ parameter_names s = Some ks
    ∧ parameter_units s = Some vu
    ∧ _symbol_dims s = Some sd
    ∧ (∀ k, k ∈ ks ↔ k ∈ MathematicalExpression.get_variable_names me)
    ∧ (∀ k, k ∈ MathematicalExpression.get_variable_names me →
         dict_get vu k
         = Some (match dict_get (default [] units) k with
                 | Some u => U_ u
                 | None => U_ EmptyString
                 end)
         ∧ dict_get sd k
           = Some (match match dims with
                         | Some (DimsDict d) => dict_get d k
                         | _ => None
                         end with
                   | Some d => d
                   | None => xr.DStr k
                   end)).
Proof.
  intros Hnd Hinit Hexp.
  destruct (init_is_expression _ _ _ _ _ _ _ _ Hinit Hexp) as [expr Hexpr].
  apply init_expression_inv in Hexpr
    as (me & sd & vu & u & -> & _ & Hsub & Hsd & Hvu & _ & _); [|done].
  exists me, (keys vu), vu, sd. split_and!; [done..| |].
  - intros k. rewrite <- dict_get_is_Some, Hvu.
    destruct (dict_get (default [] units) k) as [u'|] eqn:Hk.
    + split; [|by eexists]. intros _. apply Hsub, dict_get_is_Some. by eexists.
    + destruct (decide _); [split; [done|by eexists]|].
      split; [by intros [? ?]|done].
  - intros k Hk. rewrite Hvu, Hsd. rewrite !decide_True by done.
    split; [by destruct (dict_get _ k)|].
    by destruct (match dims with Some (DimsDict d) => dict_get d k | _ => None end).
Qed.
End generic_series_expressions.

Section generic_series_discrete.
Context `{Numeric} `{!Sympy} `{!WeldxUtil} `{!Formatting}.
Import GenericSeries.

Lemma list_to_map_dict_get {V} (d : dict V) k :
  (list_to_map d : gmap string V) !! k = dict_get d k.
Proof.
  induction d as [|[k' v] d IH]; [done|]. cbn.
  destruct (decide (k = k')) as [->|Hne].
  - by rewrite lookup_insert_eq.
  - by rewrite lookup_insert_ne.
Qed.

Lemma for_each_ext {A S} (f g : S → A → result S) (l : list A) :
  (∀ s x, f s x = g s x) → ∀ s, for_each f l s = for_each g l s.
Proof.
  intros Hfg. induction l as [|x l IH]; intros s; [done|]. cbn [for_each].
  rewrite Hfg. destruct (g s x); [|done]. apply IH.
Qed.

(** A loop that converts the values of a dictionary one by one. *)
Lemma for_each_dict_set {A V} (f : string * A → result V) (l : dict A) :
  ∀ acc d',
  for_each (λ acc kv, c ← f kv; Ok (dict_set acc kv.1 c)) l acc = Ok d' →
  NoDup (keys l) →
  (∀ k a, (k, a) ∈ l → ∃ c, f (k, a) = Ok c ∧ dict_get d' k = Some c)
  ∧ (∀ k, k ∉ keys l → dict_get d' k = dict_get acc k)
  ∧ (NoDup (keys acc) → NoDup (keys d')).
Proof.
  induction l as [|[k a] l IH]; intros acc d'; cbn [for_each].
  - intros [= <-] _. split; [|done]. intros k a Hk. by apply elem_of_nil in Hk.
  - intros (acc1 & Hstep & Hloop)%result_bind_Ok.
    apply result_bind_Ok in Hstep as (c & Hc & [= <-]). cbn [fst] in Hloop.
    rewrite keys_cons. intros [Hk Hnd]%NoDup_cons.
    destruct (IH _ _ Hloop Hnd) as (Hin & Hout & Hkeep). split_and!.
    + intros k' a' [[= -> ->]|Hin']%elem_of_cons.
      * exists c. split; [done|]. rewrite Hout by done. rewrite dict_get_set.
        by rewrite decide_True.
      * by apply Hin.
    + intros k' Hk'. rewrite Hout by (intros ?; apply Hk'; by right).
      rewrite dict_get_set. rewrite decide_False; [done|].
      intros ->. apply Hk'. by left.
    + intros Hacc. by apply Hkeep, dict_set_NoDup.
Qed.

Lemma DataArray_init_vector (qq : pint.Quantity) k da :
  xr.DataArray_init (pint.Quant qq) (Some (xr.DList [k])) [] = Ok da →
  da = {| xr.dims := [k]; xr.data := pint.magnitude qq;
          xr.units := Some (pint.units qq); xr.coords := ∅; xr.attrs := ∅ |}.
Proof.
  unfold xr.DataArray_init. cbn. case_bool_decide; [done|]. by intros [= <-].
Qed.

Lemma for_each_unit_Ok {A} (f : unit → A → result unit) (l : list A) :
  for_each f l () = Ok () → ∀ x, x ∈ l → f () x = Ok ().
Proof.
  induction l as [|y l IH]; cbn [for_each].
  - intros _ x Hx. by apply elem_of_nil in Hx.
  - destruct (f () y) as [[]|e] eqn:Hy; [|done]. cbn.
    intros Hl x [->|Hx]%elem_of_cons; [done|by apply IH].
Qed.

Lemma for_each_dict_set_keys {A V} (f : string * A → result V) (l : dict A) :
  ∀ acc d',
  for_each (λ acc kv, c ← f kv; Ok (dict_set acc kv.1 c)) l acc = Ok d' →
  (∀ k a, (k, a) ∈ l → is_Ok (f (k, a)) = true)
  ∧ (∀ k, k ∈ keys d' ↔ k ∈ keys acc ∨ k ∈ keys l).
Proof.
  induction l as [|[k a] l IH]; intros acc d'; cbn [for_each].
  - intros [= <-]. split.
    + intros k a Hk. by apply elem_of_nil in Hk.
    + intros k. split; [by left|]. intros [?|Hk]; [done|]. by apply elem_of_nil in Hk.
  - intros (acc1 & Hstep & Hloop)%result_bind_Ok.
    apply result_bind_Ok in Hstep as (c & Hc & [= <-]). cbn [fst] in Hloop.
    destruct (IH _ _ Hloop) as (Hin & Hkeys). split.
    + intros k' a' [[= -> ->]|Hin']%elem_of_cons; [by rewrite Hc|by apply Hin].
    + intros k'. rewrite Hkeys, dict_set_elem, keys_cons, elem_of_cons. tauto.
Qed.

Lemma keys_zip (l : list string) (ns : list nat) :
  length l = length ns → keys (zip l ns) = l.
Proof. intros Hlen. unfold keys. by apply fst_zip; rewrite Hlen. Qed.

(** The coordinates of an array that the constructor of [xarray] has
    accepted live on its dimensions. *)
Lemma DataArray_init_coords p d cs da k cc :
  xr.DataArray_init p d cs = Ok da →
  xr.coords da !! k = Some cc →
  ∀ x, x ∈ xr.c_dims cc → x ∈ xr.dims da.
Proof.
  unfold xr.DataArray_init.
  destruct (match p with pint.Plain a => _ | pint.Quant q => _ end) as [a u].
  intros (ds & _ & Hda)%result_bind_Ok. revert Hda.
  case_bool_decide as Hlen; [done|].
  intros (nc & _ & Hda)%result_bind_Ok.
  apply result_bind_Ok in Hda as ([] & Hcheck & [= <-]). cbn [xr.coords xr.dims].
  rewrite list_to_map_dict_get. intros Hk%dict_get_Some x Hx.
  pose proof (for_each_unit_Ok _ _ Hcheck _ Hk) as Hc.
  unfold xr.check_coordinate in Hc. case_bool_decide as Hex; [done|].
  rewrite keys_zip in Hex by (apply dec_stable; by intros ?).
  apply dec_stable. intros Hn. apply Hex, Exists_exists. by exists x.
Qed.
(** The array that the constructor makes of a quantity and coordinates. *)
Lemma init_discrete_quantity_inv c q dims coords s :
  NoDup (keys (default [] coords)) →
  _init_discrete c (PQuantity q) dims coords = Ok s →
  ∃ da d cs,
    s = {| cls := c; _data := Discrete da; _variable_units := None;
           _symbol_dims := None; _shape := None; _units := None;
           _interpolation := "linear" |}
    ∧ xr.DataArray_init (pint.Quant q) d cs = Ok da
    ∧ d = match dims with
          | Some (DimsList d) => Some d
          | Some (DimsDict d) => Some (xr.DList (keys d))
          | None => None
          end
    ∧ xr.data da = pint.magnitude q
    ∧ xr.units da = Some (pint.units q)
    ∧ length (xr.dims da) = np.ndim (pint.magnitude q)
    ∧ (∀ k, is_Some (xr.coords da !! k) ↔ k ∈ keys (default [] coords))
    ∧ (∀ k v, (k, v) ∈ default [] coords →
         xr.coords da !! k
         = Some (xr.as_coordinate (xr.dequantify
             {| xr.dims := [k]; xr.data := pint.magnitude (pint.Q_ v);
                xr.units := Some (pint.units (pint.Q_ v));
                xr.coords := ∅; xr.attrs := ∅ |}))).
Proof.
  intros Hnd. unfold _init_discrete.
  intros (da & Hda & Hrest)%result_bind_Ok.
  apply result_bind_Ok in Hrest as ([] & _ & [= <-]).
  apply result_bind_Ok in Hda as (cs & Hcs & Hda).
  assert ((∀ k v, (k, v) ∈ default [] coords →
             ∃ cv, (λ da, xr.CoordArray (xr.dequantify da))
                   <$> xr.DataArray_init (pint.Quant (pint.Q_ v))
                         (Some (xr.DList [k])) [] = Ok cv
                   ∧ dict_get cs k = Some cv)
          ∧ (∀ k, k ∉ keys (default [] coords) → dict_get cs k = None)
          ∧ NoDup (keys cs)) as (Hcs_in & Hcs_out & Hcs_nd).
  { destruct coords as [coords|]; cbn [default] in *.
    - rewrite (for_each_ext _
                 (λ acc kv, c ← (λ kv : string * pint.array_like,
                                   (λ da, xr.CoordArray (xr.dequantify da))
                                   <$> xr.DataArray_init (pint.Quant (pint.Q_ kv.2))
                                         (Some (xr.DList [kv.1])) []) kv;
                            Ok (dict_set acc kv.1 c))) in Hcs; last first.
      { intros acc kv. cbn. by case_bool_decide. }
      apply for_each_dict_set in Hcs as (Hcs_in & Hcs_out & Hcs_nd); [|done].
      split_and!; [done|done|]. apply Hcs_nd, (NoDup_nil_2 (A:=string)).
    - injection Hcs as <-. split_and!; [|done|constructor].
      intros k v Hk. by apply elem_of_nil in Hk. }
  pose proof Hda as Hinit.
  unfold xr.DataArray_init in Hda. cbn [pint.magnitude pint.units] in Hda.
  apply result_bind_Ok in Hda as (ds & Hds & Hda).
  case_bool_decide as Hlen; [done|].
  apply result_bind_Ok in Hda as (nc & Hnc & Hda).
  apply result_bind_Ok in Hda as ([] & _ & Hda). injection Hda as Hda.
  apply (for_each_dict_set (λ kv, xr.as_variable kv.1 kv.2)) in Hnc
    as (Hnc_in & Hnc_out & _); [|done].
  assert (length ds = np.ndim (pint.magnitude q)) as Hlen'
    by (apply dec_stable; by intros ?).
  assert (∀ k v, (k, v) ∈ default [] coords →
            dict_get nc k
            = Some (xr.as_coordinate (xr.dequantify
                {| xr.dims := [k]; xr.data := pint.magnitude (pint.Q_ v);
                   xr.units := Some (pint.units (pint.Q_ v));
                   xr.coords := ∅; xr.attrs := ∅ |}))) as Hget.
  { intros k v Hkv. destruct (Hcs_in k v Hkv) as (cv & Hcv & Hcsk).
    match type of Hcv with context [xr.DataArray_init ?a ?b ?c] =>
      destruct (xr.DataArray_init a b c) as [dak|e] eqn:Hdak
    end; [|done].
    injection Hcv as <-. apply DataArray_init_vector in Hdak as ->.
    apply dict_get_Some in Hcsk. destruct (Hnc_in _ _ Hcsk) as (cc & Hcc & Hnck).
    cbn in Hcc. injection Hcc as <-. done. }
  eexists da, _, cs. split; [done|]. split; [exact Hinit|]. split; [done|].
  subst da. cbn [xr.data xr.units xr.dims xr.coords].
  split_and!; [done|done|done| |].
  - intros k. rewrite list_to_map_dict_get. split.
    + intros Hk. apply dec_stable. intros Hn.
      assert (k ∉ keys cs) as Hn'.
      { intros Hin. apply dict_get_is_Some in Hin as [cv Hcv].
        rewrite (Hcs_out k Hn) in Hcv. done. }
      rewrite (Hnc_out k Hn') in Hk. by destruct Hk.
    + intros [v Hkv]%elem_of_keys. rewrite (Hget k v Hkv). by eexists.
  - intros k v Hkv. rewrite list_to_map_dict_get. by apply Hget.
Qed.

(** Property X19.  A series made of a quantity holds its values and its
    unit, has the dimensions given and as many dimensions as the values have
    axes; its coordinates are the ones given, each over its own name, with the
    values of the coordinate and its unit written in the attribute [units]. *)
Theorem new_discrete_coordinates c q dims coords units interp parameters s :
  NoDup (keys (default [] coords)) →
  __init__ c (ArgQuantity q) dims coords units interp parameters = Ok s →
  ∃ da,
    data_array s = Implemented da
    ∧ xr.data da = pint.magnitude q
    ∧ GenericSeries.units s = Ok (pint.units q)
    ∧ (∀ d, dims = Some (DimsList d) → GenericSeries.dims s = Ok (xr.dim_names d))
    ∧ ndims s = Ok (np.ndim (pint.magnitude q))
    ∧ (∀ k, is_Some (xr.coords da !! k) ↔ k ∈ keys (default [] coords))
    ∧ (∀ k v, (k, v) ∈ default [] coords →
         ∃ cc, xr.coords da !! k = Some cc
               ∧ xr.c_dims cc = [k]
               ∧ xr.c_data cc = pint.magnitude (pint.Q_ v)
               ∧ xr.c_attrs cc !! "units" = Some (unit_str (pint.units (pint.Q_ v)))).
Proof.
  intros Hnd Hinit. unfold __init__ in Hinit.
  apply init_discrete_quantity_inv in Hinit
    as (da & d & cs & -> & Hda & -> & Hdata & Hunits & Hlen & Hkeys & Hget); [|done].
  exists da. unfold data_array, GenericSeries.units, GenericSeries.dims, ndims.
  cbn [_data _units]. rewrite Hunits.
  split_and!; [done|done|done| |by cbn; rewrite Hlen|done|].
  - intros d' ->. unfold xr.DataArray_init in Hda.
    cbn [pint.magnitude pint.units] in Hda.
    apply result_bind_Ok in Hda as (ds & [= <-] & Hda).
    case_bool_decide; [done|].
    apply result_bind_Ok in Hda as (nc & _ & Hda).
    apply result_bind_Ok in Hda as ([] & _ & [= <-]). done.
  - intros k v Hkv. eexists. split; [by apply Hget|]. cbn. split_and!; [done..|].
    by rewrite lookup_insert_eq.
Qed.

Lemma prepare_inputs_discrete self da kw : ∀ acc input,
  _data self = Discrete da →
  for_each (prepare_input self) kw acc = Ok input →
  (∀ k, k ∈ keys input ↔ k ∈ keys acc ∨ k ∈ keys kw)
  ∧ ∀ k, k ∈ keys kw →
         ∃ cc u, xr.coords_getitem da k = Ok cc
                 ∧ xr.attrs_getitem (xr.c_attrs cc) "units" = Ok u.
Proof.
  intros acc input Hd. revert acc input.
  induction kw as [|[k v] kw IH]; intros acc input; cbn [for_each].
  - intros [= <-]. split.
    + intros k. split; [by left|]. intros [?|Hk]; [done|]. by apply elem_of_nil in Hk.
    + intros k Hk. by apply elem_of_nil in Hk.
  - intros (acc1 & Hstep & Hloop)%result_bind_Ok.
    unfold prepare_input in Hstep. rewrite Hd in Hstep.
    apply result_bind_Ok in Hstep as (v' & Hv' & [= <-]).
    apply result_bind_Ok in Hv' as (cc & Hcc & Hv').
    apply result_bind_Ok in Hv' as (u & Hu & _).
    destruct (IH _ _ Hloop) as [Hkeys Hcoords]. rewrite keys_cons. split.
    + intros k'. rewrite Hkeys, dict_set_elem, elem_of_cons. tauto.
    + intros k' [->|Hk']%elem_of_cons; [by exists cc, u|by apply Hcoords].
Qed.

(** Property X20.  For a series made of a quantity, when the keywords of a
    call pass the loop over the inputs, each keyword names a coordinate and a
    dimension of the series: the test for a valid dimension does not fire, and
    the call is the interpolation of the data followed by the constructor of
    [GenericSeries]. *)
Theorem call_dimension_check_passes c q dims coords units interp parameters s
    kwargs kw input :
  NoDup (keys (default [] coords)) →
  __init__ c (ArgQuantity q) dims coords units interp parameters = Ok s →
  preprocess s kwargs = Ok kw →
  for_each (prepare_input s) kw [] = Ok input →
  ∃ da,
    data_array s = Implemented da
    ∧ (∀ k, k ∈ keys input ↔ k ∈ keys kw)
    ∧ (∀ k, k ∈ keys kw → k ∈ keys (default [] coords) ∧ k ∈ xr.dims da)
    ∧ __call__ s kwargs
      = (data ← xr_interp_like da input default_options;
         __init__ GenericSeries (ArgDataArray data) None None None None None).
Proof.
  intros Hnd Hinit Hpre Hinput. unfold __init__ in Hinit.
  apply init_discrete_quantity_inv in Hinit
    as (da & d & cs & -> & Hda & -> & Hdata & Hunits & Hlen & Hkeys & Hget); [|done].
  exists da. split; [done|]. pose proof Hinput as Hloop.
  eapply prepare_inputs_discrete in Hinput as [Hin Hcoords]; [|reflexivity].
  pose proof I as Hinput.
  assert (∀ k, k ∈ keys kw → k ∈ keys (default [] coords) ∧ k ∈ xr.dims da) as Hdims.
  { intros k Hk. destruct (Hcoords k Hk) as (cc & u & Hcc & Hu).
    unfold xr.coords_getitem in Hcc.
    destruct (xr.coords da !! k) as [cc'|] eqn:Hlook.
    - assert (k ∈ keys (default [] coords)) as Hkc by (apply Hkeys; by eexists).
      split; [done|]. apply elem_of_keys in Hkc as [v Hv].
      eapply (DataArray_init_coords _ _ _ _ k); [exact Hda|by apply (Hget k v)|].
      cbn. left.
    - exfalso. destruct (dict_get (xr.sizes da) k); [|done].
      injection Hcc as <-. done. }
  split.
  { intros k. rewrite Hin. split; [|by right]. intros [Hk|?]; [|done].
    by apply elem_of_nil in Hk. }
  split; [done|].
  unfold __call__. rewrite Hpre. cbn [mbind result_bind]. rewrite Hloop.
  cbn [mbind result_bind _data].
  match goal with |- context [for_each ?f (keys input) ()] =>
    assert (for_each f (keys input) () = Ok ()) as ->; [|done]
  end.
  apply (for_each_check (λ k : string, k ∉ xr.dims da)
           (λ k, KeyError (not_a_dimension k))).
  intros k Hk Hn. apply Hn. apply Hdims. apply Hin in Hk as [Hk|Hk]; [|done].
  by apply elem_of_nil in Hk.
Qed.
End generic_series_discrete.

Section generic_series_errors.
Context `{Numeric} `{!Sympy} `{!WeldxUtil} `{!Formatting}.
Import GenericSeries.

Lemma for_each_app {A S} (f : S → A → result S) (l1 l2 : list A) s :
  for_each f (l1 ++ l2) s = s' ← for_each f l1 s; for_each f l2 s'.
Proof.
  revert s. induction l1 as [|x l1 IH]; intros s; [done|]. cbn [for_each app].
  destruct (f s x); [|done]. cbn. apply IH.
Qed.

(** Property X21.  For an expression series returned by the constructor,
    a call whose first keyword is neither a variable of the expression nor
    a key of the dictionary of dimensions that the constructor was given
    raises the [KeyError] of that name. *)
Theorem call_unknown_variable c data dims coords units interp parameters s me
    kwargs k v rest :
  NoDup (keys (default [] units)) →
  __init__ c data dims coords units interp parameters = Ok s →
  _data s = Expression me →
  preprocess s kwargs = Ok ((k, v) :: rest) →
  k ∉ MathematicalExpression.get_variable_names me →
  (∀ d, dims = Some (DimsDict d) → k ∉ keys d) →
  __call__ s kwargs = Raise (KeyError k).
Proof.
  intros Hnd Hinit Hd Hpre Hk Hdims.
  assert (is_expression s = true) as Hexp by (unfold is_expression; by rewrite Hd).
  destruct (init_is_expression _ _ _ _ _ _ _ _ Hinit Hexp) as [expr Hexpr].
  apply init_expression_inv in Hexpr
    as (me' & sd & vu & u & -> & _ & _ & Hsd & _ & _ & _); [|done].
  cbn in Hd. injection Hd as ->.
  unfold __call__. rewrite Hpre. cbn.
  unfold symbol_dims_getitem, getitem. cbn [_symbol_dims]. rewrite Hsd.
  rewrite decide_False by done.
  destruct dims as [[l|d]|]; [done| |done].
  specialize (Hdims d eq_refl). apply dict_get_None in Hdims. by rewrite Hdims.
Qed.

Lemma update_expression_params_prefix pre : ∀ acc,
  (∀ k da, (k, MathematicalExpression.Array da) ∈ pre → is_Some (xr.units da)) →
  ∃ acc',
    for_each (λ params (kv : string * MathematicalExpression.parameter_arg),
      v ← match kv.2 with
          | MathematicalExpression.Tuple v d =>
              Ok (MathematicalExpression.Tuple (pint.Quant (pint.Q_ v)) d)
          | MathematicalExpression.Array da =>
              match xr.units da with
              | Some _ => Ok (MathematicalExpression.Array da)
              | None => Raise (ValueError (not_a_quantity kv.1))
              end
          | MathematicalExpression.Value v =>
              Ok (MathematicalExpression.Value (pint.Quant (pint.Q_ v)))
          end;
      Ok (dict_set params kv.1 v)) pre acc = Ok acc'.
Proof.
  induction pre as [|[k v] pre IH]; intros acc Hpre; [by eexists|].
  cbn [for_each snd fst].
  destruct v as [a|a d|da]; cbn [mbind result_bind].
  1,2: apply IH; intros k' da' Hin; apply (Hpre k'); by right.
  destruct (Hpre k da) as [u Hu]; [left|]. rewrite Hu. cbn [mbind result_bind].
  apply IH. intros k' da' Hin. apply (Hpre k'). by right.
Qed.

(** Property X22.  The constructor of a series from a formula refuses the
    first array among the parameters that has no unit, with the [ValueError] that
    names the parameter. *)
Theorem parameter_without_unit c data dims coords units interp pre k da post :
  (∃ str, data = ArgStr str) →
  xr.units da = None →
  (∀ k' da', (k', MathematicalExpression.Array da') ∈ pre → is_Some (xr.units da')) →
  __init__ c data dims coords units interp
    (Some (pre ++ (k, MathematicalExpression.Array da) :: post))
  = Raise (ValueError (not_a_quantity k)).
Proof.
  intros [str ->] Hda Hpre. unfold __init__, _init_expression, _update_expression_params.
  rewrite for_each_app.
  destruct (update_expression_params_prefix pre
              (pre ++ (k, MathematicalExpression.Array da) :: post) Hpre) as [acc' ->].
  cbn. by rewrite Hda.
Qed.

(** The loop over [units] goes through the keys that are variables and
    whose unit is defined. *)
Lemma given_units_prefix (names : list string) msg (pre : dict string) :
  (∀ k u, (k, u) ∈ pre → k ∈ names ∧ defined_unit u = true) →
  ∀ acc, ∃ acc',
    for_each (λ acc (kv : string * string),
                if bool_decide (kv.1 ∉ names)
                then Raise (KeyError (msg kv.1))
                else if defined_unit kv.2
                then Ok (dict_set acc kv.1 (U_ kv.2))
                else Raise (UndefinedUnitError (undefined_unit kv.2)))
             pre acc = Ok acc'.
Proof.
  induction pre as [|[k u] pre IH]; intros Hpre acc; [by eexists|].
  cbn [for_each fst snd]. destruct (Hpre k u) as [Hk Hu]; [left|].
  rewrite bool_decide_eq_false_2 by (intros Hn; by apply Hn).
  rewrite Hu. cbn [mbind result_bind]. apply IH.
  intros k' u' Hin. apply Hpre. by right.
Qed.

(** Property X23.  When the parameters are accepted and the formula
    parses: if no variable is left the constructor raises the [ValueError]
    of an expression without variables.  Otherwise the loop over [units]
    stops at the first key that is not a variable, with the [KeyError] that
    names it, or whose unit the registry does not define, with the
    [UndefinedUnitError] of pint; this is so whatever was given for the
    dimensions. *)
Theorem expression_refused c str dims coords units interp parameters ps me :
  match parameters with
  | Some p => Some <$> _update_expression_params p
  | None => Ok None
  end = Ok ps →
  MathematicalExpression.__init__ (MathematicalExpression.FromStr str)
    (MathematicalExpression.Dict <$> ps) = Ok me →
  (MathematicalExpression.num_variables me = 0%Z →
     __init__ c (ArgStr str) dims coords units interp parameters
     = Raise (ValueError "The passed expression has no variables."))
  ∧ (MathematicalExpression.num_variables me ≠ 0%Z →
     ∀ pre k u post,
       units = Some (pre ++ (k, u) :: post) →
       (∀ k' u', (k', u') ∈ pre →
          k' ∈ MathematicalExpression.get_variable_names me
          ∧ defined_unit u' = true) →
       (k ∉ MathematicalExpression.get_variable_names me →
          __init__ c (ArgStr str) dims coords units interp parameters
          = Raise (KeyError (not_a_variable k me)))
       ∧ (k ∈ MathematicalExpression.get_variable_names me →
          defined_unit u = false →
          __init__ c (ArgStr str) dims coords units interp parameters
          = Raise (UndefinedUnitError (undefined_unit u)))).
Proof.
  intros Hps Hme. unfold __init__, _init_expression. cbv beta iota zeta.
  assert (∀ k : option (dict MathematicalExpression.parameter_arg) → result t,
            (match parameters with
             | Some p => Some <$> _update_expression_params p
             | None => Ok None
             end ≫= k) = k ps) as ->.
  { intros k. destruct parameters as [p|].
    - destruct (_update_expression_params p) as [p'|e]; [|done]. by injection Hps as <-.
    - by injection Hps as <-. }
  rewrite Hme. cbn [mbind result_bind]. split.
  - intros Hn. by rewrite bool_decide_eq_true_2.
  - intros Hn pre k u post -> Hpre.
    rewrite bool_decide_eq_false_2 by done.
    rewrite for_each_app.
    destruct (given_units_prefix (MathematicalExpression.get_variable_names me)
                (λ k, not_a_variable k me) pre Hpre []) as [acc' ->].
    cbn [mbind result_bind for_each fst snd]. split.
    + intros Hk. by rewrite bool_decide_eq_true_2.
    + intros Hk Hu. rewrite bool_decide_eq_false_2 by (intros Hn'; by apply Hn').
      by rewrite Hu.
Qed.

(** The loop of the defaults for a list goes through the variables that
    the list holds. *)
Lemma sequence_defaults_prefix (l : xr.dimspec) (pre : list string) :
  (∀ v, v ∈ pre → sequence_contains l v = true) →
  ∀ units : dict Unit, ∃ units',
    for_each (λ (units : dict Unit) (v : string),
                if sequence_contains l v
                then Ok (if contains units v then units
                         else dict_set units v (U_ EmptyString))
                else Raise (sequence_setitem_error l)) pre units = Ok units'.
Proof.
  induction pre as [|v pre IH]; intros Hpre units; [by eexists|].
  cbn [for_each]. rewrite (Hpre v) by left. cbn [mbind result_bind].
  apply IH. intros v' Hv'. apply Hpre. by right.
Qed.

(** Property X25.  No series is made of a formula when the dimensions are
    given as a list of names (or as one string) and not as a dictionary:
    the constructor raises.  Without [units], the first variable that the
    list does not hold stops it with the [TypeError] of the assignment
    [dims[v] = v]. *)
Theorem sequence_dims_refused c str l coords interp parameters :
  (∀ units,
     is_Ok (__init__ c (ArgStr str) (Some (DimsList l)) coords units interp
              parameters) = false)
  ∧ ∀ ps me pre v post,
      match parameters with
      | Some p => Some <$> _update_expression_params p
      | None => Ok None
      end = Ok ps →
      MathematicalExpression.__init__ (MathematicalExpression.FromStr str)
        (MathematicalExpression.Dict <$> ps) = Ok me →
      MathematicalExpression.num_variables me ≠ 0%Z →
      MathematicalExpression.get_variable_names me = pre ++ v :: post →
      (∀ v', v' ∈ pre → sequence_contains l v' = true) →
      sequence_contains l v = false →
      __init__ c (ArgStr str) (Some (DimsList l)) coords None interp parameters
      = Raise (sequence_setitem_error l).
Proof.
  split.
  - intros units.
    destruct (__init__ c (ArgStr str) (Some (DimsList l)) coords units interp
                parameters) as [s|e] eqn:Hinit; [|done].
    exfalso. revert Hinit. unfold __init__, _init_expression. cbv beta iota zeta.
    rewrite result_bind_Ok. intros (ps & _ & Hrest). revert Hrest.
    rewrite result_bind_Ok. intros (me & _ & Hrest). revert Hrest.
    case_bool_decide; [done|].
    rewrite result_bind_Ok. intros (vu & _ & Hrest).
    by apply init_expression_sequence_dims_raises in Hrest.
  - intros ps me pre v post Hps Hme Hn Hnames Hpre Hv.
    unfold __init__, _init_expression. cbv beta iota zeta.
    assert (∀ k : option (dict MathematicalExpression.parameter_arg) → result t,
              (match parameters with
               | Some p => Some <$> _update_expression_params p
               | None => Ok None
               end ≫= k) = k ps) as ->.
    { intros k. destruct parameters as [p|].
      - destruct (_update_expression_params p) as [p'|e]; [|done].
        by injection Hps as <-.
      - by injection Hps as <-. }
    rewrite Hme. cbn [mbind result_bind].
    rewrite bool_decide_eq_false_2 by done.
    unfold _init_expression_sequence_dims. rewrite Hnames, for_each_app.
    destruct (sequence_defaults_prefix l pre Hpre []) as [units' ->].
    cbn [mbind result_bind for_each]. by rewrite Hv.
Qed.
End generic_series_errors.

Section timeseries_properties.
Context `{Numeric} `{!Sympy} `{!WeldxUtil} `{!WeldxTime} `{!Formatting}.
Import TimeSeries.

(** Property X24.  Every time series that the constructor returns has a
    unit and a shape.  Made of a quantity, they are the unit of the quantity
    and the shape of its values (at least one-dimensional); made of a labeled
    array, the unit is the one of the array; made of an expression, they are
    the unit and the shape of its value at one second, so that the shape does
    not count the time. *)
Theorem new_units_and_shape data time interp ref σ self σ' :
  new data time interp ref σ = (Ok self, σ') →
  ∃ o u sh,
    Obj.objects σ' !! self = Some o
    ∧ units o = Ok (Some u)
    ∧ shape o = Some sh
    ∧ match data with
      | ArgArray (ArgQuantity q) =>
          is_discrete o = true
          ∧ u = pint.units q
          ∧ sh = np.shape (pint.magnitude (at_least_1d q))
      | ArgArray (ArgDataArray da) =>
          is_discrete o = true ∧ xr.units da = Some u
      | ArgArray (ArgOther _) => False
      | ArgExpression me =>
          is_expression o = true
          ∧ ∃ name rest q,
              MathematicalExpression.get_variable_names me = name :: rest
              ∧ xr.payload <$> MathematicalExpression.evaluate me [(name, one_second)]
                = Ok (pint.Quant q)
              ∧ u = pint.units q ∧ sh = probed_shape q
      end.
Proof.
  destruct data as [[q|da|other]|me]; intros Hnew.
  - apply new_quantity_inv in Hnew as (T & da & n & _ & Hda & _ & _ & _ & ->).
    apply create_data_array_fields in Hda as (Hdata & Hunits & _).
    eexists _, (pint.units q), _. split_and!.
    + unfold with_object. cbn. by rewrite lookup_insert_eq.
    + unfold units. cbn. rewrite Hunits. unfold at_least_1d.
      by destruct (np.iterable _).
    + done.
    + done.
    + done.
    + unfold xr.shape. cbn. by rewrite Hdata.
  - rewrite new_array_eq in Hnew.
    apply new_data_array_inv in Hnew as (da0 & n & Hcheck & Htr & _ & _ & -> & ->).
    unfold xr.transpose_first in Htr.
    destruct (xr.index_of "time" (xr.dims da)) as [i|] eqn:Hi; [|done].
    injection Htr as <-.
    unfold _check_data_array in Hcheck.
    destruct (xr_check_coords _ _) as [b|[]]; try done.
    destruct (xr.units da) as [u|] eqn:Hu; [|done].
    eexists _, u, _. split_and!.
    + unfold with_object. cbn. by rewrite lookup_insert_eq.
    + done.
    + done.
    + done.
    + done.
  - by rewrite new_array_eq in Hnew.
  - apply new_expression_inv in Hnew as (name & rest & q & Hnames & Hev & Hself).
    eexists _, (pint.units q), (probed_shape q). split_and!; [done..|].
    by exists name, rest, q.
Qed.
End timeseries_properties.

(** * The examples, evaluated *)

(** Evaluation of closed terms.  The value of the left-hand side is computed
    and the equation is closed by the conversion of the two sides. *)
Ltac by_evaluation :=
  lazymatch goal with
  | |- @eq ?T ?l ?r =>
      tryif has_evar r
      then (let v := eval vm_compute in l in
            unify r v; vm_cast_no_check (@eq_refl T v))
      else vm_cast_no_check (@eq_refl T r)
  end.

Section sample_facts.
Import Sample Examples.

Lemma sample_step_keeps_single_sample : step_keeps_single_sample.
Proof.
  intros da target c opts _ Hc _ Htarget. exists da. split; [|done].
  cbn. unfold interp_along. rewrite Hc. by rewrite decide_True.
Qed.

Lemma sample_reference_keeps_deltas : reference_keeps_deltas.
Proof.
  intros T T' [= <-]. cbn. eexists. split; [done|]. cbn. unfold index. cbn.
  destruct (reference T) as [r|]; [|done].
  assert ((λ d : Z, (d + r - r)%Z) <$> deltas T = deltas T) as ->; [|done].
  induction (deltas T) as [|d ds IH]; [done|]. cbn. rewrite IH. f_equal. lia.
Qed.

Lemma a_t_parses :
  MathematicalExpression.__init__ (MathematicalExpression.FromStr "a*t")
    (Some (MathematicalExpression.Dict
             [("a", MathematicalExpression.Value (pint.Quant (number 2 "m/s")))]))
  = Ok a_t.
Proof. by_evaluation. Qed.

(** [a*t] with nothing bound has two free variables, and no series is
    made of it. *)
Lemma new_requires_one_variable_witness :
  MathematicalExpression.num_variables a_t_free = 2%Z
  ∧ (TimeSeries.new (TimeSeries.ArgExpression a_t_free) None None None empty_store).1
    = Raise (Exception "The mathematical expression must have exactly 1 free variable that represents time.").
Proof.
  split; [reflexivity|].
  rewrite (new_requires_one_variable a_t_free None None None empty_store); [reflexivity|].
  vm_compute. discriminate.
Defined.

(** [a*t] with [a] bound: a value for [a] is refused, a value for [t] is
    multiplied by [a]. *)
Lemma evaluate_rebinding_guard_witness :
  MathematicalExpression.evaluate a_t
    [("a", MathematicalExpression.VValue (pint.Quant (number 1 "s")))]
  = Raise (ValueError "The variables {'a'} are already defined as parameters.")
  ∧ MathematicalExpression.evaluate a_t
      [("t", MathematicalExpression.VValue (pint.Quant (number 3 "s")))]
    = Ok (xr.wrap (pint.Quant (number 6 "m"))).
Proof.
  split.
  - destruct (proj1 (evaluate_rebinding_guard a_t
                [("a", MathematicalExpression.VValue (pint.Quant (number 1 "s")))]))
      as [-> _].
    + exists "a". split; vm_compute; left.
    + by_evaluation.
  - rewrite (proj2 (evaluate_rebinding_guard a_t
                [("t", MathematicalExpression.VValue (pint.Quant (number 3 "s")))])).
    + by_evaluation.
    + intros (k & Hk & Ha). vm_compute in Hk, Ha.
      apply list_elem_of_singleton in Hk, Ha. congruence.
Defined.

Lemma x_y_constructed : new_x_y = Ok x_y.
Proof. by_evaluation. Qed.

Lemma a_t_series_constructed : new_a_t_series = Ok a_t_series.
Proof. by_evaluation. Qed.

Lemma over_x_constructed :
  GenericSeries.__init__ GenericSeries.GenericSeries
    (GenericSeries.ArgQuantity (quantity [10; 20; 30]%Z "m"))
    (Some (GenericSeries.DimsList (xr.DList ["x"])))
    (Some [("x", pint.Quant (quantity [0; 1; 2]%Z "m"))]) None None None
  = Ok over_x.
Proof. by_evaluation. Qed.

(** The series [over_x] has the one dimension [x], with a coordinate in
    meters.  Called with the keyword [y] it raises the [KeyError] of the
    name [y], and not the one of the message for [y]. *)
Lemma call_unknown_name_witness :
  GenericSeries.__call__ over_x [("y", pint.Quant (quantity [1]%Z "m"))]
  = Raise (KeyError "y")
  ∧ KeyError "y" ≠ KeyError "'y' is not a valid dimension.".
Proof.
  eapply (call_unknown_name over_x _
            [("y", pint.Quant (quantity [1]%Z "m"))] "y" _ []);
    [reflexivity..|].
  vm_compute. intros Hin. by apply list_elem_of_singleton in Hin.
Defined.

(** Claim C1, the counterexample.  The series [x_y] is the expression
    [x*y] over the dimensions [x] and [y].  The call that binds [x] to an
    array of two values returns an expression-backed series whose only
    free variable is [y], and whose [dims] still hold the dimension [x] of
    the bound variable. *)
Lemma call_keeps_bound_dimension :
  ∃ ns ds,
    GenericSeries.__call__ x_y [("x", pint.Plain (vector [1; 2]%Z))] = Ok ns
    ∧ GenericSeries.is_expression ns = true
    ∧ GenericSeries.parameter_names ns = Some ["y"]
    ∧ GenericSeries._symbol_dims x_y = Some [("x", xr.DStr "x"); ("y", xr.DStr "y")]
    ∧ GenericSeries._symbol_dims ns = Some [("y", xr.DStr "y")]
    ∧ GenericSeries.dims ns = Ok ds
    ∧ "x" ∈ ds ∧ "y" ∈ ds ∧ length ds = 2.
Proof.
  do 2 eexists. split_and!; [by_evaluation..| | |reflexivity].
  - right; left.
  - left.
Qed.

Lemma call_binds_variables_witness :
  ∃ ns me' sd' vu',
    GenericSeries.__call__ x_y [("x", pint.Plain (vector [1; 2]%Z))] = Ok ns
    ∧ expression_state ns me' sd' vu'
    ∧ MathematicalExpression.num_variables me' = 1%Z
    ∧ GenericSeries.parameter_names ns = Some (keys vu')
    ∧ length (keys vu') = 1
    ∧ ∃ ds, GenericSeries.dims ns = Ok ds ∧ "x" ∈ ds.
Proof.
  assert (∃ ns, GenericSeries.__call__ x_y [("x", pint.Plain (vector [1; 2]%Z))] = Ok ns)
    as [ns Hcall] by (eexists; by_evaluation).
  destruct (init_expression_state _ _ _ _ _ _ x_y_constructed)
    as (me & sd & vu & Hst & Hwf & _).
  assert (me = x_times_y ∧ sd = [("x", xr.DStr "x"); ("y", xr.DStr "y")]
          ∧ keys vu = ["x"; "y"]) as (-> & -> & Hvu).
  { destruct Hst as (Hd & Hsd & Hvu).
    cbv [x_y GenericSeries._data GenericSeries._symbol_dims
         GenericSeries._variable_units] in Hd, Hsd, Hvu.
    injection Hd as <-. injection Hsd as <-. injection Hvu as <-. done. }
  destruct (call_binds_variables x_y _ _ vu
              [("x", pint.Plain (vector [1; 2]%Z))]
              [("x", pint.Plain (vector [1; 2]%Z))] ns Hst Hwf eq_refl)
    as (me' & sd' & vu' & Hst' & _ & _ & Hnum & Hnames & Hlen & _ & _ & Hdims).
  - vm_compute. discriminate.
  - done.
  - exists ns, me', sd', vu'.
    split; [done|]. split; [done|].
    split; [rewrite Hnum; reflexivity|]. split; [done|].
    split; [rewrite Hlen, Hvu; reflexivity|].
    destruct (Hdims "x" (pint.Plain (vector [1; 2]%Z)) (xr.DStr "x"))
      as (ds & Hds & Hx).
    + left.
    + reflexivity.
    + vm_compute. lia.
    + exists ds. split; [done|]. apply Hx. left.
Defined.

(** Claim C3, the counterexample.  The series [a_t_series] is the
    expression [a*t] with [a] bound to 2 m/s and the unit [s] declared
    for [t]: its probed unit is the meter.  The call that binds [t] to
    plain numbers returns a discrete series in meters per second. *)
Lemma call_units_differ_from_probe :
  ∃ ns, GenericSeries.__call__ a_t_series [("t", pint.Plain (vector [1; 2]%Z))] = Ok ns
        ∧ GenericSeries.is_discrete ns = true
        ∧ GenericSeries.units a_t_series = Ok (U_ "m")
        ∧ GenericSeries.units ns = Ok (U_ "m/s")
        ∧ U_ "m/s" ≠ U_ "m".
Proof.
  eexists. split_and!; [by_evaluation..|].
  vm_compute. discriminate.
Qed.

Lemma call_evaluates_witness :
  ∃ ns data,
    GenericSeries.__call__ a_t_series [("t", pint.Quant (quantity [1; 2]%Z "s"))] = Ok ns
    ∧ GenericSeries._data ns = GenericSeries.Discrete data
    ∧ GenericSeries.cls ns = GenericSeries.GenericSeries
    ∧ xr.units data = Some (U_ "m")
    ∧ GenericSeries.units ns = Ok (U_ "m").
Proof.
  assert (∃ ns, GenericSeries.__call__ a_t_series
                  [("t", pint.Quant (quantity [1; 2]%Z "s"))] = Ok ns)
    as [ns Hcall] by (eexists; by_evaluation).
  destruct (call_evaluates a_t_series a_t
              [("t", pint.Quant (quantity [1; 2]%Z "s"))]
              [("t", pint.Quant (quantity [1; 2]%Z "s"))] ns
              eq_refl eq_refl eq_refl Hcall)
    as (input & data & Hin & Hev & -> & Hunits).
  assert (xr.units data = Some (U_ "m")) as Hu.
  { assert (∃ i, for_each (GenericSeries.prepare_input a_t_series)
                   [("t", pint.Quant (quantity [1; 2]%Z "s"))] [] = Ok i
                 ∧ ∃ d, MathematicalExpression.evaluate a_t
                          (prod_map id MathematicalExpression.VArray <$> i) = Ok d
                        ∧ xr.units d = Some (U_ "m"))
      as (i & Hi & d & Hd & Hu)
      by (eexists; split; [by_evaluation|eexists; split; by_evaluation]).
    rewrite Hi in Hin. injection Hin as <-.
    rewrite Hd in Hev. by injection Hev as <-. }
  eexists. exists data. split; [exact Hcall|]. split_and!; [done..|].
  rewrite Hunits, Hu. reflexivity.
Defined.

Lemma samples_stored : Obj.objects with_samples !! 1%positive = Some samples.
Proof. by_evaluation. Qed.

Lemma samples_discrete :
  ∃ da, TimeSeries._data samples = Some (TimeSeries.Discrete da)
        ∧ is_Some (xr.units da).
Proof. eexists. split; [by_evaluation|]. eexists. by_evaluation. Qed.

(** Two interpolations in a row: the first makes the object 2 with the
    counter 1 and warns of nothing, the second makes the object 3 with the
    counter 2 and warns once. *)
Lemma interp_time_frame_witness :
  ∃ σ1 σ2 o1 o2,
    TimeSeries.interp_time 1%positive at_1 "s" with_samples = (Ok 2%positive, σ1)
    ∧ Obj.warnings σ1 = []
    ∧ Obj.objects σ1 !! 1%positive = Some samples
    ∧ Obj.objects σ1 !! 2%positive = Some o1
    ∧ TimeSeries._interp_counter o1 = 1%Z
    ∧ TimeSeries.interp_time 2%positive at_1 "s" σ1 = (Ok 3%positive, σ2)
    ∧ Obj.warnings σ2
      = ["The data of the time series has already been interpolated 1 time(s)."]
    ∧ Obj.objects σ2 !! 3%positive = Some o2
    ∧ TimeSeries._interp_counter o2 = 2%Z.
Proof.
  assert (∃ σ1 σ2,
            TimeSeries.interp_time 1%positive at_1 "s" with_samples
            = (Ok 2%positive, σ1)
            ∧ TimeSeries.interp_time 2%positive at_1 "s" σ1 = (Ok 3%positive, σ2))
    as (σ1 & σ2 & Hr & Hr') by (do 2 eexists; split; by_evaluation).
  pose proof (interp_time_frame with_samples 1%positive samples at_1 "s"
                samples_stored) as H1.
  cbv zeta in H1. rewrite Hr in H1. cbn [fst snd] in H1.
  destruct H1 as (Hw & Hframe & Hnew).
  destruct (Hnew _ eq_refl) as (_ & o1 & Ho1 & Hc1).
  pose proof (interp_time_frame σ1 2%positive o1 at_1 "s" Ho1) as H2.
  cbv zeta in H2. rewrite Hr' in H2. cbn [fst snd] in H2.
  destruct H2 as (Hw' & _ & Hnew').
  destruct (Hnew' _ eq_refl) as (_ & o2 & Ho2 & Hc2).
  exists σ1, σ2, o1, o2.
  split; [exact Hr|].
  split; [rewrite Hw; reflexivity|].
  split; [apply Hframe, samples_stored|].
  split; [exact Ho1|].
  split; [rewrite Hc1; reflexivity|].
  split; [exact Hr'|].
  split; [rewrite Hw', Hw, Hc1; reflexivity|].
  split; [exact Ho2|].
  rewrite Hc2, Hc1. reflexivity.
Defined.

(** A single quantity without time, asked to be linear: the series is a
    single point with the mode [step], and keeps it when [cubic] is
    written. *)
Lemma single_point_is_step_witness :
  ∃ σ' o o',
    TimeSeries.new
      (TimeSeries.ArgArray (TimeSeries.ArgQuantity (number 5 "m")))
      None (Some "linear") None empty_store = (Ok 1%positive, σ')
    ∧ Obj.objects σ' !! 1%positive = Some o
    ∧ single_point o
    ∧ TimeSeries.interpolation o = Ok (Some "step")
    ∧ TimeSeries.set_interpolation 1%positive "cubic" σ'
      = (Ok (), with_object σ' 1%positive o')
    ∧ TimeSeries.interpolation o' = Ok (Some "step").
Proof.
  destruct single_point_is_step as (_ & _ & Hnone & Hset).
  assert (∃ σ' o,
            TimeSeries.new
              (TimeSeries.ArgArray (TimeSeries.ArgQuantity (number 5 "m")))
              None (Some "linear") None empty_store = (Ok 1%positive, σ')
            ∧ Obj.objects σ' !! 1%positive = Some o)
    as (σ' & o & Hr & Ho) by (do 2 eexists; split; by_evaluation).
  destruct (Hnone (number 5 "m") (Some "linear") None empty_store 1%positive σ' o
              {| deltas := [0%Z]; reference := None |} eq_refl eq_refl Hr Ho)
    as [Hsp Hstep].
  specialize (Hset σ' 1%positive o "cubic" Ho Hsp).
  rewrite bool_decide_eq_true_2 in Hset by (vm_compute; do 6 right; left).
  destruct Hset as (o' & Hw & _ & Hstep').
  exists σ', o, o'.
  exact (conj Hr (conj Ho (conj Hsp (conj Hstep (conj Hw Hstep'))))).
Defined.

(** The samples with the counter 0 and no reference time are equal to
    the samples with the counter 5 and a reference time. *)
Lemma eq_ignores_counter_and_reference_witness :
  TimeSeries.__eq__
    (TimeSeries.set_reference_time None (TimeSeries.set_interp_counter 0 samples))
    (Some (TimeSeries.set_reference_time (Some 7%Z)
             (TimeSeries.set_interp_counter 5 samples)))
  = true.
Proof.
  destruct samples_discrete as (da & Hda & Hu).
  apply (eq_ignores_counter_and_reference samples samples da da); [done..| |done].
  unfold xr.identical. by rewrite !bool_decide_eq_true_2.
Defined.

(** The samples interpolated at the time 1, and the result interpolated
    at the time 1 again. *)
Lemma interp_time_idempotent_witness :
  ∃ σ1 l2 σ2 o1 o2,
    TimeSeries.interp_time 1%positive at_1 "s" with_samples = (Ok 2%positive, σ1)
    ∧ TimeSeries.interp_time 2%positive at_1 "s" σ1 = (Ok l2, σ2)
    ∧ Obj.objects σ2 !! 2%positive = Some o1
    ∧ Obj.objects σ2 !! l2 = Some o2
    ∧ TimeSeries.__eq__ o2 (Some o1) = true.
Proof.
  destruct samples_discrete as (da & Hda & _).
  assert (∃ σ1, TimeSeries.interp_time 1%positive at_1 "s" with_samples
                = (Ok 2%positive, σ1)) as [σ1 Hr] by (eexists; by_evaluation).
  destruct (interp_time_idempotent with_samples 1%positive samples da at_1 "s"
              2%positive σ1
              {| deltas := [1%Z]; reference := None |}
              {| deltas := [1%Z]; reference := None |}
              sample_step_keeps_single_sample sample_reference_keeps_deltas
              samples_stored Hda eq_refl eq_refl eq_refl Hr)
    as (l2 & σ2 & o1 & o2 & Hsecond & Ho1 & Ho2 & Heq).
  exists σ1, l2, σ2, o1, o2.
  exact (conj Hr (conj Hsecond (conj Ho1 (conj Ho2 Heq)))).
Defined.
End sample_facts.

(** * More examples, evaluated *)

Section more_sample_facts.
Import Sample Examples MoreExamples.

Lemma a_bound : MathematicalExpression.set_parameters a_t_free
                  (MathematicalExpression.Dict a_is_2) = Ok a_t.
Proof. by_evaluation. Qed.

Lemma set_parameters_binds_witness :
  MathematicalExpression.set_parameters a_t_free (MathematicalExpression.Dict a_is_2)
  = Ok a_t
  ∧ (∀ k, k ∈ keys a_is_2 →
          k ∈ free_symbols (MathematicalExpression.expression a_t_free))
  ∧ ∃ v', stored_as (MathematicalExpression.Value (pint.Quant (number 2 "m/s"))) v'
          ∧ dict_get (MathematicalExpression.parameters a_t) "a" = Some v'.
Proof.
  split; [exact a_bound|].
  destruct (set_parameters_binds a_t_free a_is_2 a_t a_bound)
    as (_ & Hsym & _ & _ & Hval).
  split; [exact Hsym|]. apply Hval.
  - apply (bool_decide_unpack _). vm_compute. exact I.
  - left.
Defined.

Lemma a_t_free_constructed :
  MathematicalExpression.__init__ (MathematicalExpression.FromStr "a*t") None
  = Ok a_t_free.
Proof. by_evaluation. Qed.

Lemma a_t_after_call : after_set_parameters a_t_free [a_is_2] = Ok a_t.
Proof. by_evaluation. Qed.

Lemma num_variables_counts_names_witness :
  MathematicalExpression.num_variables a_t
  = Z.of_nat (length (MathematicalExpression.get_variable_names a_t))
  ∧ MathematicalExpression.get_variable_names a_t = ["t"].
Proof.
  split; [|reflexivity].
  apply (num_variables_counts_names _ _ _ _ _ a_t_free_constructed a_t_after_call).
  apply (bool_decide_unpack _). vm_compute. exact I.
Defined.

Lemma evaluate_names_witness :
  MathematicalExpression.evaluate a_t t_is_3 = Ok (xr.wrap (pint.Quant (number 6 "m")))
  ∧ names_match a_t t_is_3.
Proof.
  assert (MathematicalExpression.evaluate a_t t_is_3
          = Ok (xr.wrap (pint.Quant (number 6 "m")))) as Hev by by_evaluation.
  split; [exact Hev|].
  apply (proj1 (evaluate_names a_t t_is_3) _ Hev).
Defined.

Lemma set_parameter_counts_witness :
  MathematicalExpression.set_parameter a_t_free "a"
    (MathematicalExpression.Value (pint.Quant (number 2 "m/s"))) = Ok a_t
  ∧ MathematicalExpression.num_variables a_t
    = (MathematicalExpression.num_variables a_t_free - 1)%Z
  ∧ MathematicalExpression.get_variable_names a_t
    = filter (λ x : string, x ≠ "a")
        (MathematicalExpression.get_variable_names a_t_free).
Proof.
  assert (MathematicalExpression.set_parameter a_t_free "a"
            (MathematicalExpression.Value (pint.Quant (number 2 "m/s"))) = Ok a_t)
    as Hset by by_evaluation.
  split; [exact Hset|].
  destruct (set_parameter_counts a_t_free "a" _ a_t (NoDup_nil_2 (A:=string)) Hset)
    as (_ & _ & Hn & Hnames).
  split; [exact Hn|exact Hnames].
Defined.

Lemma a_t_stored : new_a_t empty_store = (Ok 1%positive, with_a_t).
Proof.
  assert (∃ σ, new_a_t empty_store = (Ok 1%positive, σ)) as [σ Hσ]
    by (eexists; by_evaluation).
  unfold with_a_t. rewrite Hσ. reflexivity.
Qed.

Lemma new_expression_state_witness :
  new_a_t empty_store = (Ok 1%positive, with_a_t)
  ∧ (∃ o, Obj.objects with_a_t !! 1%positive = Some o
          ∧ TimeSeries._data o = Some (TimeSeries.Expression a_t)
          ∧ TimeSeries._interp_counter o = 0%Z)
  ∧ TimeSeries.set_interpolation 1%positive "cubic" with_a_t = (Ok (), with_a_t).
Proof.
  split; [exact a_t_stored|].
  destruct (new_expression_state a_t None None None empty_store 1%positive with_a_t
              a_t_stored) as (name & rest & q & _ & _ & Ho & Hset).
  split; [|apply Hset].
  eexists. split; [exact Ho|]. split; reflexivity.
Defined.

Lemma new_probe_error_witness :
  MathematicalExpression.num_variables a_t_plus_b = 1%Z
  ∧ (TimeSeries.new (TimeSeries.ArgExpression a_t_plus_b) None None None
       empty_store).1
    = Raise (Exception TimeSeries.wrong_units).
Proof.
  split; [reflexivity|].
  assert (∃ m, MathematicalExpression.evaluate a_t_plus_b [("t", one_second)]
               = Raise (DimensionalityError m)) as [m Hev]
    by (eexists; by_evaluation).
  rewrite (new_probe_error a_t_plus_b None None None empty_store "t" [] _
             eq_refl eq_refl Hev).
  reflexivity.
Defined.

Lemma samples_constructed : new_samples empty_store = (Ok 1%positive, with_samples).
Proof.
  assert (∃ σ, new_samples empty_store = (Ok 1%positive, σ)) as [σ Hσ]
    by (eexists; by_evaluation).
  unfold with_samples. rewrite Hσ. reflexivity.
Qed.

Lemma interpolation_round_trip_witness :
  ∃ σ' o',
    TimeSeries.set_interpolation 1%positive "cubic" with_samples = (Ok (), σ')
    ∧ Obj.objects σ' !! 1%positive = Some o'
    ∧ TimeSeries.interpolation o' = Ok (Some "cubic").
Proof.
  destruct samples_discrete as (da & Hda & _).
  assert (∃ σ', TimeSeries.set_interpolation 1%positive "cubic" with_samples
                = (Ok (), σ')) as [σ' Hset] by (eexists; by_evaluation).
  destruct (interpolation_round_trip with_samples 1%positive samples da "cubic" σ'
              samples_stored Hda Hset)
    as (o' & n & _ & Hn & Ho' & Hmode & Heq & _).
  exists σ', o'. split; [exact Hset|]. split; [exact Ho'|].
  assert (xr.len_time da = Ok 3) as Hlen.
  { assert (TimeSeries._data samples
            = Some (TimeSeries.Discrete samples_array)) as Hs by by_evaluation.
    rewrite Hs in Hda. injection Hda as <-. by_evaluation. }
  rewrite Hlen in Hn. injection Hn as <-. exact Hmode.
Defined.

Lemma new_discrete_interpolation_witness :
  ∃ o, Obj.objects with_samples !! 1%positive = Some o
       ∧ TimeSeries.interpolation o = Ok (Some "linear").
Proof.
  destruct (new_discrete_interpolation _ _ _ _ _ _ _ samples_constructed)
    as (o & da & n & Ho & Hda & Hn & _ & Hmode).
  exists o. split; [exact Ho|].
  assert (Some o = Some samples) as [= ->]
    by exact (eq_trans (eq_sym Ho) samples_stored).
  assert (TimeSeries._data samples
          = Some (TimeSeries.Discrete samples_array)) as Hs by by_evaluation.
  rewrite Hs in Hda. injection Hda as <-.
  assert (xr.len_time samples_array = Ok 3) as Hlen by by_evaluation.
  rewrite Hlen in Hn. injection Hn as <-. exact Hmode.
Defined.

Lemma new_discrete_data_witness :
  ∃ o da, Obj.objects with_samples !! 1%positive = Some o
          ∧ TimeSeries._data o = Some (TimeSeries.Discrete da)
          ∧ xr.data da = vector [10; 20; 30]%Z
          ∧ xr.units da = Some (U_ "m")
          ∧ TimeSeries._interp_counter o = 0%Z.
Proof.
  destruct (new_discrete_data _ _ _ _ _ _ _ samples_constructed)
    as (T & o & da & _ & _ & Ho & Hda & Hdata & Hunits & _ & _ & Hc).
  exists o, da.
  exact (conj Ho (conj Hda (conj Hdata (conj Hunits Hc)))).
Defined.

Lemma samples_array_constructed :
  ∃ σ', TimeSeries.new (TimeSeries.ArgArray (TimeSeries.ArgDataArray samples_array))
          (Some at_1) None (Some 7%Z) empty_store = (Ok 1%positive, σ').
Proof. eexists. by_evaluation. Qed.

Lemma new_from_data_array_witness :
  ∃ σ' o,
    TimeSeries.new (TimeSeries.ArgArray (TimeSeries.ArgDataArray samples_array))
      (Some at_1) None (Some 7%Z) empty_store = (Ok 1%positive, σ')
    ∧ TimeSeries.new (TimeSeries.ArgArray (TimeSeries.ArgDataArray samples_array))
        None None (Some 7%Z) empty_store = (Ok 1%positive, σ')
    ∧ Obj.objects σ' !! 1%positive = Some o
    ∧ TimeSeries._reference_time o = Some 7%Z.
Proof.
  destruct samples_array_constructed as [σ' Hnew].
  destruct (new_from_data_array _ _ _ _ _ _ _ Hnew)
    as (Hsame & o & da0 & Ho & _ & _ & _ & _ & _ & _ & Href & _).
  exists σ', o.
  exact (conj Hnew (conj Hsame (conj Ho Href))).
Defined.

Lemma a_t_object_stored :
  ∃ o, Obj.objects with_a_t !! 1%positive = Some o
       ∧ TimeSeries._data o = Some (TimeSeries.Expression a_t)
       ∧ TimeSeries._interp_counter o = 0%Z.
Proof. eexists. split; [by_evaluation|]. split; reflexivity. Qed.

Lemma interp_time_of_expression_witness :
  ∃ σ' o' da,
    TimeSeries.interp_time 1%positive at_1 "s" with_a_t = (Ok 4%positive, σ')
    ∧ Obj.objects σ' !! 4%positive = Some o'
    ∧ TimeSeries._data o' = Some (TimeSeries.Discrete da)
    ∧ xr.attrs da !! "interpolation" = Some "step"
    ∧ TimeSeries._interp_counter o' = 1%Z.
Proof.
  destruct a_t_object_stored as (o & Ho & Hdata & Hc).
  assert (∃ σ', TimeSeries.interp_time 1%positive at_1 "s" with_a_t
                = (Ok 4%positive, σ')) as [σ' Hr] by (eexists; by_evaluation).
  destruct (interp_time_of_expression with_a_t 1%positive o a_t at_1 "s"
              4%positive σ' Ho Hdata Hr)
    as (T & TI & dax & da0 & _ & _ & _ & _ & Ho').
  eexists σ', _, _. split; [exact Hr|]. split; [exact Ho'|].
  split; [reflexivity|]. split.
  - cbn. by rewrite lookup_insert_eq.
  - cbn. rewrite Hc. reflexivity.
Defined.

Lemma interp_time_of_discrete_witness :
  ∃ σ' o' da',
    TimeSeries.interp_time 1%positive at_1 "s" with_samples = (Ok 2%positive, σ')
    ∧ Obj.objects σ' !! 2%positive = Some o'
    ∧ TimeSeries._data o' = Some (TimeSeries.Discrete da')
    ∧ xr.len_time da' = Ok 1
    ∧ TimeSeries.interpolation o' = Ok (Some "step").
Proof.
  destruct samples_discrete as (da & Hda & _).
  assert (∃ σ', TimeSeries.interp_time 1%positive at_1 "s" with_samples
                = (Ok 2%positive, σ')) as [σ' Hr] by (eexists; by_evaluation).
  destruct (interp_time_of_discrete with_samples 1%positive samples da at_1 "s"
              2%positive σ' samples_stored Hda Hr)
    as (T & TI & m & dax & q & T' & o' & da' & n & _ & _ & _ & _ & _ & _
        & Ho' & Hda' & _ & _ & _ & Hn & Hmode & _).
  assert (∃ o2 da2, Obj.objects σ' !! 2%positive = Some o2
                    ∧ TimeSeries._data o2 = Some (TimeSeries.Discrete da2)
                    ∧ xr.len_time da2 = Ok 1) as (o2 & da2 & Ho2 & Hda2 & Hlen).
  { pose proof (f_equal snd Hr) as Hσ. cbn [snd] in Hσ. rewrite <- Hσ.
    do 2 eexists. split; [by_evaluation|]. split; by_evaluation. }
  assert (Some o2 = Some o') as [= ->] by exact (eq_trans (eq_sym Ho2) Ho').
  assert (Some (TimeSeries.Discrete da2) = Some (TimeSeries.Discrete da'))
    as [= ->] by exact (eq_trans (eq_sym Hda2) Hda').
  rewrite Hlen in Hn. injection Hn as <-.
  exists σ', o', da'.
  exact (conj Hr (conj Ho' (conj Hda' (conj Hlen Hmode)))).
Defined.

Lemma new_units_and_shape_witness :
  ∃ o, Obj.objects with_samples !! 1%positive = Some o
       ∧ TimeSeries.units o = Ok (Some (U_ "m"))
       ∧ TimeSeries.shape o = Some [3].
Proof.
  destruct (new_units_and_shape _ _ _ _ _ _ _ samples_constructed)
    as (o & u & sh & Ho & Hu & Hsh & _ & -> & ->).
  exists o. exact (conj Ho (conj Hu Hsh)).
Defined.

Lemma eq_by_kind_witness :
  TimeSeries.__eq__ samples (Some samples_5) = true
  ∧ TimeSeries.__eq__ samples (Some a_t_object) = false
  ∧ TimeSeries.__eq__ a_t_object (Some samples) = false.
Proof.
  assert (TimeSeries._data samples = Some (TimeSeries.Discrete samples_array))
    as Hs by by_evaluation.
  assert (TimeSeries._data samples_5 = Some (TimeSeries.Discrete samples_array))
    as Hs5 by by_evaluation.
  assert (TimeSeries._data a_t_object = Some (TimeSeries.Expression a_t))
    as Ha by by_evaluation.
  split.
  - rewrite (proj1 (eq_by_kind samples samples_5) _ Hs Hs5).
    apply bool_decide_eq_true_2. eexists. by_evaluation.
  - exact (proj1 (proj2 (proj2 (eq_by_kind samples a_t_object))) _ _ Hs Ha).
Defined.

Lemma new_ignores_interpolation_witness :
  GenericSeries.__init__ GenericSeries.GenericSeries (GenericSeries.ArgStr "x*y")
    None None None (Some "step") None = Ok x_y
  ∧ GenericSeries.interpolation x_y = "linear".
Proof.
  destruct (new_ignores_interpolation GenericSeries.GenericSeries
              (GenericSeries.ArgStr "x*y") None None None (Some "step") None)
    as [Hsame Hlinear].
  assert (GenericSeries.__init__ GenericSeries.GenericSeries
            (GenericSeries.ArgStr "x*y") None None None (Some "step") None
          = Ok x_y) as Hnew by exact (eq_trans Hsame x_y_constructed).
  split; [exact Hnew|]. apply (Hlinear _ Hnew).
Defined.

Lemma call_never_reads_interpolation_witness :
  ∃ r, GenericSeries.__call__ over_x x_is_1 = Ok r
       ∧ GenericSeries.__call__ (with_interpolation "step" over_x) x_is_1 = Ok r
       ∧ GenericSeries.interpolation r = "linear".
Proof.
  assert (∃ r, GenericSeries.__call__ over_x x_is_1 = Ok r
               ∧ GenericSeries.is_expression r = false)
    as (r & Hcall & Hdiscrete) by (eexists; split; by_evaluation).
  destruct (call_never_reads_interpolation over_x "step" x_is_1) as [Hsame Hmode].
  exists r. split; [exact Hcall|]. split.
  - rewrite Hsame, Hcall. cbn. unfold carried_along. by rewrite Hdiscrete.
  - specialize (Hmode r Hcall). by rewrite Hdiscrete in Hmode.
Defined.

Lemma discrete_constraints_witness :
  is_Ok (GenericSeries.__init__ Profile (GenericSeries.ArgDataArray over_x_array)
           None None None None None) = true
  ∧ dimensions_present Profile (xr.dims over_x_array).
Proof.
  assert (dimensions_present Profile (xr.dims over_x_array)) as Hdims.
  { intros required [= <-] v Hv. exact Hv. }
  split; [|exact Hdims].
  apply (proj1 (discrete_constraints Profile over_x_array None None None None None)).
  right. exists (U_ "m"). split; [reflexivity|]. split; [exact Hdims|].
  intros required [= <-]. reflexivity.
Defined.

Lemma profile_constructed : ∃ s, new_profile = Ok s ∧ GenericSeries.is_expression s = true.
Proof. eexists. split; by_evaluation. Qed.

Lemma expression_constraints_witness :
  ∃ s me ds u,
    new_profile = Ok s
    ∧ GenericSeries._data s = GenericSeries.Expression me
    ∧ GenericSeries.dims s = Ok ds
    ∧ GenericSeries.units s = Ok u
    ∧ variables_fit Profile me
    ∧ dimensions_present Profile ds
    ∧ dimensionality_fits Profile u.
Proof.
  destruct profile_constructed as (s & Hs & He).
  pose proof (λ Hunits, expression_constraints Profile _ _ _ _ _ _ s Hunits Hs He)
    as Hfit.
  destruct (Hfit (NoDup_singleton "x"))
    as (me & ds & u & Hme & _ & Hds & Hu & [Hbase|(Hv & Hd & Hf)]);
    [discriminate Hbase|].
  exists s, me, ds, u.
  exact (conj Hs (conj Hme (conj Hds (conj Hu (conj Hv (conj Hd Hf)))))).
Defined.

Lemma expression_variable_maps_witness :
  ∃ s vu sd,
    new_profile = Ok s
    ∧ GenericSeries.parameter_units s = Some vu
    ∧ GenericSeries._symbol_dims s = Some sd
    ∧ dict_get vu "x" = Some (U_ "s")
    ∧ dict_get sd "x" = Some (xr.DStr "x").
Proof.
  destruct profile_constructed as (s & Hs & He).
  pose proof (λ Hunits, expression_variable_maps Profile _ _ _ _ _ _ s Hunits Hs He)
    as Hall.
  destruct (Hall (NoDup_singleton "x"))
    as (me & ks & vu & sd & Hme & _ & Hvu & Hsd & _ & Hmaps).
  assert (MathematicalExpression.get_variable_names me = ["x"]) as Hnames.
  { assert (∃ s0 me0, new_profile = Ok s0
                      ∧ GenericSeries._data s0 = GenericSeries.Expression me0
                      ∧ MathematicalExpression.get_variable_names me0 = ["x"])
      as (s0 & me0 & Hs0 & Hme0 & Hn0)
      by (do 2 eexists; split; [by_evaluation|]; split; by_evaluation).
    assert (Ok s0 = Ok s) as [= ->] by exact (eq_trans (eq_sym Hs0) Hs).
    assert (GenericSeries.Expression me0 = GenericSeries.Expression me) as [= ->]
      by exact (eq_trans (eq_sym Hme0) Hme).
    exact Hn0. }
  destruct (Hmaps "x") as [Hu Hd]; [rewrite Hnames; left|].
  exists s, vu, sd.
  exact (conj Hs (conj Hvu (conj Hsd (conj Hu Hd)))).
Defined.

Lemma new_discrete_coordinates_witness :
  new_over_x GenericSeries.GenericSeries = Ok over_x
  ∧ GenericSeries.units over_x = Ok (U_ "m")
  ∧ GenericSeries.dims over_x = Ok ["x"]
  ∧ ∃ da cc, GenericSeries.data_array over_x = GenericSeries.Implemented da
             ∧ xr.coords da !! "x" = Some cc
             ∧ xr.c_attrs cc !! "units" = Some "meter".
Proof.
  split; [exact over_x_constructed|].
  pose proof (λ Hcoords, new_discrete_coordinates _ _ _ _ _ _ _ _ Hcoords
                           over_x_constructed) as Hall.
  destruct (Hall (NoDup_singleton "x"))
    as (da & Hda & _ & Hu & Hd & _ & _ & Hc).
  split; [exact Hu|]. split; [exact (Hd _ eq_refl)|].
  destruct (Hc "x" (pint.Quant (quantity [0; 1; 2]%Z "m"))) as (cc & Hcc & _ & _ & Ha);
    [left|].
  exists da, cc.
  exact (conj Hda (conj Hcc Ha)).
Defined.

Lemma call_dimension_check_passes_witness :
  ∃ r input,
    GenericSeries.__call__ over_x x_is_1 = Ok r
    ∧ for_each (GenericSeries.prepare_input over_x) x_is_1 [] = Ok input
    ∧ GenericSeries.__call__ over_x x_is_1
      = (data ← xr_interp_like over_x_array input GenericSeries.default_options;
         GenericSeries.__init__ GenericSeries.GenericSeries
           (GenericSeries.ArgDataArray data) None None None None None).
Proof.
  assert (∃ r, GenericSeries.__call__ over_x x_is_1 = Ok r) as [r Hcall]
    by (eexists; by_evaluation).
  assert (∃ input, for_each (GenericSeries.prepare_input over_x) x_is_1 [] = Ok input)
    as [input Hin] by (eexists; by_evaluation).
  pose proof (λ Hcoords, call_dimension_check_passes _ _ _ _ _ _ _ _ x_is_1 x_is_1
                           input Hcoords over_x_constructed eq_refl Hin) as Hall.
  destruct (Hall (NoDup_singleton "x")) as (da & Hda & _ & _ & Heq).
  exists r, input. split; [exact Hcall|]. split; [exact Hin|].
  assert (GenericSeries.Implemented da = GenericSeries.Implemented over_x_array)
    as [= ->] by exact (eq_trans (eq_sym Hda) eq_refl).
  exact Heq.
Defined.

Lemma call_unknown_variable_witness :
  GenericSeries.__call__ x_y [("z", pint.Plain (vector [1; 2]%Z))]
  = Raise (KeyError "z").
Proof.
  apply (call_unknown_variable GenericSeries.GenericSeries
           (GenericSeries.ArgStr "x*y") None None None None None x_y x_times_y
           [("z", pint.Plain (vector [1; 2]%Z))] "z"
           (pint.Plain (vector [1; 2]%Z)) []).
  - apply NoDup_nil_2.
  - exact x_y_constructed.
  - reflexivity.
  - reflexivity.
  - intros Hz. vm_compute in Hz.
    apply elem_of_cons in Hz as [Hz|Hz]; [discriminate Hz|].
    apply list_elem_of_singleton in Hz. discriminate Hz.
  - intros d Hd. discriminate Hd.
Defined.

Lemma parameter_without_unit_witness :
  GenericSeries.__init__ GenericSeries.GenericSeries (GenericSeries.ArgStr "a*x")
    None None None None (Some [("a", MathematicalExpression.Array plain_array)])
  = Raise (ValueError "Value for parameter a is not a quantity.").
Proof.
  apply (parameter_without_unit GenericSeries.GenericSeries
           (GenericSeries.ArgStr "a*x") None None None None [] "a" plain_array []).
  - by eexists.
  - reflexivity.
  - intros k' da' Hin. by apply elem_of_nil in Hin.
Defined.

Lemma expression_refused_witness :
  GenericSeries.__init__ GenericSeries.GenericSeries (GenericSeries.ArgStr "a")
    None None None None (Some a_is_2)
  = Raise (ValueError "The passed expression has no variables.")
  ∧ GenericSeries.__init__ GenericSeries.GenericSeries (GenericSeries.ArgStr "a*t")
      (Some (GenericSeries.DimsList (xr.DList ["t"])))
      None (Some [("t", "s"); ("x", "m")]) None (Some a_is_2)
    = Raise (KeyError (GenericSeries.not_a_variable "x" a_t))
  ∧ GenericSeries.__init__ GenericSeries.GenericSeries (GenericSeries.ArgStr "a*t")
      None None (Some [("t", "parsec")]) None (Some a_is_2)
    = Raise (UndefinedUnitError "'parsec' is not defined in the unit registry").
Proof.
  assert (Some <$> GenericSeries._update_expression_params a_is_2 = Ok (Some a_is_2))
    as Hps by by_evaluation.
  assert (∃ me, MathematicalExpression.__init__ (MathematicalExpression.FromStr "a")
                  (Some (MathematicalExpression.Dict a_is_2)) = Ok me
                ∧ MathematicalExpression.num_variables me = 0%Z)
    as (me & Hme & Hnone) by (eexists; split; by_evaluation).
  assert (MathematicalExpression.num_variables a_t ≠ 0%Z) as Hone
    by (vm_compute; discriminate).
  assert (MathematicalExpression.get_variable_names a_t = ["t"]) as Hnames
    by reflexivity.
  split; [|split].
  - exact (proj1 (expression_refused GenericSeries.GenericSeries "a" None None
                    None None (Some a_is_2) (Some a_is_2) me Hps Hme) Hnone).
  - apply (proj2 (expression_refused GenericSeries.GenericSeries "a*t"
                    (Some (GenericSeries.DimsList (xr.DList ["t"]))) None
                    (Some [("t", "s"); ("x", "m")]) None (Some a_is_2)
                    (Some a_is_2) a_t Hps a_t_parses)
             Hone [("t", "s")] "x" "m" [] eq_refl).
    + intros k' u' Hk. apply list_elem_of_singleton in Hk as [= -> ->].
      split; [rewrite Hnames; left|reflexivity].
    + rewrite Hnames. intros Hx. apply list_elem_of_singleton in Hx.
      discriminate Hx.
  - apply (proj2 (expression_refused GenericSeries.GenericSeries "a*t"
                    None None (Some [("t", "parsec")]) None (Some a_is_2)
                    (Some a_is_2) a_t Hps a_t_parses)
             Hone [] "t" "parsec" [] eq_refl).
    + intros k' u' Hk. by apply elem_of_nil in Hk.
    + rewrite Hnames. left.
    + reflexivity.
Defined.

Lemma sequence_dims_refused_witness :
  is_Ok (GenericSeries.__init__ GenericSeries.GenericSeries
           (GenericSeries.ArgStr "x*y")
           (Some (GenericSeries.DimsList (xr.DList ["x"; "y"])))
           None None None None) = false
  ∧ GenericSeries.__init__ GenericSeries.GenericSeries (GenericSeries.ArgStr "x*y")
      (Some (GenericSeries.DimsList (xr.DList ["x"]))) None None None None
    = Raise (TypeError "list indices must be integers or slices, not str").
Proof.
  split.
  - apply (proj1 (sequence_dims_refused GenericSeries.GenericSeries "x*y"
                    (xr.DList ["x"; "y"]) None None None)).
  - apply (proj2 (sequence_dims_refused GenericSeries.GenericSeries "x*y"
                    (xr.DList ["x"]) None None None)
             None x_times_y ["x"] "y" [] eq_refl eq_refl).
    + vm_compute. discriminate.
    + reflexivity.
    + intros v' Hv'. apply list_elem_of_singleton in Hv' as ->. reflexivity.
    + reflexivity.
Defined.
End more_sample_facts.
